(** * reposcore-py: [reposcore/analyzer.py]

    A shallow embedding of [RepoAnalyzer.calculate_scores] and
    [RepoAnalyzer.calculate_averages] together with the private helpers
    they call, of [get_emoji], and of the data collection
    ([RepoAnalyzer._handle_api_error] and
    [RepoAnalyzer.collect_PRs_and_issues]), followed by their properties.

    Python values are modelled as the interpreter has them:
    - [int] is unbounded, hence [Z];
    - [float] is IEEE-754 binary64, hence [spec_float] with precision 53
      and maximal exponent 1024, and the arithmetic of the
      standard library's [SpecFloat];
    - a [dict] whose iteration order is observable ([participants],
      [scores], [ranked_scores]) is an association list in insertion
      order, updated with [dict_set]; a [dict] that is only queried with
      [.get] or by key ([activities], [user_info], the counters of a
      participant, [weekly_activity]) is a [gmap];
    - an exception is the [Raise] branch of [result].

    The collection talks to the network and to the clock: the answers of
    [retry_request] and the functions of [datetime] are parameters of
    the model, the requests sent and the levels of the records logged are
    part of the state, and the [while True] loop runs for a given number
    of rounds.  What [response.json()] returns is any decoded JSON value
    ([jvalue]); an operation on a value of the wrong type raises as it
    does in Python, and the exception leaves the method with the instance
    as it is at that point.  The keys of the [participants] that are
    collected are the hashable values ([key]). *)

From Stdlib Require Import ZArith QArith Qabs Qpower Lia Lqa List String.
From Stdlib Require Import Permutation Sorted.
From Stdlib Require Import Floats.SpecFloat.
From Stdlib Require Import Qround Ascii.
From stdpp Require Import gmap strings.

Local Open Scope string_scope.
Local Open Scope Z_scope.

(* ===================================================================== *)
(** * The fragment of the Python runtime used by the scorer               *)
(* ===================================================================== *)

Module Py.

(** ** Exceptions *)

Inductive exn := KeyError | ZeroDivisionError | OverflowError.

Inductive result (A : Type) :=
| Ok (a : A)
| Raise (e : exn).
Arguments Ok {A} a.
Arguments Raise {A} e.

Definition bind {A B} (m : result A) (k : A -> result B) : result B :=
  match m with
  | Ok a => k a
  | Raise e => Raise e
  end.

Notation "'do' x <- m ; k" := (bind m (fun x => k))
  (at level 10, x name, m at level 100, k at level 200).

(** ** Numbers: [int] and [float] *)

Inductive pynum :=
| PyInt (z : Z)
| PyFloat (f : spec_float).

Definition b64_add := SFadd 53 1024.
Definition b64_mul := SFmul 53 1024.
Definition b64_div := SFdiv 53 1024.

(** An integer as an exact (not normalised) binary operand. *)
Definition SF_of_Z (z : Z) : spec_float :=
  match z with
  | Z0 => S754_zero false
  | Zpos p => S754_finite false p 0
  | Zneg p => S754_finite true p 0
  end.

Definition no_overflow (f : spec_float) : result spec_float :=
  match f with
  | S754_infinity _ => Raise OverflowError
  | _ => Ok f
  end.

(** [float(z)]: nearest binary64, ties to even; too large an integer
    raises [OverflowError]. *)
Definition float_of_int (z : Z) : result spec_float :=
  no_overflow (binary_normalize 53 1024 z 0 false).

Definition to_float (x : pynum) : result spec_float :=
  match x with
  | PyInt z => float_of_int z
  | PyFloat f => Ok f
  end.

Definition float_is_zero (f : spec_float) : bool :=
  match f with
  | S754_zero _ => true
  | _ => false
  end.

(** [x / y].  On two integers the quotient of the exact values is rounded
    once ([long_true_divide]); a zero divisor raises [ZeroDivisionError]
    and a quotient beyond the binary64 range raises [OverflowError]. *)
Definition py_truediv (x y : pynum) : result pynum :=
  match x, y with
  | PyInt a, PyInt b =>
      if b =? 0 then Raise ZeroDivisionError
      else do f <- no_overflow (b64_div (SF_of_Z a) (SF_of_Z b)); Ok (PyFloat f)
  | _, _ =>
      do f <- to_float x;
      do g <- to_float y;
      if float_is_zero g then Raise ZeroDivisionError
      else Ok (PyFloat (b64_div f g))
  end.

(** [x * y] *)
Definition py_mul (x y : pynum) : result pynum :=
  match x, y with
  | PyInt a, PyInt b => Ok (PyInt (a * b))
  | _, _ =>
      do f <- to_float x;
      do g <- to_float y;
      Ok (PyFloat (b64_mul f g))
  end.

(** [x + y] *)
Definition py_add (x y : pynum) : result pynum :=
  match x, y with
  | PyInt a, PyInt b => Ok (PyInt (a + b))
  | _, _ =>
      do f <- to_float x;
      do g <- to_float y;
      Ok (PyFloat (b64_add f g))
  end.

(** Nearest integer to [n / d] for [0 < d], ties to the even one. *)
Definition round_half_even_div (n d : Z) : Z :=
  let q := n / d in
  let r := n mod d in
  match 2 * r ?= d with
  | Lt => q
  | Gt => q + 1
  | Eq => if Z.even q then q else q + 1
  end.

(** The number of tenths nearest to the exact value [m * 2^e]. *)
Definition tenths_of (m : positive) (e : Z) : Z :=
  match e with
  | Zneg p => round_half_even_div (10 * Zpos m) (Zpos (2 ^ p))
  | _ => 10 * Zpos m * 2 ^ e
  end.

(** [round(x, 1)] on a float: the exact binary value is rounded to one
    decimal place (ties to even) and the decimal is converted back to the
    nearest binary64; zeros, infinities and NaN are returned as they are. *)
Definition float_round_1 (f : spec_float) : spec_float :=
  match f with
  | S754_finite s m e =>
      match tenths_of m e with
      | Zpos k => b64_div (S754_finite s k 0) (S754_finite false 10 0)
      | _ => S754_zero s
      end
  | _ => f
  end.

(** [round(x, 1)]: an [int] is returned unchanged. *)
Definition py_round_1 (x : pynum) : pynum :=
  match x with
  | PyInt z => PyInt z
  | PyFloat f => PyFloat (float_round_1 f)
  end.

(** ** Insertion-ordered dictionaries with string keys *)

Fixpoint dict_get {V} (d : list (string * V)) (k : string) : option V :=
  match d with
  | [] => None
  | (k', v) :: d' => if String.eqb k' k then Some v else dict_get d' k
  end.

(** [d[k] = v]: an existing key keeps its position, a new key goes last. *)
Fixpoint dict_set {V} (d : list (string * V)) (k : string) (v : V)
  : list (string * V) :=
  match d with
  | [] => [(k, v)]
  | (k', v') :: d' =>
      if String.eqb k' k then (k', v) :: d' else (k', v') :: dict_set d' k v
  end.

Definition dict_keys {V} (d : list (string * V)) : list string := map fst d.
Definition dict_values {V} (d : list (string * V)) : list V := map snd d.

(** ** [sorted(items, key=..., reverse=True)] *)

(** Stable: of two items with equal keys the one that came first stays
    first. *)
Fixpoint insert_desc {A} (key : A -> Z) (x : A) (l : list A) : list A :=
  match l with
  | [] => [x]
  | y :: l' =>
      if key x <? key y then y :: insert_desc key x l' else x :: y :: l'
  end.

Definition sorted_reverse {A} (key : A -> Z) (l : list A) : list A :=
  fold_right (insert_desc key) [] l.

End Py.
Import Py.

(* ===================================================================== *)
(** * [class RepoAnalyzer]                                                *)
(* ===================================================================== *)

(** The [score] attribute: a copy of the class constant [SCORE_WEIGHTS],
    read under the keys ['feat_bug_pr'], ['doc_pr'], ['typo_pr'],
    ['feat_bug_is'] and ['doc_is']. *)
Record weights := {
  feat_bug_pr : Z;
  doc_pr : Z;
  typo_pr : Z;
  feat_bug_is : Z;
  doc_is : Z
}.

Definition SCORE_WEIGHTS : weights :=
  {| feat_bug_pr := 3; doc_pr := 2; typo_pr := 1; feat_bug_is := 2; doc_is := 1 |}.

(** The attributes of the instance that the scorer reads.  [participants]
    lists the items of the dictionary in insertion order; every value is the
    activity dictionary of one user. *)
Record RepoAnalyzer := {
  participants : list (string * gmap string Z);
  score : weights
}.

(** The state in which [__init__] and the data collection leave the
    instance: the weights are those of the class. *)
Definition analyzer_of (ps : list (string * gmap string Z)) : RepoAnalyzer :=
  {| participants := ps; score := SCORE_WEIGHTS |}.

(** [activities.get(key, 0)] *)
Definition get_count (activities : gmap string Z) (key : string) : Z :=
  default 0 (activities !! key).

(** One value of the [scores] dictionary.  The keys ["feat/bug PR"],
    ["document PR"], ["typo PR"], ["feat/bug issue"], ["document issue"] and
    ["total"] are set when the entry is created; ["rate"] and ["rank"] are
    added by [_finalize_scores] and are absent ([None]) before. *)
Record score_entry := {
  feat_bug_PR : pynum;
  document_PR : pynum;
  typo_PR : pynum;
  feat_bug_issue : pynum;
  document_issue : pynum;
  total : Z;
  rate : option pynum;
  rank : option Z
}.

(** [data["rate"] = r] and [data["rank"] = n] *)
Definition set_rate (data : score_entry) (r : pynum) : score_entry :=
  {| feat_bug_PR := feat_bug_PR data; document_PR := document_PR data;
     typo_PR := typo_PR data; feat_bug_issue := feat_bug_issue data;
     document_issue := document_issue data; total := total data;
     rate := Some r; rank := rank data |}.

Definition set_rank (data : score_entry) (n : Z) : score_entry :=
  {| feat_bug_PR := feat_bug_PR data; document_PR := document_PR data;
     typo_PR := typo_PR data; feat_bug_issue := feat_bug_issue data;
     document_issue := document_issue data; total := total data;
     rate := rate data; rank := Some n |}.

(** [score_data[key]] *)
Definition entry_get (data : score_entry) (key : string) : result pynum :=
  if String.eqb key "feat/bug PR" then Ok (feat_bug_PR data)
  else if String.eqb key "document PR" then Ok (document_PR data)
  else if String.eqb key "typo PR" then Ok (typo_PR data)
  else if String.eqb key "feat/bug issue" then Ok (feat_bug_issue data)
  else if String.eqb key "document issue" then Ok (document_issue data)
  else if String.eqb key "total" then Ok (PyInt (total data))
  else if String.eqb key "rate" then
    match rate data with Some r => Ok r | None => Raise KeyError end
  else if String.eqb key "rank" then
    match rank data with Some n => Ok (PyInt n) | None => Raise KeyError end
  else Raise KeyError.

Definition _extract_pr_counts (activities : gmap string Z) : Z * Z * Z * Z * Z :=
  let p_f := get_count activities "p_enhancement" in
  let p_b := get_count activities "p_bug" in
  let p_d := get_count activities "p_documentation" in
  let p_t := get_count activities "p_typo" in
  let p_fb := p_f + p_b in
  (p_f, p_b, p_d, p_t, p_fb).

Definition _extract_issue_counts (activities : gmap string Z) : Z * Z * Z * Z :=
  let i_f := get_count activities "i_enhancement" in
  let i_b := get_count activities "i_bug" in
  let i_d := get_count activities "i_documentation" in
  let i_fb := i_f + i_b in
  (i_f, i_b, i_d, i_fb).

Definition _calculate_valid_counts (p_fb p_d p_t i_fb i_d : Z) : Z * Z :=
  let p_valid := p_fb + Z.min (p_d + p_t) (3 * Z.max p_fb 1) in
  let i_valid := Z.min (i_fb + i_d) (4 * p_valid) in
  (p_valid, i_valid).

Definition _calculate_adjusted_counts (p_fb p_d p_valid i_fb i_valid : Z)
  : Z * Z * Z * Z * Z :=
  let p_fb_at := Z.min p_fb p_valid in
  let p_d_at := Z.min p_d (p_valid - p_fb_at) in
  let p_t_at := p_valid - p_fb_at - p_d_at in
  let i_fb_at := Z.min i_fb i_valid in
  let i_d_at := i_valid - i_fb_at in
  (p_fb_at, p_d_at, p_t_at, i_fb_at, i_d_at).

Definition _calculate_total_score (self : RepoAnalyzer)
  (p_fb_at p_d_at p_t_at i_fb_at i_d_at : Z) : Z :=
  feat_bug_pr (score self) * p_fb_at +
  doc_pr (score self) * p_d_at +
  typo_pr (score self) * p_t_at +
  feat_bug_is (score self) * i_fb_at +
  doc_is (score self) * i_d_at.

Definition _create_score_dict (self : RepoAnalyzer)
  (p_fb_at p_d_at p_t_at i_fb_at i_d_at total : Z) : score_entry :=
  {| feat_bug_PR := PyInt (feat_bug_pr (score self) * p_fb_at);
     document_PR := PyInt (doc_pr (score self) * p_d_at);
     typo_PR := PyInt (typo_pr (score self) * p_t_at);
     feat_bug_issue := PyInt (feat_bug_is (score self) * i_fb_at);
     document_issue := PyInt (doc_is (score self) * i_d_at);
     total := total;
     rate := None;
     rank := None |}.

(** ** The body of the loop of [calculate_scores]

    [locals] holds the values that the local variables of one iteration
    have when the iteration ends, on whichever of the two paths it took,
    together with the entry stored under the participant. *)
Record locals := {
  l_p_fb : Z; l_p_d : Z; l_p_t : Z; l_i_fb : Z; l_i_d : Z;
  l_p_valid : Z; l_i_valid : Z;
  l_p_fb_at : Z; l_p_d_at : Z; l_p_t_at : Z; l_i_fb_at : Z; l_i_d_at : Z;
  l_total : Z;
  l_entry : score_entry
}.

(** The guard of the zero-PR path. *)
Definition zero_pr_guard (p_fb p_d p_t i_fb i_d : Z) : bool :=
  (p_fb =? 0) && (p_d =? 0) && (p_t =? 0) && (0 <? i_fb + i_d).

Definition score_participant (self : RepoAnalyzer) (activities : gmap string Z)
  : locals :=
  let '(p_f, p_b, p_d, p_t, p_fb) := _extract_pr_counts activities in
  let '(i_f, i_b, i_d, i_fb) := _extract_issue_counts activities in
  let '(p_valid, i_valid) := _calculate_valid_counts p_fb p_d p_t i_fb i_d in
  if zero_pr_guard p_fb p_d p_t i_fb i_d then
    let p_valid := 1 in
    let i_valid := Z.min (i_fb + i_d) (4 * p_valid) in
    let p_fb_at := 0 in
    let p_d_at := 0 in
    let p_t_at := if 0 <? p_t then 1 else 0 in
    let i_fb_at := Z.min i_fb i_valid in
    let i_d_at := i_valid - i_fb_at in
    let total :=
      feat_bug_is (score self) * i_fb_at +
      doc_is (score self) * i_d_at +
      typo_pr (score self) * p_t_at in
    {| l_p_fb := p_fb; l_p_d := p_d; l_p_t := p_t; l_i_fb := i_fb; l_i_d := i_d;
       l_p_valid := p_valid; l_i_valid := i_valid;
       l_p_fb_at := p_fb_at; l_p_d_at := p_d_at; l_p_t_at := p_t_at;
       l_i_fb_at := i_fb_at; l_i_d_at := i_d_at;
       l_total := total;
       l_entry :=
         {| feat_bug_PR := PyFloat (S754_zero false);
            document_PR := PyFloat (S754_zero false);
            typo_PR := PyFloat (S754_zero false);
            feat_bug_issue := PyInt (feat_bug_is (score self) * i_fb_at);
            document_issue := PyInt (doc_is (score self) * i_d_at);
            total := total;
            rate := None;
            rank := None |} |}
  else
    let '(p_fb_at, p_d_at, p_t_at, i_fb_at, i_d_at) :=
      _calculate_adjusted_counts p_fb p_d p_valid i_fb i_valid in
    let total := _calculate_total_score self p_fb_at p_d_at p_t_at i_fb_at i_d_at in
    {| l_p_fb := p_fb; l_p_d := p_d; l_p_t := p_t; l_i_fb := i_fb; l_i_d := i_d;
       l_p_valid := p_valid; l_i_valid := i_valid;
       l_p_fb_at := p_fb_at; l_p_d_at := p_d_at; l_p_t_at := p_t_at;
       l_i_fb_at := i_fb_at; l_i_d_at := i_d_at;
       l_total := total;
       l_entry := _create_score_dict self p_fb_at p_d_at p_t_at i_fb_at i_d_at total |}.

(** The loop itself: the state is the pair of [scores] and
    [total_score_sum]. *)
Definition score_step (self : RepoAnalyzer)
  (st : list (string * score_entry) * Z) (item : string * gmap string Z)
  : list (string * score_entry) * Z :=
  let '(scores, total_score_sum) := st in
  let '(participant, activities) := item in
  let l := score_participant self activities in
  (dict_set scores participant (l_entry l), total_score_sum + l_total l).

Definition score_loop (self : RepoAnalyzer) : list (string * score_entry) * Z :=
  fold_left (score_step self) (participants self) ([], 0).

(** ** [_finalize_scores] *)

(** [(total / total_score_sum) * 100 if total_score_sum > 0 else 0] *)
Definition rate_of (total total_score_sum : Z) : result pynum :=
  if 0 <? total_score_sum then
    do q <- py_truediv (PyInt total) (PyInt total_score_sum);
    py_mul q (PyInt 100)
  else Ok (PyInt 0).

(** The first loop: every entry receives its ["rate"]. *)
Fixpoint rate_loop (scores : list (string * score_entry)) (total_score_sum : Z)
  : result (list (string * score_entry)) :=
  match scores with
  | [] => Ok []
  | (participant, data) :: rest =>
      do rate <- rate_of (total data) total_score_sum;
      do rest' <- rate_loop rest total_score_sum;
      Ok ((participant, set_rate data (py_round_1 rate)) :: rest')
  end.

(** [if user_info:] holds for a dictionary that is not empty. *)
Definition truthy (user_info : option (gmap string string)) : bool :=
  match user_info with
  | Some m => negb (bool_decide (m = ∅))
  | None => false
  end.

(** [user_info.get(k, k)] *)
Definition display_name (user_info : option (gmap string string)) (k : string)
  : string :=
  match user_info with
  | Some m => default k (m !! k)
  | None => k
  end.

(** [new_scores[display_name] = scores[k]] *)
Definition relabel_step (user_info : option (gmap string string))
  (new_scores : list (string * score_entry)) (item : string * score_entry)
  : list (string * score_entry) :=
  let '(k, data) := item in
  dict_set new_scores (display_name user_info k) data.

Definition relabel (user_info : option (gmap string string))
  (scores : list (string * score_entry)) : list (string * score_entry) :=
  if truthy user_info then fold_left (relabel_step user_info) scores []
  else scores.

(** The state of the ranking loop. *)
Record rank_state := {
  ranked_scores : list (string * score_entry);
  last_score : option Z;
  current_rank : Z;
  rank_counter : Z
}.

(** [data["total"] != last_score], where [last_score] starts as [None]. *)
Definition differs (t : Z) (last_score : option Z) : bool :=
  match last_score with
  | Some s => negb (t =? s)
  | None => true
  end.

Definition rank_step (st : rank_state) (item : string * score_entry) : rank_state :=
  let '(user, data) := item in
  let rank_counter := rank_counter st + 1 in
  let current_rank :=
    if differs (total data) (last_score st) then rank_counter else current_rank st in
  let last_score :=
    if differs (total data) (last_score st) then Some (total data) else last_score st in
  let data := set_rank data current_rank in
  {| ranked_scores := dict_set (ranked_scores st) user data;
     last_score := last_score;
     current_rank := current_rank;
     rank_counter := rank_counter |}.

Definition rank_loop (sorted_items : list (string * score_entry)) : rank_state :=
  fold_left rank_step sorted_items
    {| ranked_scores := []; last_score := None; current_rank := 0; rank_counter := 0 |}.

Definition _finalize_scores (self : RepoAnalyzer)
  (scores : list (string * score_entry)) (total_score_sum : Z)
  (user_info : option (gmap string string))
  : result (list (string * score_entry)) :=
  do scores <- rate_loop scores total_score_sum;
  let scores := relabel user_info scores in
  let sorted_items := sorted_reverse (fun x => total (snd x)) scores in
  Ok (ranked_scores (rank_loop sorted_items)).

(** ** [calculate_scores] *)

Definition calculate_scores (self : RepoAnalyzer)
  (user_info : option (gmap string string)) (min_contributions : Z)
  : result (list (string * score_entry)) :=
  let '(scores, total_score_sum) := score_loop self in
  let scores :=
    if 0 <? min_contributions then
      List.filter (fun '(user, s) => min_contributions <=? total s) scores
    else scores in
  _finalize_scores self scores total_score_sum user_info.

(** ** [calculate_averages] *)

Definition zero_averages : list (string * pynum) :=
  [("feat/bug PR", PyInt 0); ("document PR", PyInt 0); ("typo PR", PyInt 0);
   ("feat/bug issue", PyInt 0); ("document issue", PyInt 0); ("total", PyInt 0);
   ("rate", PyInt 0)].

Definition initial_totals : list (string * pynum) :=
  [("feat/bug PR", PyInt 0); ("document PR", PyInt 0); ("typo PR", PyInt 0);
   ("feat/bug issue", PyInt 0); ("document issue", PyInt 0); ("total", PyInt 0)].

(** [totals[category] += score_data[category]] for every category. *)
Fixpoint add_categories (score_data : score_entry) (categories : list string)
  (totals : list (string * pynum)) : result (list (string * pynum)) :=
  match categories with
  | [] => Ok totals
  | category :: rest =>
      do old <- match dict_get totals category with
                | Some v => Ok v
                | None => Raise KeyError
                end;
      do x <- entry_get score_data category;
      do new <- py_add old x;
      add_categories score_data rest (dict_set totals category new)
  end.

Fixpoint totals_loop (scores : list (string * score_entry))
  (totals : list (string * pynum)) : result (list (string * pynum)) :=
  match scores with
  | [] => Ok totals
  | (participant, score_data) :: rest =>
      do totals' <- add_categories score_data (dict_keys totals) totals;
      totals_loop rest totals'
  end.

(** [{category: total / num_participants for category, total in totals.items()}] *)
Fixpoint divide_all (totals : list (string * pynum)) (num_participants : Z)
  : result (list (string * pynum)) :=
  match totals with
  | [] => Ok []
  | (category, t) :: rest =>
      do q <- py_truediv t (PyInt num_participants);
      do rest' <- divide_all rest num_participants;
      Ok ((category, q) :: rest')
  end.

(** [sum(score_data["rate"] for score_data in scores.values())]: the
    generator is consumed as the sum proceeds, by additions from the left
    that start from the integer [0]. *)
Fixpoint sum_rates (acc : pynum) (values : list score_entry) : result pynum :=
  match values with
  | [] => Ok acc
  | score_data :: rest =>
      do r <- entry_get score_data "rate";
      do acc' <- py_add acc r;
      sum_rates acc' rest
  end.

Definition calculate_averages (self : RepoAnalyzer)
  (scores : list (string * score_entry)) : result (list (string * pynum)) :=
  match scores with
  | [] => Ok zero_averages
  | _ :: _ =>
      let num_participants := Z.of_nat (length scores) in
      do totals <- totals_loop scores initial_totals;
      do averages <- divide_all totals num_participants;
      do total_rates <- sum_rates (PyInt 0) (dict_values scores);
      do mean_rate <-
        (if 0 <? num_participants
         then py_truediv total_rates (PyInt num_participants)
         else Ok (PyInt 0));
      Ok (dict_set averages "rate" mean_rate)
  end.

(* ===================================================================== *)
(** * Vocabulary of the statements                                        *)
(* ===================================================================== *)

(** The exact value of a finite float, and of a number. *)
Definition pow2 (e : Z) : Q := Qpower 2 e.

Definition SF2Q (f : spec_float) : Q :=
  match f with
  | S754_finite s m e =>
      ((if s then inject_Z (Zneg m) else inject_Z (Zpos m)) * pow2 e)%Q
  | _ => 0%Q
  end.

Definition num_value (x : pynum) : Q :=
  match x with
  | PyInt z => inject_Z z
  | PyFloat f => SF2Q f
  end.

Definition is_finite (x : pynum) : bool :=
  match x with
  | PyInt _ => true
  | PyFloat (S754_finite _ _ _) => true
  | PyFloat (S754_zero _) => true
  | PyFloat _ => false
  end.

(** [x == 0] on numbers. *)
Definition num_is_zero (x : pynum) : bool :=
  match x with
  | PyInt z => z =? 0
  | PyFloat f => float_is_zero f
  end.

(** The value of the ["rate"] of an entry, [0] when the key is absent. *)
Definition rate_value (data : score_entry) : Q :=
  match rate data with
  | Some r => num_value r
  | None => 0%Q
  end.

Definition sum_Q (l : list Q) : Q := fold_right Qplus 0%Q l.

Definition sum_Z (l : list Z) : Z := fold_right Z.add 0 l.

(** The seven counters that the scorer reads are not negative. *)
Definition nonneg_counts (activities : gmap string Z) : bool :=
  forallb (fun key => 0 <=? get_count activities key)
    ["p_enhancement"; "p_bug"; "p_documentation"; "p_typo";
     "i_enhancement"; "i_bug"; "i_documentation"].

(** A well-formed [participants]: a dictionary (no key occurs twice) whose
    counters are not negative. *)
Definition well_formed (ps : list (string * gmap string Z)) : Prop :=
  List.NoDup (map fst ps) /\ forallb (fun p => nonneg_counts (snd p)) ps = true.

(** The total of one participant and the grand total, as the loop of
    [calculate_scores] accumulates them. *)
Definition participant_total (self : RepoAnalyzer) (p : string * gmap string Z) : Z :=
  l_total (score_participant self (snd p)).

Definition grand_total (self : RepoAnalyzer) : Z :=
  sum_Z (map (participant_total self) (participants self)).

(** The number of entries of [d] whose total is strictly greater than [t]. *)
Definition count_above (t : Z) (d : list (string * score_entry)) : Z :=
  Z.of_nat (length (List.filter (fun x => t <? total (snd x)) d)).

(** The entry that [calculate_scores] builds for one participant, before
    rate and rank. *)
Definition base_entry (self : RepoAnalyzer) (activities : gmap string Z)
  : score_entry :=
  l_entry (score_participant self activities).

(** Two entries agree on everything except the rank. *)
Definition same_but_rank (a b : score_entry) : Prop :=
  feat_bug_PR a = feat_bug_PR b /\ document_PR a = document_PR b /\
  typo_PR a = typo_PR b /\ feat_bug_issue a = feat_bug_issue b /\
  document_issue a = document_issue b /\ total a = total b /\ rate a = rate b.

(** The participants that pass the [min_contributions] filter: the filter
    is only applied for a positive threshold. *)
Definition survives (self : RepoAnalyzer) (min_contributions : Z)
  (p : string * gmap string Z) : bool :=
  negb (0 <? min_contributions) || (min_contributions <=? participant_total self p).

(** The sum of the ["rate"] values of a result. *)
Definition rate_sum (r : list (string * score_entry)) : Q :=
  sum_Q (map (fun x => rate_value (snd x)) r).

(* ===================================================================== *)
(** * Notions used in the proofs                                          *)
(* ===================================================================== *)

(** [v] lies in the cell of width [2^e] that starts at [m * 2^e]. *)
Definition cell (m e : Z) (v : Q) : Prop :=
  (inject_Z m * pow2 e <= v /\ v < inject_Z (m + 1) * pow2 e)%Q.

(** The float with sign [s], mantissa [m] and exponent [e]. *)
Definition SF_of_mantissa (s : bool) (m e : Z) : spec_float :=
  match m with
  | Z0 => S754_zero s
  | Zpos p => S754_finite s p e
  | Zneg _ => S754_nan
  end.

Definition descending {A} (key : A -> Z) (l : list A) : Prop :=
  StronglySorted (fun a b => key b <= key a) l.

(** The sort key of [_finalize_scores]. *)
Definition entry_total (x : string * score_entry) : Z := total (snd x).

(** An item with its competition rank in [l]. *)
Definition with_rank (l : list (string * score_entry)) (x : string * score_entry)
  : string * score_entry :=
  (fst x, set_rank (snd x) (1 + count_above (total (snd x)) l)).

(** The invariant of the ranking loop once the items [pre] are done. *)
Definition rank_inv (pre : list (string * score_entry)) (st : rank_state) : Prop :=
  ranked_scores st = map (with_rank pre) pre /\
  rank_counter st = Z.of_nat (length pre) /\
  match rev pre with
  | [] => last_score st = None
  | y :: _ =>
      last_score st = Some (total (snd y)) /\
      current_rank st = 1 + count_above (total (snd y)) pre
  end.

(** The stages of [calculate_scores] on a dictionary without repeated
    keys: the entries after the loop, after the filter, after the rates,
    after sorting, and after ranking. *)
Definition scored (self : RepoAnalyzer) (p : string * gmap string Z)
  : string * score_entry :=
  (fst p, base_entry self (snd p)).

Definition kept_scores (min_contributions : Z) (scores : list (string * score_entry))
  : list (string * score_entry) :=
  if 0 <? min_contributions then
    List.filter (fun '(user, s) => min_contributions <=? total s) scores
  else scores.

Definition rated_entry (total_score_sum : Z) (x : string * score_entry)
  : string * score_entry :=
  (fst x,
   set_rate (snd x)
     (py_round_1 (match rate_of (total (snd x)) total_score_sum with
                  | Ok r => r
                  | Raise _ => PyInt 0
                  end))).

Definition rated_scores (self : RepoAnalyzer) (min_contributions : Z)
  : list (string * score_entry) :=
  map (rated_entry (grand_total self))
    (kept_scores min_contributions (map (scored self) (participants self))).

Definition final_sorted (self : RepoAnalyzer) (user_info : option (gmap string string))
  (min_contributions : Z) : list (string * score_entry) :=
  sorted_reverse entry_total (relabel user_info (rated_scores self min_contributions)).

Definition ranked_result (self : RepoAnalyzer) (user_info : option (gmap string string))
  (min_contributions : Z) : list (string * score_entry) :=
  map (with_rank (final_sorted self user_info min_contributions))
    (final_sorted self user_info min_contributions).

(* ===================================================================== *)
(** * Sample inputs                                                       *)
(* ===================================================================== *)

(** One feature issue and nothing else. *)
Definition only_one_issue : gmap string Z := {[ "i_enhancement" := 1 ]}.

(** One feature issue, two documentation issues, no pull request. *)
Definition issues_only : gmap string Z :=
  {[ "i_enhancement" := 1; "i_documentation" := 2 ]}.

(** Totals 6 and 1. *)
Definition filtered_participants : list (string * gmap string Z) :=
  [("a", {[ "p_enhancement" := 2 ]}); ("b", {[ "p_typo" := 1 ]})].

(** Totals 6, 4 and 1. *)
Definition three_participants : list (string * gmap string Z) :=
  [("alice", {[ "p_enhancement" := 2 ]});
   ("bob", issues_only);
   ("carol", {[ "p_typo" := 1 ]})].

(** Two of the three share a display name. *)
Definition team_names : option (gmap string string) :=
  Some {[ "alice" := "team"; "carol" := "team" ]}.

(* ===================================================================== *)
(** * [get_emoji]                                                         *)
(* ===================================================================== *)

(** [x >= n] for a number [x] and an integer literal [n] that binary64
    represents exactly; a NaN compares false. *)
Definition py_ge (x : pynum) (n : Z) : bool :=
  match x with
  | PyInt z => n <=? z
  | PyFloat f =>
      match SFcompare f (binary_normalize 53 1024 n 0 false) with
      | Some Gt | Some Eq => true
      | _ => false
      end
  end.

Definition get_emoji (score : pynum) : string :=
  if py_ge score 90 then "🌟"
  else if py_ge score 80 then "⭐"
  else if py_ge score 70 then "🎯"
  else if py_ge score 60 then "🎨"
  else if py_ge score 50 then "🌱"
  else if py_ge score 40 then "🍀"
  else if py_ge score 30 then "🌿"
  else if py_ge score 20 then "🍂"
  else if py_ge score 10 then "🍁"
  else "🌑".

(* ===================================================================== *)
(** * The data collection                                                 *)
(* ===================================================================== *)

Module Collector.

(** ** What is logged: the level of each record, in order *)

Inductive log_level := ERROR | WARNING | INFO | DEBUG.

(** The status codes that [ERROR_MESSAGES] has a message for. *)
Definition ERROR_MESSAGES : list Z := [401; 403; 404; 500; 503; 422].

Definition EXCLUDED_USERS : list string := ["kyahnu"; "kyagrd"].

(** ** Exceptions *)

Inductive error :=
| ValueError          (* [datetime.fromisoformat] on a malformed string *)
| TypeError           (* a value of the wrong type; [max] of a naive and an
                         aware datetime *)
| AttributeError      (* [.get] on a value that is not a [dict] *)
| KeyError
| OverflowError       (* [astimezone] beyond the range of [datetime] *)
| UnboundLocalError
| JSONDecodeError     (* [response.json()] on a body that is not JSON *)
| RequestFailed.      (* whatever [retry_request] raises *)

(** An expression returns a value or raises. *)
Inductive evaluated (A : Type) :=
| Returns (a : A)
| Raises (e : error).
Arguments Returns {A} a.
Arguments Raises {A} e.

Definition and_then {A B} (m : evaluated A) (k : A -> evaluated B) : evaluated B :=
  match m with
  | Returns a => k a
  | Raises e => Raises e
  end.

Notation "'step' x <- m ; k" := (and_then m (fun x => k))
  (at level 10, x name, m at level 100, k at level 200).

(** How the body of a loop ends: it goes on with the next round, the
    method returns, or an exception leaves the method. *)
Inductive signal :=
| Next
| Return
| Raise (e : error).

(** ** Decoded JSON

    What [response.json()] returns: [None], a [bool], an [int] or a
    [float], a [str], a [list], or a [dict] whose keys are strings.
    [JDict] lists the items of the [dict] in order. *)

#[local] Unset Elimination Schemes.
Inductive jvalue :=
| JNull
| JBool (b : bool)
| JNum (n : pynum)
| JStr (s : string)
| JList (elements : list jvalue)
| JDict (members : list (string * jvalue)).
#[local] Set Elimination Schemes.

(** [bool(v)] *)
Definition py_bool (v : jvalue) : bool :=
  match v with
  | JNull => false
  | JBool b => b
  | JNum n => negb (num_is_zero n)
  | JStr s => negb (String.eqb s "")
  | JList elements => match elements with [] => false | _ :: _ => true end
  | JDict members => match members with [] => false | _ :: _ => true end
  end.

(** [v is None] *)
Definition is_none (v : jvalue) : bool :=
  match v with
  | JNull => true
  | _ => false
  end.

(** [v == s] for a string [s] *)
Definition py_eq_str (v : jvalue) (s : string) : bool :=
  match v with
  | JStr t => String.eqb t s
  | _ => false
  end.

(** [v.get(key, default)]; [v.get(key)] is [v.get(key, None)].  Only a
    [dict] has the method. *)
Definition py_get (v : jvalue) (key : string) (default : jvalue) : evaluated jvalue :=
  match v with
  | JDict members =>
      Returns (match dict_get members key with
               | Some x => x
               | None => default
               end)
  | _ => Raises AttributeError
  end.

(** [key in v] for a string [key]: a key of a [dict], an element of a
    [list], a part of a [str]. *)
Definition py_in (key : string) (v : jvalue) : evaluated bool :=
  match v with
  | JDict members =>
      Returns (match dict_get members key with Some _ => true | None => false end)
  | JList elements => Returns (existsb (fun x => py_eq_str x key) elements)
  | JStr s =>
      Returns (match String.index 0 key s with Some _ => true | None => false end)
  | _ => Raises TypeError
  end.

(** [v[key]] for a string [key] *)
Definition py_item (v : jvalue) (key : string) : evaluated jvalue :=
  match v with
  | JDict members =>
      match dict_get members key with
      | Some x => Returns x
      | None => Raises KeyError
      end
  | _ => Raises TypeError
  end.

(** What [for x in v] goes through: the elements of a [list], the keys
    of a [dict], the characters of a [str]. *)
Definition py_iter (v : jvalue) : evaluated (list jvalue) :=
  match v with
  | JList elements => Returns elements
  | JDict members => Returns (map (fun m => JStr (fst m)) members)
  | JStr s => Returns (map (fun c => JStr (String c "")) (list_ascii_of_string s))
  | _ => Raises TypeError
  end.

(** [x in ('completed', 'reopened', None)] *)
Definition counted_reason (state_reason : jvalue) : bool :=
  py_eq_str state_reason "completed" || py_eq_str state_reason "reopened" ||
  is_none state_reason.

(** ** Keys of [participants]

    A key stands for the values that are equal to it and have its hash:
    [True], [1] and [1.0] are one key, and so are [False], [0], [0.0] and
    [-0.0].  The decoder returns one object for every [NaN], which is
    found again by identity.  A [list] and a [dict] cannot be hashed. *)

Inductive key :=
| KNone
| KInt (z : Z)
| KFloat (f : spec_float)       (* not an integer *)
| KStr (s : string).

(** The value of a float when it is an integer. *)
Definition integral (f : spec_float) : option Z :=
  match f with
  | S754_zero _ => Some 0
  | S754_finite s m (Zneg p) =>
      if (Zpos m mod 2 ^ Zpos p =? 0)
      then Some ((if s then -1 else 1) * (Zpos m / 2 ^ Zpos p))
      else None
  | S754_finite s m e => Some ((if s then -1 else 1) * (Zpos m * 2 ^ e))
  | _ => None
  end.

(** [hash(v)], as far as it decides which key [v] is. *)
Definition py_hash (v : jvalue) : evaluated key :=
  match v with
  | JNull => Returns KNone
  | JBool b => Returns (KInt (if b then 1 else 0))
  | JNum (PyInt z) => Returns (KInt z)
  | JNum (PyFloat f) =>
      Returns (match integral f with
               | Some z => KInt z
               | None => KFloat f
               end)
  | JStr s => Returns (KStr s)
  | JList _ => Raises TypeError
  | JDict _ => Raises TypeError
  end.

#[global] Instance spec_float_eq_dec : EqDecision spec_float.
Proof. solve_decision. Defined.

#[global] Instance key_eq_dec : EqDecision key.
Proof. solve_decision. Defined.

(** [d.get(k)] and [d[k] = v] on a dictionary in insertion order. *)
Fixpoint lookup {V} (d : list (key * V)) (k : key) : option V :=
  match d with
  | [] => None
  | (k0, v0) :: d => if bool_decide (k0 = k) then Some v0 else lookup d k
  end.

Fixpoint store {V} (d : list (key * V)) (k : key) (v : V) : list (key * V) :=
  match d with
  | [] => [(k, v)]
  | (k0, v0) :: d =>
      if bool_decide (k0 = k) then (k0, v) :: d else (k0, v0) :: store d k v
  end.

(** ** The answers of [retry_request]

    To a request for a page of the issue list: the status, the decoded
    body ([None] when [response.json()] raises) and the [link] header.  To
    a request for the details of a pull request: the status and the
    decoded body. *)
Record issues_response := {
  status_code : Z;
  json : option jvalue;
  link : option string
}.

Record pull_response := {
  pull_status_code : Z;
  pull_json : option jvalue
}.

Inductive request :=
| IssuesPage (page : Z)
| PullDetails (pr_number : jvalue).

(** ** The instance *)

Section Instance.

Context {datetime date : Type}.

Record analyzer := {
  dry_run : bool;
  _is_test_repo : bool;
  _is_multiple_repos : bool;
  semester_start_date : option date;
  participants : list (key * gmap string Z);
  weekly_activity : gmap Z (Z * Z);          (* week -> ('pr', 'issue') *)
  _data_collected : bool;
  __previous_create_at : option datetime;
  log : list log_level;
  requests : list request
}.

Definition set_participants (ps : list (key * gmap string Z)) (self : analyzer) :=
  {| dry_run := dry_run self; _is_test_repo := _is_test_repo self;
     _is_multiple_repos := _is_multiple_repos self;
     semester_start_date := semester_start_date self;
     participants := ps; weekly_activity := weekly_activity self;
     _data_collected := _data_collected self;
     __previous_create_at := __previous_create_at self;
     log := log self; requests := requests self |}.

Definition set_weekly_activity (w : gmap Z (Z * Z)) (self : analyzer) :=
  {| dry_run := dry_run self; _is_test_repo := _is_test_repo self;
     _is_multiple_repos := _is_multiple_repos self;
     semester_start_date := semester_start_date self;
     participants := participants self; weekly_activity := w;
     _data_collected := _data_collected self;
     __previous_create_at := __previous_create_at self;
     log := log self; requests := requests self |}.

Definition set_data_collected (b : bool) (self : analyzer) :=
  {| dry_run := dry_run self; _is_test_repo := _is_test_repo self;
     _is_multiple_repos := _is_multiple_repos self;
     semester_start_date := semester_start_date self;
     participants := participants self; weekly_activity := weekly_activity self;
     _data_collected := b;
     __previous_create_at := __previous_create_at self;
     log := log self; requests := requests self |}.

Definition set_previous_create_at (d : option datetime) (self : analyzer) :=
  {| dry_run := dry_run self; _is_test_repo := _is_test_repo self;
     _is_multiple_repos := _is_multiple_repos self;
     semester_start_date := semester_start_date self;
     participants := participants self; weekly_activity := weekly_activity self;
     _data_collected := _data_collected self;
     __previous_create_at := d;
     log := log self; requests := requests self |}.

(** [logger.<level>(...)] *)
Definition emit (level : log_level) (self : analyzer) :=
  {| dry_run := dry_run self; _is_test_repo := _is_test_repo self;
     _is_multiple_repos := _is_multiple_repos self;
     semester_start_date := semester_start_date self;
     participants := participants self; weekly_activity := weekly_activity self;
     _data_collected := _data_collected self;
     __previous_create_at := __previous_create_at self;
     log := (log self ++ [level])%list; requests := requests self |}.

(** A request is sent. *)
Definition send (r : request) (self : analyzer) :=
  {| dry_run := dry_run self; _is_test_repo := _is_test_repo self;
     _is_multiple_repos := _is_multiple_repos self;
     semester_start_date := semester_start_date self;
     participants := participants self; weekly_activity := weekly_activity self;
     _data_collected := _data_collected self;
     __previous_create_at := __previous_create_at self;
     log := log self; requests := (requests self ++ [r])%list |}.

(** A statement evaluates an expression: when the expression raises, the
    exception leaves the method with the instance as it is. *)
Definition evaluate {A} (m : evaluated A) (self : analyzer)
  (k : A -> signal * analyzer) : signal * analyzer :=
  match m with
  | Returns a => k a
  | Raises e => (Raise e, self)
  end.

Notation "'step' x <- m 'in' self ; k" := (evaluate m self (fun x => k))
  (at level 10, x name, m at level 100, self at level 100, k at level 200).

(** ** [_handle_api_error] *)

Definition _handle_api_error (self : analyzer) (status_code : Z) : bool * analyzer :=
  if existsb (Z.eqb status_code) ERROR_MESSAGES then
    (true, set_data_collected false (emit ERROR self))
  else if negb (status_code =? 200) then
    (true, set_data_collected false (emit WARNING self))
  else (false, self).

(** ** One item *)

(** [item.get('user', {}).get('login', 'Unknown')] and the key that it is
    in [participants]: a [user] that is [null] has no [.get], and a
    [login] that is a [list] or a [dict] cannot be hashed when
    [author not in self.participants] looks it up. *)
Definition author_of (item : jvalue) : evaluated key :=
  step user <- py_get item "user" (JDict []);
  step author <- py_get user "login" (JStr "Unknown");
  py_hash author.

(** [[label.get('name', '') for label in labels if label.get('name')]] *)
Fixpoint names_of (labels : list jvalue) : evaluated (list jvalue) :=
  match labels with
  | [] => Returns []
  | label :: rest =>
      step name <- py_get label "name" JNull;
      if py_bool name then
        step name <- py_get label "name" (JStr "");
        step names <- names_of rest;
        Returns (name :: names)
      else names_of rest
  end.

(** [labels = item.get('labels', [])] and the comprehension over it. *)
Definition label_names_of (item : jvalue) : evaluated (list jvalue) :=
  step labels <- py_get item "labels" (JList []);
  step labels <- py_iter labels;
  names_of labels.

(** ['pull_request' in item and item.get('pull_request', {}).get('merged_at')] *)
Definition merged_pull_request (item : jvalue) : evaluated bool :=
  step is_pull_request <- py_in "pull_request" item;
  if is_pull_request then
    step pull_request <- py_get item "pull_request" (JDict []);
    step merged_at <- py_get pull_request "merged_at" JNull;
    Returns (py_bool merged_at)
  else Returns false.

Definition new_counters : gmap string Z :=
  {[ "p_enhancement" := 0; "p_bug" := 0; "p_documentation" := 0; "p_typo" := 0;
     "i_enhancement" := 0; "i_bug" := 0; "i_documentation" := 0 ]}.

(** [self.participants[author][counter] += 1] *)
Definition credit (author : key) (counter : string) (self : analyzer)
  : signal * analyzer :=
  match lookup (participants self) author with
  | Some info =>
      match info !! counter with
      | Some n =>
          (Next, set_participants
                   (store (participants self) author (<[counter := n + 1]> info)) self)
      | None => (Raise KeyError, self)
      end
  | None => (Raise KeyError, self)
  end.

(** [self.weekly_activity[week_index]['pr'] += 1] on a [defaultdict]. *)
Definition count_week_pr (week_index : Z) (self : analyzer) : analyzer :=
  let '(pr, issue) := default (0, 0) (weekly_activity self !! week_index) in
  set_weekly_activity (<[week_index := (pr + 1, issue)]> (weekly_activity self)) self.

Definition count_week_issue (week_index : Z) (self : analyzer) : analyzer :=
  let '(pr, issue) := default (0, 0) (weekly_activity self !! week_index) in
  set_weekly_activity (<[week_index := (pr, issue + 1)]> (weekly_activity self)) self.

(** The library functions on dates and the network, as the method uses
    them: [datetime.fromisoformat] on a string ([None] when it raises
    [ValueError]), the week of a datetime counted from the start of the
    semester ([None] when the conversion to the time zone raises
    [OverflowError]), [max] on two datetimes ([None] when it raises
    [TypeError]), and [retry_request] for a page of the issue list and
    for the details of a pull request ([None] when it raises). *)
Variable fromisoformat : string -> option datetime.
Variable week_index_of : date -> datetime -> option Z.
Variable max_datetime : datetime -> datetime -> option datetime.
Variable get_issues : Z -> option issues_response.
Variable get_pull : jvalue -> option pull_response.

(** [datetime.fromisoformat(v)]: the argument must be a [str]. *)
Definition parse_datetime (v : jvalue) : evaluated datetime :=
  match v with
  | JStr s =>
      match fromisoformat s with
      | Some d => Returns d
      | None => Raises ValueError
      end
  | _ => Raises TypeError
  end.

(** The block under [if self.semester_start_date]. *)
Definition count_week (self : analyzer) (item : jvalue)
  (server_create_datetime : datetime) : evaluated analyzer :=
  match semester_start_date self with
  | Some start =>
      match week_index_of start server_create_datetime with
      | None => Raises OverflowError
      | Some week_index =>
          step merged <- merged_pull_request item;
          if merged then Returns (count_week_pr week_index self)
          else
            step state_reason <- py_get item "state_reason" JNull;
            if counted_reason state_reason
            then Returns (count_week_issue week_index self)
            else Returns self
      end
  | None => Returns self
  end.

(** [server_create_datetime if self.__previous_create_at is None
     else max(self.__previous_create_at, server_create_datetime)] *)
Definition latest_of (self : analyzer) (server_create_datetime : datetime)
  : evaluated datetime :=
  match __previous_create_at self with
  | None => Returns server_create_datetime
  | Some previous =>
      match max_datetime previous server_create_datetime with
      | Some latest => Returns latest
      | None => Raises TypeError
      end
  end.

(** [if author not in self.participants: self.participants[author] = {...}] *)
Definition register (author : key) (self : analyzer) : analyzer :=
  match lookup (participants self) author with
  | Some _ => self
  | None => set_participants (store (participants self) author new_counters) self
  end.

(** The credit for a pull request, once [merged] is known. *)
Definition credit_pull_request (merged : bool) (label_names : list jvalue)
  (author : key) (self : analyzer) : signal * analyzer :=
  if merged then
    match label_names with
    | first_label :: _ =>
        if py_eq_str first_label "enhancement" || py_eq_str first_label "bug" then
          credit author "p_enhancement" self
        else if py_eq_str first_label "documentation" then
          credit author "p_documentation" self
        else if py_eq_str first_label "typo" then
          credit author "p_typo" self
        else (Next, self)
    | [] => (Next, self)
    end
  else (Next, self).

(** The credit for an issue. *)
Definition credit_issue (state_reason : jvalue) (label_names : list jvalue)
  (author : key) (self : analyzer) : signal * analyzer :=
  if counted_reason state_reason then
    match label_names with
    | first_label :: _ =>
        if py_eq_str first_label "enhancement" || py_eq_str first_label "bug" then
          credit author "i_enhancement" self
        else if py_eq_str first_label "documentation" then
          credit author "i_documentation" self
        else (Next, self)
    | [] => (Next, self)
    end
  else (Next, self).

(** The body of [elif item.get('state') == 'closed'], with the credit
    that follows it. *)
Definition ask_pull_details (pr_number : jvalue) (label_names : list jvalue)
  (author : key) (self : analyzer) : signal * analyzer :=
  let self := send (PullDetails pr_number) self in
  match get_pull pr_number with
  | None => (Next, self)
  | Some pr_resp =>
      let '(failed, self) := _handle_api_error self (pull_status_code pr_resp) in
      if failed then (Next, self)
      else
        match pull_json pr_resp with
        | None => (Raise JSONDecodeError, self)
        | Some pr_data =>
            step merged_at <- py_get pr_data "merged_at" JNull in self;
            credit_pull_request (py_bool merged_at) label_names author self
        end
  end.

(** The body of [for item in items]. *)
Definition process_item (self : analyzer) (item : jvalue) : signal * analyzer :=
  step has_created_at <- py_in "created_at" item in self;
  if negb has_created_at then (Return, emit WARNING self)
  else
  step created_at <- py_item item "created_at" in self;
  step server_create_datetime <- parse_datetime created_at in self;
  step self <- count_week self item server_create_datetime in self;
  step latest <- latest_of self server_create_datetime in self;
  let self := set_previous_create_at (Some latest) self in
  step author <- author_of item in self;
  let self := register author self in
  step label_names <- label_names_of item in self;
  step state_reason <- py_get item "state_reason" JNull in self;
  step is_pull_request <- py_in "pull_request" item in self;
  if is_pull_request then
    step pr_number <- py_get item "number" JNull in self;
    if is_none pr_number then (Next, self)
    else
    step is_pull_request <- py_in "pull_request" item in self;
    if is_pull_request then
      step pr_number <- py_get item "number" JNull in self;
      if is_none pr_number then (Next, self)
      else
      step pull_request <- py_get item "pull_request" (JDict []) in self;
      step merged_at_inline <- py_get pull_request "merged_at" JNull in self;
      credit_pull_request (py_bool merged_at_inline) label_names author self
    else
      step state <- py_get item "state" JNull in self;
      if py_eq_str state "closed"
      then ask_pull_details pr_number label_names author self
      else (Raise UnboundLocalError, self)
  else credit_issue state_reason label_names author self.

Fixpoint process_items (self : analyzer) (items : list jvalue) : signal * analyzer :=
  match items with
  | [] => (Next, self)
  | item :: rest =>
      match process_item self item with
      | (Next, self) => process_items self rest
      | stop => stop
      end
  end.

(** ['rel="next"' in link_header] *)
Definition rel_next : string :=
  "rel=" ++ String (ascii_of_nat 34) "next" ++ String (ascii_of_nat 34) "".

Definition has_next (response : issues_response) : bool :=
  match String.index 0 rel_next (default "" (link response)) with
  | Some _ => true
  | None => false
  end.

(** The [while True] loop, for at most [fuel] pages.  [Next] says that
    the loop was left by [break]. *)
Fixpoint collect_pages (fuel : nat) (page : Z) (self : analyzer)
  : option (signal * analyzer) :=
  match fuel with
  | O => None
  | S fuel =>
      let self := send (IssuesPage page) self in
      match get_issues page with
      | None => Some (Raise RequestFailed, self)
      | Some response =>
          let '(failed, self) := _handle_api_error self (status_code response) in
          if failed then Some (Return, self)
          else
            match json response with
            | None => Some (Raise JSONDecodeError, self)
            | Some items =>
                if negb (py_bool items) then Some (Next, self)
                else
                  match py_iter items with
                  | Raises e => Some (Raise e, self)
                  | Returns items =>
                      match process_items self items with
                      | (Next, self) =>
                          if has_next response then collect_pages fuel (page + 1) self
                          else Some (Next, self)
                      | stop => Some stop
                      end
                  end
            end
      end
  end.

(** [user in self.EXCLUDED_USERS] *)
Definition excluded (user : key) : bool :=
  match user with
  | KStr u => existsb (String.eqb u) EXCLUDED_USERS
  | _ => false
  end.

(** What follows the loop. *)
Definition after_pages (self : analyzer) : analyzer :=
  match participants self with
  | [] => emit INFO (emit WARNING self)
  | _ :: _ =>
      let kept :=
        List.filter (fun '(user, info) => negb (excluded user)) (participants self) in
      let self := set_participants kept self in
      let self := emit DEBUG self in
      fold_left (fun self _ => emit DEBUG self) kept self
  end.

(** The method: [None] when [fuel] pages were not enough, otherwise the
    exception raised, if any, and the instance as the method left it. *)
Definition collect_PRs_and_issues (fuel : nat) (self : analyzer)
  : option (option error * analyzer) :=
  if dry_run self then Some (None, emit DEBUG self)
  else if _is_test_repo self then Some (None, emit INFO self)
  else if _is_multiple_repos self then Some (None, emit INFO self)
  else
    match collect_pages fuel 1 self with
    | None => None
    | Some (Next, self) => Some (None, after_pages self)
    | Some (Return, self) => Some (None, self)
    | Some (Raise e, self) => Some (Some e, self)
    end.

End Instance.

Arguments analyzer : clear implicits.

End Collector.

(* ===================================================================== *)
(** * More vocabulary of the statements                                   *)
(* ===================================================================== *)

(** The seven counters of a participant. *)
Definition counter_keys : list string :=
  ["p_enhancement"; "p_bug"; "p_documentation"; "p_typo";
   "i_enhancement"; "i_bug"; "i_documentation"].

(** Every counter of [a] is at most the one of [b]. *)
Definition counts_le (a b : gmap string Z) : bool :=
  forallb (fun key => get_count a key <=? get_count b key) counter_keys.

(** The sum of the five category fields of an entry. *)
Definition fields_sum (e : score_entry) : Q :=
  (num_value (feat_bug_PR e) + num_value (document_PR e) + num_value (typo_PR e) +
   num_value (feat_bug_issue e) + num_value (document_issue e))%Q.

(** [rename ui] gives an item its display name. *)
Definition rename (user_info : option (gmap string string)) (x : string * score_entry)
  : string * score_entry :=
  (display_name user_info (fst x), snd x).

(** The emoji of each decade, from [0] to [9]. *)
Definition emoji_table : list string :=
  ["🌑"; "🍁"; "🍂"; "🌿"; "🍀"; "🌱"; "🎨"; "🎯"; "⭐"; "🌟"].

(** The tens of a score, limited to [0 .. 9]. *)
Definition decade (score : pynum) : Z :=
  Z.max 0 (Z.min 9 (Qfloor (num_value score / 10))).

(** A number in the form that Python holds it: a float is a canonical
    binary64. *)
Definition valid_num (x : pynum) : bool :=
  match x with
  | PyInt _ => true
  | PyFloat f => valid_binary 53 1024 f
  end.

(** The counters of one participant as the collection leaves them: the
    seven keys are present, no counter is negative, and the two [bug]
    counters are zero. *)
Definition counters_ok (info : gmap string Z) : bool :=
  forallb (fun key => match info !! key with Some n => 0 <=? n | None => false end)
          counter_keys
  && bool_decide (info !! "p_bug" = Some 0)
  && bool_decide (info !! "i_bug" = Some 0).

(** A [participants] dictionary as the collection leaves it. *)
Definition collected {K} (ps : list (K * gmap string Z)) : Prop :=
  List.NoDup (map fst ps) /\ forallb (fun p => counters_ok (snd p)) ps = true.

(** A dictionary whose keys are strings, as the collection holds it. *)
Definition keyed {V} (ps : list (string * V)) : list (Collector.key * V) :=
  map (fun p => (Collector.KStr (fst p), snd p)) ps.

(** The name that a key is when it is a string. *)
Definition is_username (user : Collector.key) : bool :=
  match user with
  | Collector.KStr _ => true
  | _ => false
  end.

Definition username (user : Collector.key) : string :=
  match user with
  | Collector.KStr u => u
  | _ => ""
  end.

(** A dictionary of the collection with its keys as strings. *)
Definition usernames {V} (ps : list (Collector.key * V)) : list (string * V) :=
  map (fun p => (username (fst p), snd p)) ps.

(** The counters of [author], those of a new participant when there is
    none yet. *)
Definition counters_of (ps : list (Collector.key * gmap string Z))
  (author : Collector.key) : gmap string Z :=
  default Collector.new_counters (Collector.lookup ps author).

(** The first of the label names is [enhancement] or [bug]. *)
Definition first_is_feature (label_names : list Collector.jvalue) : bool :=
  match label_names with
  | first_label :: _ =>
      Collector.py_eq_str first_label "enhancement" ||
      Collector.py_eq_str first_label "bug"
  | [] => false
  end.

(** The pages [page], [page + 1], ... requested in [n] rounds. *)
Definition pages_from (page : Z) (n : nat) : list Collector.request :=
  map (fun i => Collector.IssuesPage (page + Z.of_nat i)) (seq 0 n).

(** Page [k] ends the paging: the request fails or the answer has no
    link to a next page. *)
Definition last_page (get_issues : Z -> option Collector.issues_response) (k : Z)
  : Prop :=
  match get_issues k with
  | Some response => Collector.has_next response = false
  | None => True
  end.

(** No participant with a positive total is lost on the way to the
    result: it passes the [min_contributions] filter, and no participant
    that passes the filter and comes later in the dictionary has the same
    display name (the later entry would replace it). *)
Fixpoint positive_kept (self : RepoAnalyzer) (user_info : option (gmap string string))
  (min_contributions : Z) (ps : list (string * gmap string Z)) : bool :=
  match ps with
  | [] => true
  | p :: rest =>
      ((participant_total self p <=? 0) ||
       (survives self min_contributions p &&
        forallb (fun q =>
                   negb (survives self min_contributions q &&
                         String.eqb (display_name user_info (fst q))
                                    (display_name user_info (fst p)))) rest))
      && positive_kept self user_info min_contributions rest
  end.


(** A float, or an integer between [0] and [b]. *)
Definition within (b : Z) (x : pynum) : Prop :=
  match x with
  | PyInt z => 0 <= z <= b
  | PyFloat _ => True
  end.

(* ===================================================================== *)
(** * More notions used in the proofs                                     *)
(* ===================================================================== *)

(** The [totals] dictionary of [calculate_averages] with the values
    [v1 .. v6] under its six keys. *)
Definition totals_row (v1 v2 v3 v4 v5 v6 : pynum) : list (string * pynum) :=
  [("feat/bug PR", v1); ("document PR", v2); ("typo PR", v3);
   ("feat/bug issue", v4); ("document issue", v5); ("total", v6)].

(** A computation that returns a value with property [P] or raises
    [OverflowError]. *)
Definition overflow_or {A} (P : A -> Prop) (m : result A) : Prop :=
  match m with
  | Ok a => P a
  | Raise e => e = OverflowError
  end.

(** A [totals] dictionary whose ["total"] is the integer [s]. *)
Definition row_with_total (s : Z) (totals : list (string * pynum)) : Prop :=
  exists v1 v2 v3 v4 v5, totals = totals_row v1 v2 v3 v4 v5 (PyInt s).

(** The averages of the six categories: the six keys in the order of
    [totals], the last one the quotient of the integer sum. *)
Definition averages_row (s n : Z) (averages : list (string * pynum)) : Prop :=
  exists q1 q2 q3 q4 q5 q6,
    averages = totals_row q1 q2 q3 q4 q5 q6 /\
    py_truediv (PyInt s) (PyInt n) = Ok q6.

(** An entry whose integers are at most [b] and whose rate is a float or
    the integer [0]. *)
Definition entry_within (b : Z) (e : score_entry) : Prop :=
  within b (feat_bug_PR e) /\ within b (document_PR e) /\ within b (typo_PR e) /\
  within b (feat_bug_issue e) /\ within b (document_issue e) /\
  0 <= total e <= b /\
  exists r, rate e = Some r /\ within 0 r.

(** A [totals] dictionary whose six values are [within b]. *)
Definition row_within (b : Z) (totals : list (string * pynum)) : Prop :=
  exists v1 v2 v3 v4 v5 v6,
    totals = totals_row v1 v2 v3 v4 v5 v6 /\
    within b v1 /\ within b v2 /\ within b v3 /\ within b v4 /\ within b v5 /\ within b v6.

(** No entry with a positive total is replaced by a later entry with the
    same display name. *)
Fixpoint no_score_replaced (user_info : option (gmap string string))
  (l : list (string * score_entry)) : Prop :=
  match l with
  | [] => True
  | x :: rest =>
      (0 < entry_total x ->
       forall y, In y rest ->
         display_name user_info (fst y) <> display_name user_info (fst x)) /\
      no_score_replaced user_info rest
  end.

(** The counters that [collect_PRs_and_issues] increments. *)
Definition credited_keys : list string :=
  ["p_enhancement"; "p_documentation"; "p_typo"; "i_enhancement"; "i_documentation"].

(** The exceptions that one item may raise: a date that cannot be
    parsed, compared or converted, and a value of the wrong type. *)
Definition item_errors : list Collector.error :=
  [Collector.ValueError; Collector.TypeError; Collector.AttributeError;
   Collector.OverflowError].

(** The exceptions that the method may raise: those of an item, a body
    that is not JSON, and what [retry_request] raises. *)
Definition method_errors : list Collector.error :=
  (item_errors ++ [Collector.JSONDecodeError; Collector.RequestFailed])%list.

Definition raises_only (errors : list Collector.error) (s : Collector.signal) : Prop :=
  match s with
  | Collector.Raise e => In e errors
  | _ => True
  end.

Section CollectorNotions.

Context {datetime date : Type}.

(** What one item may do to the instance, besides the dates. *)
Definition item_post (self : Collector.analyzer datetime date)
  (out : Collector.signal * Collector.analyzer datetime date) : Prop :=
  collected (Collector.participants (snd out)) /\
  Collector.requests (snd out) = Collector.requests self /\
  Collector._data_collected (snd out) = Collector._data_collected self /\
  raises_only item_errors (fst out).

(** The parts of the instance that the dates do not touch. *)
Definition same_collection (a b : Collector.analyzer datetime date) : Prop :=
  Collector.participants a = Collector.participants b /\
  Collector.requests a = Collector.requests b /\
  Collector._data_collected a = Collector._data_collected b.

(** What the paging loop may do. *)
Definition pages_post (fuel : nat) (page : Z) (self : Collector.analyzer datetime date)
  (out : Collector.signal * Collector.analyzer datetime date) : Prop :=
  collected (Collector.participants (snd out)) /\
  (exists n, (1 <= n <= fuel)%nat /\
     Collector.requests (snd out) =
     (Collector.requests self ++ pages_from page n)%list) /\
  raises_only method_errors (fst out).

End CollectorNotions.

(* ===================================================================== *)
(** * More sample inputs                                                  *)
(* ===================================================================== *)

(** Two participants without any counted activity. *)
Definition idle_participants : list (string * gmap string Z) :=
  [("dana", ∅); ("eli", {[ "p_bug" := 0 ]})].

(** Display names for two of the three participants, all distinct. *)
Definition nicknames : option (gmap string string) :=
  Some {[ "alice" := "Alice A."; "carol" := "C" ]}.

(** Totals 1, 3 and 1. *)
Definition tied_participants : list (string * gmap string Z) :=
  [("zoe", {[ "p_typo" := 1 ]}); ("amy", {[ "p_enhancement" := 1 ]});
   ("bea", {[ "i_documentation" := 1 ]})].

(** Totals 6, 1 and 0. *)
Definition idle_among_active : list (string * gmap string Z) :=
  [("a", {[ "p_enhancement" := 2 ]}); ("b", {[ "p_typo" := 1 ]}); ("c", ∅)].

(** Two entries as [calculate_scores] builds them on its two paths, with
    a rate and a rank. *)
Definition two_rated_entries : list (string * score_entry) :=
  [("u1", {| feat_bug_PR := PyInt 3; document_PR := PyInt 2; typo_PR := PyInt 0;
             feat_bug_issue := PyInt 2; document_issue := PyInt 0; total := 7;
             rate := Some (PyInt 0); rank := Some 1 |});
   ("u2", {| feat_bug_PR := PyFloat (S754_zero false);
             document_PR := PyFloat (S754_zero false);
             typo_PR := PyFloat (S754_zero false);
             feat_bug_issue := PyInt 2; document_issue := PyInt 1; total := 3;
             rate := Some (PyInt 0); rank := Some 2 |})].

(** A repository with two pages of issues.  A datetime is its ISO
    string; the semester has two weeks. *)
Module Sample.
Import Collector.

Definition written_by (author : string) : jvalue := JDict [("login", JStr author)].

Definition labelled (names : list string) : jvalue :=
  JList (map (fun n => JDict [("name", JStr n)]) names).

(** A merged pull request whose first label is [bug]. *)
Definition merged_bug_fix : jvalue :=
  JDict [("created_at", JStr "2024-03-04T09:00:00+00:00"); ("user", written_by "alice");
         ("labels", labelled ["bug"; "typo"]);
         ("state_reason", JNull); ("state", JStr "closed");
         ("pull_request", JDict [("merged_at", JStr "2024-03-05T09:00:00+00:00")]);
         ("number", JNum (PyInt 11))].

(** An open issue of an excluded user. *)
Definition excluded_issue : jvalue :=
  JDict [("created_at", JStr "2024-03-06T09:00:00+00:00"); ("user", written_by "kyagrd");
         ("labels", labelled ["documentation"]);
         ("state_reason", JNull); ("state", JStr "open");
         ("number", JNum (PyInt 12))].

(** A pull request that was closed without being merged. *)
Definition unmerged_pull_request : jvalue :=
  JDict [("created_at", JStr "2024-03-07T09:00:00+00:00"); ("user", written_by "bob");
         ("labels", labelled ["enhancement"]);
         ("state_reason", JNull); ("state", JStr "closed");
         ("pull_request", JDict [("merged_at", JNull)]);
         ("number", JNum (PyInt 13))].

(** An issue closed as completed. *)
Definition completed_issue : jvalue :=
  JDict [("created_at", JStr "2024-03-12T09:00:00+00:00"); ("user", written_by "alice");
         ("labels", labelled ["enhancement"]);
         ("state_reason", JStr "completed"); ("state", JStr "closed");
         ("number", JNum (PyInt 14))].

(** An issue closed as not planned. *)
Definition rejected_issue : jvalue :=
  JDict [("created_at", JStr "2024-03-13T09:00:00+00:00"); ("user", written_by "carol");
         ("labels", labelled ["bug"]);
         ("state_reason", JStr "not_planned"); ("state", JStr "closed");
         ("number", JNum (PyInt 15))].

(** An issue of a deleted account: its [user] is [null]. *)
Definition ghost_issue : jvalue :=
  JDict [("created_at", JStr "2024-03-14T09:00:00+00:00"); ("user", JNull);
         ("labels", labelled ["bug"]);
         ("state_reason", JNull); ("state", JStr "open");
         ("number", JNum (PyInt 16))].

(** An issue whose labels are given by their names. *)
Definition named_labels_issue : jvalue :=
  JDict [("created_at", JStr "2024-03-14T10:00:00+00:00"); ("user", written_by "dave");
         ("labels", JList [JStr "bug"]);
         ("state_reason", JNull); ("state", JStr "open");
         ("number", JNum (PyInt 17))].

Definition page_1 : list jvalue :=
  [merged_bug_fix; excluded_issue; unmerged_pull_request].

Definition page_2 : list jvalue := [completed_issue; rejected_issue].

(** The server: two pages, the first with a link to the second. *)
Definition get_issues (page : Z) : option issues_response :=
  if page =? 1 then
    Some {| status_code := 200; json := Some (JList page_1);
            link := Some ("<https://api.github.com/repositories/1/issues?page=2>; " ++
                          rel_next) |}
  else if page =? 2 then
    Some {| status_code := 200; json := Some (JList page_2); link := None |}
  else None.

(** A server that refuses every request. *)
Definition forbidden (page : Z) : option issues_response :=
  Some {| status_code := 403; json := Some (JDict [("message", JStr "Forbidden")]);
          link := None |}.

(** A server with one page, which holds the given items. *)
Definition one_page (items : list jvalue) (page : Z) : option issues_response :=
  Some {| status_code := 200; json := Some (JList items); link := None |}.

(** The request for the details of a pull request always fails. *)
Definition get_pull (pr_number : jvalue) : option pull_response := None.

Definition fromisoformat (s : string) : option string :=
  if String.eqb s "" then None else Some s.

Definition week_index_of (start day : string) : option Z :=
  Some (if String.ltb day "2024-03-11" then 1 else 2).

Definition max_datetime (a b : string) : option string :=
  Some (if String.ltb a b then b else a).

(** The instance after [__init__] and [set_semester_start_date]. *)
Definition fresh : analyzer string string :=
  {| dry_run := false; _is_test_repo := false; _is_multiple_repos := false;
     semester_start_date := Some "2024-03-04";
     participants := []; weekly_activity := ∅;
     _data_collected := true; __previous_create_at := None;
     log := []; requests := [] |}.

(** An instance of the test repository. *)
Definition test_instance : analyzer string string :=
  {| dry_run := false; _is_test_repo := true; _is_multiple_repos := false;
     semester_start_date := None;
     participants := []; weekly_activity := ∅;
     _data_collected := true; __previous_create_at := None;
     log := []; requests := [] |}.

Definition run (fuel : nat) : option (option error * analyzer string string) :=
  collect_PRs_and_issues fromisoformat week_index_of max_datetime get_issues get_pull
    fuel fresh.

(** The collection from a server with one page. *)
Definition run_on (items : list jvalue) : option (option error * analyzer string string) :=
  collect_PRs_and_issues fromisoformat week_index_of max_datetime (one_page items) get_pull
    1 fresh.

End Sample.

(* ===================================================================== *)
(** * Binary64 arithmetic                                                 *)
(* ===================================================================== *)

(** The results of the three float operations of [_finalize_scores] are
    located with a coarse but sufficient precision: every operation on
    values below 1024 whose exponent is at most -20 returns a finite float
    within [2^-19] of the exact value. *)

(** ** Powers of two *)

Lemma pow2_pos e : (0 < pow2 e)%Q.
Proof. apply Qpower_0_lt. reflexivity. Qed.

Lemma pow2_add a b : (pow2 (a + b) == pow2 a * pow2 b)%Q.
Proof. apply Qpower_plus. discriminate. Qed.

Lemma pow2_le a b : a <= b -> (pow2 a <= pow2 b)%Q.
Proof. intros H. apply Qpower_le_compat_l; [exact H | discriminate]. Qed.

Lemma pow2_le_inv a b : (pow2 a <= pow2 b)%Q -> a <= b.
Proof. intros H. apply (Qpower_le_compat_l_inv 2); [exact H | reflexivity]. Qed.

Lemma pow2_nonneg n : 0 <= n -> (pow2 n == inject_Z (2 ^ n))%Q.
Proof. intros H. unfold pow2. rewrite Zpower_Qpower by exact H. reflexivity. Qed.

Lemma pow2_inv n : (pow2 (- n) * pow2 n == 1)%Q.
Proof. rewrite <- pow2_add. replace (- n + n) with 0 by lia. reflexivity. Qed.

(** ** Digits and right shifts *)

Lemma digits2_pos_bounds p :
  2 ^ (Zpos (digits2_pos p) - 1) <= Zpos p < 2 ^ Zpos (digits2_pos p).
Proof.
  induction p as [p IH | p IH |]; simpl digits2_pos.
  - rewrite Pos2Z.inj_succ.
    replace (Z.succ (Zpos (digits2_pos p)) - 1) with (Z.succ (Zpos (digits2_pos p) - 1)) by lia.
    rewrite !Z.pow_succ_r by lia. lia.
  - rewrite Pos2Z.inj_succ.
    replace (Z.succ (Zpos (digits2_pos p)) - 1) with (Z.succ (Zpos (digits2_pos p) - 1)) by lia.
    rewrite !Z.pow_succ_r by lia. lia.
  - simpl. lia.
Qed.

Lemma Zdigits2_nonneg m : 0 <= Zdigits2 m.
Proof. destruct m; simpl; lia. Qed.

Lemma Zdigits2_lower m : 0 < m -> 2 ^ (Zdigits2 m - 1) <= m.
Proof. destruct m as [|p|p]; try lia. intros _. apply digits2_pos_bounds. Qed.

Lemma shr_1_m mrs : 0 <= shr_m mrs -> shr_m (shr_1 mrs) = shr_m mrs / 2.
Proof.
  destruct mrs as [m r s]. simpl. intros Hm.
  destruct m as [|[p|p|]|p]; simpl; try lia; try reflexivity.
  - apply (Z.div_unique _ _ _ 1); lia.
  - apply (Z.div_unique _ _ _ 0); lia.
Qed.

Lemma iter_shr_1_m p : forall mrs, 0 <= shr_m mrs ->
  shr_m (SpecFloat.iter_pos shr_1 p mrs) = shr_m mrs / 2 ^ Zpos p.
Proof.
  induction p as [p IH | p IH |]; intros mrs Hm; simpl SpecFloat.iter_pos.
  - assert (H1 : 0 <= shr_m (shr_1 mrs)) by (rewrite shr_1_m by lia; apply Z.div_pos; lia).
    assert (H2 : 0 <= shr_m (SpecFloat.iter_pos shr_1 p (shr_1 mrs)))
      by (rewrite IH by lia; apply Z.div_pos; lia).
    rewrite IH by lia. rewrite IH by lia. rewrite shr_1_m by lia.
    rewrite !Z.div_div by lia.
    f_equal. replace (Z.pos p~1) with (1 + Z.pos p + Z.pos p) by lia.
    rewrite !Z.pow_add_r by lia. lia.
  - assert (H2 : 0 <= shr_m (SpecFloat.iter_pos shr_1 p mrs))
      by (rewrite IH by lia; apply Z.div_pos; lia).
    rewrite IH by lia. rewrite IH by lia.
    rewrite !Z.div_div by lia.
    f_equal. replace (Z.pos p~0) with (Z.pos p + Z.pos p) by lia.
    rewrite !Z.pow_add_r by lia. lia.
  - rewrite shr_1_m by lia. reflexivity.
Qed.

Lemma shr_record_of_loc_m m l : shr_m (shr_record_of_loc m l) = m.
Proof. destruct l as [|[]]; reflexivity. Qed.

Lemma shr_fexp_spec m e l : 0 <= m ->
  shr_m (fst (shr_fexp 53 1024 m e l)) = m / 2 ^ (snd (shr_fexp 53 1024 m e l) - e) /\
  snd (shr_fexp 53 1024 m e l) = Z.max e (fexp 53 1024 (Zdigits2 m + e)).
Proof.
  intros Hm. unfold shr_fexp, shr.
  destruct (fexp 53 1024 (Zdigits2 m + e) - e) as [|p|p] eqn:E; simpl fst; simpl snd.
  - rewrite shr_record_of_loc_m. rewrite Z.sub_diag. simpl. rewrite Z.div_1_r. lia.
  - rewrite iter_shr_1_m by (rewrite shr_record_of_loc_m; lia).
    rewrite shr_record_of_loc_m. split; [f_equal; f_equal; lia | lia].
  - rewrite shr_record_of_loc_m. rewrite Z.sub_diag. simpl. rewrite Z.div_1_r. lia.
Qed.

Lemma round_nearest_even_cases m l :
  round_nearest_even m l = m \/ round_nearest_even m l = m + 1.
Proof. destruct l as [|[]]; simpl; auto. destruct (Z.even m); auto. Qed.

(** ** Cells *)

Lemma cell_shift m e n v :
  0 <= m -> 0 <= n -> cell m e v -> cell (m / 2 ^ n) (e + n) v.
Proof.
  intros Hm Hn [H1 H2]. unfold cell.
  assert (Hp : 0 < 2 ^ n) by (apply Z.pow_pos_nonneg; lia).
  pose proof (Z.div_mod m (2 ^ n) ltac:(lia)) as Hdm.
  pose proof (Z.mod_pos_bound m (2 ^ n) Hp) as Hmod.
  set (q := m / 2 ^ n) in *.
  assert (Ha : (inject_Z q * inject_Z (2 ^ n) <= inject_Z m)%Q).
  { rewrite <- inject_Z_mult. rewrite <- Zle_Qle. lia. }
  assert (Hb : (inject_Z (m + 1) <= inject_Z (q + 1) * inject_Z (2 ^ n))%Q).
  { rewrite <- inject_Z_mult. rewrite <- Zle_Qle. lia. }
  rewrite pow2_add, (pow2_nonneg n Hn).
  pose proof (pow2_pos e) as Hpe.
  revert H1 H2 Ha Hb Hpe.
  generalize (pow2 e) (inject_Z q) (inject_Z (q + 1)) (inject_Z m)
    (inject_Z (m + 1)) (inject_Z (2 ^ n)).
  intros P C C1 A A1 B H1 H2 Ha Hb Hpe. split; nra.
Qed.

Lemma cell_exact m e : cell m e (inject_Z m * pow2 e).
Proof.
  split; [apply Qle_refl|]. rewrite inject_Z_plus.
  change (inject_Z 1) with 1%Q. pose proof (pow2_pos e). nra.
Qed.

Lemma fexp_le d : d <= 33 -> fexp 53 1024 d <= -20.
Proof. unfold fexp, emin. lia. Qed.

Lemma cell_digits m e v :
  0 <= m -> cell m e v -> (v <= 2048)%Q -> e <= -20 -> Zdigits2 m + e <= 33.
Proof.
  intros Hm [H1 _] Hv He.
  destruct (Z.eq_dec m 0) as [->|Hne]; [simpl; lia|].
  pose proof (Zdigits2_lower m ltac:(lia)) as Hd.
  assert (Hd1 : 0 <= Zdigits2 m - 1).
  { destruct m; simpl in *; lia. }
  assert (H : (pow2 (Zdigits2 m - 1 + e) <= pow2 11)%Q).
  { rewrite pow2_add, (pow2_nonneg _ Hd1).
    apply Qle_trans with (inject_Z m * pow2 e)%Q.
    - apply Qmult_le_compat_r; [rewrite <- Zle_Qle; exact Hd | apply Qlt_le_weak, pow2_pos].
    - apply Qle_trans with v; [exact H1|]. apply Qle_trans with 2048%Q; [exact Hv|].
      vm_compute. discriminate. }
  apply pow2_le_inv in H. lia.
Qed.

Lemma binary_round_aux_bound s mx ex lx v :
  0 <= mx -> cell mx ex v -> (v <= 1024)%Q -> ex <= -20 ->
  exists m e, 0 <= m /\ e <= -20 /\
    binary_round_aux 53 1024 s mx ex lx = SF_of_mantissa s m e /\
    (Qabs (inject_Z m * pow2 e - v) <= pow2 (-19))%Q.
Proof.
  intros Hmx Hcell Hv Hex. unfold binary_round_aux.
  destruct (shr_fexp_spec mx ex lx Hmx) as [Hm1 He1].
  destruct (shr_fexp 53 1024 mx ex lx) as [mrs1 e1]. simpl fst in *; simpl snd in *.
  assert (Hd1 : Zdigits2 mx + ex <= 33).
  { apply (cell_digits mx ex v); auto.
    apply Qle_trans with 1024%Q; [auto| vm_compute; discriminate]. }
  assert (He1' : e1 <= -20) by (pose proof (fexp_le _ Hd1); lia).
  assert (Hc1 : cell (shr_m mrs1) e1 v).
  { rewrite Hm1. replace e1 with (ex + (e1 - ex)) at 2 by lia.
    apply cell_shift; auto; lia. }
  assert (Hm1' : 0 <= shr_m mrs1)
    by (rewrite Hm1; apply Z.div_pos; [lia| apply Z.pow_pos_nonneg; lia]).
  set (m2 := round_nearest_even (shr_m mrs1) (loc_of_shr_record mrs1)).
  assert (Hm2 : m2 = shr_m mrs1 \/ m2 = shr_m mrs1 + 1) by apply round_nearest_even_cases.
  assert (Hm2' : 0 <= m2) by lia.
  destruct (shr_fexp_spec m2 e1 loc_Exact Hm2') as [Hm3 He2].
  destruct (shr_fexp 53 1024 m2 e1 loc_Exact) as [mrs2 e2]. simpl fst in *; simpl snd in *.
  pose proof (pow2_pos e1) as Hp1.
  assert (Hp1' : (pow2 e1 <= pow2 (-20))%Q) by (apply pow2_le; lia).
  pose proof (cell_exact m2 e1) as Hc2.
  assert (Hv2 : (Qabs (inject_Z m2 * pow2 e1 - v) <= pow2 e1)%Q).
  { destruct Hc1 as [Ha Hb]. rewrite inject_Z_plus in Hb. change (inject_Z 1) with 1%Q in Hb.
    apply Qabs_Qle_condition.
    destruct Hm2 as [-> | ->]; [|rewrite inject_Z_plus; change (inject_Z 1) with 1%Q];
      split; nra. }
  assert (Hv2' : (inject_Z m2 * pow2 e1 <= 2048)%Q).
  { apply Qabs_Qle_condition in Hv2. destruct Hv2 as [_ Hv2].
    assert (pow2 (-20) <= 1)%Q by (vm_compute; discriminate). nra. }
  assert (Hd2 : Zdigits2 m2 + e1 <= 33) by (apply (cell_digits m2 e1 _ Hm2' Hc2 Hv2' He1')).
  assert (He2' : e2 <= -20) by (pose proof (fexp_le _ Hd2); lia).
  assert (Hc3 : cell (shr_m mrs2) e2 (inject_Z m2 * pow2 e1)).
  { rewrite Hm3. replace e2 with (e1 + (e2 - e1)) at 2 by lia.
    apply cell_shift; auto; lia. }
  assert (Hm3' : 0 <= shr_m mrs2)
    by (rewrite Hm3; apply Z.div_pos; [lia| apply Z.pow_pos_nonneg; lia]).
  exists (shr_m mrs2), e2. split; [exact Hm3'|]. split; [exact He2'|]. split.
  - unfold SF_of_mantissa. destruct (shr_m mrs2); try reflexivity.
    replace (e2 <=? 1024 - 53) with true; [reflexivity|]. symmetry. apply Z.leb_le. lia.
  - pose proof (pow2_pos e2) as Hp2.
    assert (Hp2' : (pow2 e2 <= pow2 (-20))%Q) by (apply pow2_le; lia).
    assert (H19 : (pow2 (-19) == pow2 (-20) + pow2 (-20))%Q) by (vm_compute; reflexivity).
    rewrite H19.
    destruct Hc3 as [Ha Hb]. rewrite inject_Z_plus in Hb. change (inject_Z 1) with 1%Q in Hb.
    apply Qabs_Qle_condition in Hv2. apply Qabs_Qle_condition.
    revert Ha Hb Hv2 Hp1 Hp1' Hp2 Hp2'.
    generalize (pow2 (-20)) (pow2 e1) (pow2 e2) (inject_Z m2) (inject_Z (shr_m mrs2)).
    intros. split; nra.
Qed.

(** ** Division of two positive integers *)

Lemma Zdigits2_diff (a b : positive) :
  Zpos a <= 1024 * Zpos b ->
  Zpos (digits2_pos a) - Zpos (digits2_pos b) <= 11.
Proof.
  intros H.
  pose proof (digits2_pos_bounds a) as [Ha _].
  pose proof (digits2_pos_bounds b) as [_ Hb].
  assert (Hlt : 2 ^ (Zpos (digits2_pos a) - 1) < 2 ^ (10 + Zpos (digits2_pos b))).
  { rewrite Z.pow_add_r by lia. change (2 ^ 10) with 1024. lia. }
  apply Z.pow_lt_mono_r_iff in Hlt; lia.
Qed.

Lemma SFdiv_core_binary_cell (a b : positive) :
  Zpos a <= 1024 * Zpos b ->
  exists q e l, SFdiv_core_binary 53 1024 (Zpos a) 0 (Zpos b) 0 = (q, e, l) /\
    0 <= q /\ e <= -20 /\ cell q e (inject_Z (Zpos a) / inject_Z (Zpos b)).
Proof.
  intros Hab. unfold SFdiv_core_binary.
  pose proof (Zdigits2_diff a b Hab) as Hd. simpl Zdigits2.
  set (e' := Z.min (fexp 53 1024 (Zpos (digits2_pos a) + 0 - (Zpos (digits2_pos b) + 0))) (0 - 0)).
  assert (He' : e' <= -20).
  { unfold e', fexp, emin. lia. }
  assert (Hs : 0 - 0 - e' = - e') by lia. rewrite Hs.
  destruct (- e') as [|s|s] eqn:Es; try lia.
  rewrite Z.shiftl_mul_pow2 by lia.
  pose proof (Z_div_mod (Zpos a * 2 ^ Zpos s) (Zpos b) eq_refl) as Hdm.
  destruct (Z.div_eucl (Zpos a * 2 ^ Zpos s) (Zpos b)) as [q r].
  destruct Hdm as [Hdm Hr].
  assert (Hpow : 0 < 2 ^ Zpos s) by (apply Z.pow_pos_nonneg; lia).
  assert (Hq : 0 <= q) by nia.
  exists q, e', (new_location (Zpos b) r). split; [reflexivity|].
  split; [exact Hq|]. split; [exact He'|].
  assert (HA : (inject_Z q * inject_Z (Zpos b) <= inject_Z (Zpos a) * inject_Z (2 ^ Zpos s))%Q).
  { rewrite <- !inject_Z_mult, <- Zle_Qle. lia. }
  assert (HB : (inject_Z (Zpos a) * inject_Z (2 ^ Zpos s) < inject_Z (q + 1) * inject_Z (Zpos b))%Q).
  { rewrite <- !inject_Z_mult, <- Zlt_Qlt. lia. }
  assert (HT : (pow2 e' * inject_Z (2 ^ Zpos s) == 1)%Q).
  { rewrite <- pow2_nonneg by lia. rewrite <- Es. replace e' with (- - e') at 1 by lia.
    apply pow2_inv. }
  assert (HBpos : (0 < inject_Z (Zpos b))%Q) by (rewrite <- (Zlt_Qlt 0); lia).
  assert (HTpos : (0 < inject_Z (2 ^ Zpos s))%Q) by (rewrite <- (Zlt_Qlt 0); lia).
  assert (HV : (inject_Z (Zpos a) / inject_Z (Zpos b) * inject_Z (Zpos b) == inject_Z (Zpos a))%Q).
  { apply Qdiv_mult_l. apply Qnot_eq_sym, Qlt_not_eq. exact HBpos. }
  pose proof (pow2_pos e') as HP.
  unfold cell.
  revert HA HB HT HBpos HTpos HV HP.
  generalize (pow2 e') (inject_Z q) (inject_Z (q + 1))
    (inject_Z (Zpos a)) (inject_Z (Zpos b)) (inject_Z (2 ^ Zpos s)).
  intros P Q0 Q1 A B T HA HB HT HBpos HTpos HV HP.
  revert HV. generalize (A / B)%Q. intros V HV.
  assert (HBT : (0 < B * T)%Q) by nra.
  split.
  - apply (Qmult_le_r _ _ (B * T) HBT).
    assert (E1 : (Q0 * P * (B * T) == Q0 * B * (P * T))%Q) by ring.
    assert (E2 : (V * (B * T) == V * B * T)%Q) by ring.
    rewrite E1, E2, HT, HV. nra.
  - apply (Qmult_lt_r _ _ (B * T) HBT).
    assert (E1 : (Q1 * P * (B * T) == Q1 * B * (P * T))%Q) by ring.
    assert (E2 : (V * (B * T) == V * B * T)%Q) by ring.
    rewrite E1, E2, HT, HV. nra.
Qed.

Lemma SF2Q_of_mantissa m e :
  0 <= m -> (SF2Q (SF_of_mantissa false m e) == inject_Z m * pow2 e)%Q.
Proof.
  intros Hm. destruct m as [|p|p]; simpl; try lia.
  - rewrite Qmult_0_l. reflexivity.
  - reflexivity.
Qed.

Lemma SF_of_mantissa_finite m e :
  0 <= m -> is_finite (PyFloat (SF_of_mantissa false m e)) = true.
Proof. intros Hm. destruct m; simpl; try reflexivity; lia. Qed.

Lemma int_div_bound (a b : positive) :
  Zpos a <= 1024 * Zpos b ->
  exists m e, 0 <= m /\ e <= -20 /\
    b64_div (S754_finite false a 0) (S754_finite false b 0) = SF_of_mantissa false m e /\
    (Qabs (inject_Z m * pow2 e - inject_Z (Zpos a) / inject_Z (Zpos b)) <= pow2 (-19))%Q.
Proof.
  intros Hab.
  destruct (SFdiv_core_binary_cell a b Hab) as (q & e & l & Hcore & Hq & He & Hcell).
  unfold b64_div, SFdiv. rewrite Hcore. simpl xorb.
  apply binary_round_aux_bound; auto.
  assert (HBpos : (0 < inject_Z (Zpos b))%Q) by (rewrite <- (Zlt_Qlt 0); lia).
  apply Qle_shift_div_r; [exact HBpos|].
  change 1024%Q with (inject_Z 1024). rewrite <- inject_Z_mult, <- Zle_Qle. lia.
Qed.

Lemma mul_100_bound (p : positive) (e : Z) :
  e <= -20 -> (inject_Z (Zpos p) * pow2 e <= 10)%Q ->
  exists m' e', 0 <= m' /\ e' <= -20 /\
    b64_mul (S754_finite false p e) (S754_finite false 7036874417766400 (-46))
      = SF_of_mantissa false m' e' /\
    (Qabs (inject_Z m' * pow2 e' - 100 * (inject_Z (Zpos p) * pow2 e)) <= pow2 (-19))%Q.
Proof.
  intros He Hv. unfold b64_mul, SFmul. simpl xorb.
  assert (Heq : (inject_Z (Zpos (p * 7036874417766400)) * pow2 (e + -46)
                 == 100 * (inject_Z (Zpos p) * pow2 e))%Q).
  { rewrite pow2_add, Pos2Z.inj_mul, inject_Z_mult.
    assert (H100 : (inject_Z (Zpos 7036874417766400) * pow2 (-46) == 100)%Q)
      by (vm_compute; reflexivity).
    rewrite <- H100. ring. }
  destruct (binary_round_aux_bound false (Zpos (p * 7036874417766400)) (e + -46) loc_Exact
              (100 * (inject_Z (Zpos p) * pow2 e))%Q) as (m' & e' & H1 & H2 & H3 & H4).
  - lia.
  - unfold cell. rewrite <- Heq. apply cell_exact.
  - nra.
  - lia.
  - exists m', e'. auto.
Qed.

Lemma round_half_even_div_bound n d :
  0 < d -> 0 <= n ->
  0 <= round_half_even_div n d /\
  - d <= 2 * (round_half_even_div n d * d - n) <= d.
Proof.
  intros Hd Hn. unfold round_half_even_div.
  pose proof (Z.div_mod n d ltac:(lia)) as Hdm.
  pose proof (Z.mod_pos_bound n d Hd) as Hmod.
  assert (Hq : 0 <= n / d) by (apply Z.div_pos; lia).
  destruct (Z.compare_spec (2 * (n mod d)) d) as [E|E|E].
  - destruct (Z.even (n / d)); split; nia.
  - split; nia.
  - split; nia.
Qed.

Lemma float_round_1_bound (p : positive) (e : Z) :
  e <= -20 -> (inject_Z (Zpos p) * pow2 e <= 101)%Q ->
  exists m' e', 0 <= m' /\
    float_round_1 (S754_finite false p e) = SF_of_mantissa false m' e' /\
    (Qabs (inject_Z m' * pow2 e' - inject_Z (Zpos p) * pow2 e) <= (1 # 20) + pow2 (-19))%Q.
Proof.
  intros He Hv. destruct e as [|pe|pe]; try lia.
  unfold float_round_1, tenths_of.
  pose proof (round_half_even_div_bound (10 * Zpos p) (Zpos (2 ^ pe)) ltac:(lia) ltac:(lia))
    as [Hk Hbound].
  set (k := round_half_even_div (10 * Zpos p) (Zpos (2 ^ pe))) in *.
  assert (HT : (pow2 (Zneg pe) * inject_Z (Zpos (2 ^ pe)) == 1)%Q).
  { rewrite Pos2Z.inj_pow. rewrite <- pow2_nonneg by lia. apply (pow2_inv (Zpos pe)). }
  assert (HTpos : (0 < inject_Z (Zpos (2 ^ pe)))%Q) by (rewrite <- (Zlt_Qlt 0); lia).
  pose proof (pow2_pos (Zneg pe)) as HP.
  assert (Hb1 : (- inject_Z (Zpos (2 ^ pe)) <=
                 2 * (inject_Z k * inject_Z (Zpos (2 ^ pe)) - 10 * inject_Z (Zpos p)))%Q).
  { change 2%Q with (inject_Z 2). change 10%Q with (inject_Z 10).
    rewrite <- !inject_Z_mult, <- inject_Z_opp. unfold Qminus.
    rewrite <- inject_Z_opp, <- inject_Z_plus, <- inject_Z_mult, <- Zle_Qle. lia. }
  assert (Hb2 : (2 * (inject_Z k * inject_Z (Zpos (2 ^ pe)) - 10 * inject_Z (Zpos p))
                 <= inject_Z (Zpos (2 ^ pe)))%Q).
  { change 2%Q with (inject_Z 2). change 10%Q with (inject_Z 10).
    rewrite <- !inject_Z_mult. unfold Qminus.
    rewrite <- inject_Z_opp, <- inject_Z_plus, <- inject_Z_mult, <- Zle_Qle. lia. }
  assert (Hk0 : (0 <= inject_Z k)%Q) by (rewrite <- (Zle_Qle 0); lia).
  (* [k / 10] is within [1 / 20] of the exact value *)
  assert (Hdist : (- (1 # 20) <= inject_Z k * (1 # 10) - inject_Z (Zpos p) * pow2 (Zneg pe)
                   <= 1 # 20)%Q).
  { revert HT HTpos HP Hb1 Hb2.
    generalize (pow2 (Zneg pe)) (inject_Z (Zpos (2 ^ pe))) (inject_Z k) (inject_Z (Zpos p)).
    intros P T K M HT HTpos HP Hb1 Hb2.
    assert (E : (M * P == M * P * (P * T))%Q) by (rewrite HT; ring).
    assert (E' : (K == K * (P * T))%Q) by (rewrite HT; ring).
    split.
    - apply (Qmult_le_r _ _ T HTpos).
      assert (E1 : ((K * (1 # 10) - M * P) * T == (1 # 20) * (2 * (K * T - 10 * M * (P * T))))%Q) by ring.
      rewrite E1, HT. nra.
    - apply (Qmult_le_r _ _ T HTpos).
      assert (E1 : ((K * (1 # 10) - M * P) * T == (1 # 20) * (2 * (K * T - 10 * M * (P * T))))%Q) by ring.
      rewrite E1, HT. nra. }
  destruct k as [|kp|kp] eqn:Ek; try lia.
  - exists 0, 0. split; [lia|]. split; [reflexivity|].
    apply Qabs_Qle_condition. pose proof (pow2_pos (-19)).
    change (inject_Z 0) with 0%Q in *. split; nra.
  - assert (Hkp : Zpos kp <= 1024 * 10).
    { assert (H : (inject_Z (Zpos kp) <= inject_Z 10240)%Q).
      { change (inject_Z 10240) with 10240%Q. nra. }
      rewrite <- Zle_Qle in H. lia. }
    destruct (int_div_bound kp 10 Hkp) as (m' & e' & Hm' & _ & Hdiv & Herr).
    exists m', e'. split; [exact Hm'|]. split; [exact Hdiv|].
    assert (E10 : (inject_Z (Zpos kp) / inject_Z 10 == inject_Z (Zpos kp) * (1 # 10))%Q)
      by (unfold Qdiv; reflexivity).
    rewrite E10 in Herr.
    apply Qabs_Qle_condition in Herr. apply Qabs_Qle_condition.
    pose proof (pow2_pos (-19)). split; nra.
Qed.

Lemma mul_100_mantissa m e :
  0 <= m -> e <= -20 -> (inject_Z m * pow2 e <= 10)%Q ->
  exists m' e', 0 <= m' /\ e' <= -20 /\
    b64_mul (SF_of_mantissa false m e) (S754_finite false 7036874417766400 (-46))
      = SF_of_mantissa false m' e' /\
    (Qabs (inject_Z m' * pow2 e' - 100 * (inject_Z m * pow2 e)) <= pow2 (-19))%Q.
Proof.
  intros Hm He Hv. destruct m as [|p|p]; try lia.
  - exists 0, (-20). split; [lia|]. split; [lia|]. split; [reflexivity|].
    vm_compute. discriminate.
  - apply mul_100_bound; auto.
Qed.

Lemma float_round_1_mantissa m e :
  0 <= m -> e <= -20 -> (inject_Z m * pow2 e <= 101)%Q ->
  exists m' e', 0 <= m' /\
    float_round_1 (SF_of_mantissa false m e) = SF_of_mantissa false m' e' /\
    (Qabs (inject_Z m' * pow2 e' - inject_Z m * pow2 e) <= (1 # 20) + pow2 (-19))%Q.
Proof.
  intros Hm He Hv. destruct m as [|p|p]; try lia.
  - exists 0, 0. split; [lia|]. split; [reflexivity|]. vm_compute. discriminate.
  - apply float_round_1_bound; auto.
Qed.

Lemma no_overflow_mantissa s m e :
  0 <= m -> no_overflow (SF_of_mantissa s m e) = Ok (SF_of_mantissa s m e).
Proof. intros Hm. destruct m; try reflexivity; lia. Qed.

Lemma float_of_int_100 : float_of_int 100 = Ok (S754_finite false 7036874417766400 (-46)).
Proof. vm_compute. reflexivity. Qed.

Lemma py_mul_float_100 f :
  py_mul (PyFloat f) (PyInt 100)
  = Ok (PyFloat (b64_mul f (S754_finite false 7036874417766400 (-46)))).
Proof. unfold py_mul, to_float. rewrite float_of_int_100. reflexivity. Qed.

Lemma int_div_mantissa t S :
  0 <= t <= S -> 0 < S ->
  exists m e, 0 <= m /\ e <= -20 /\
    b64_div (SF_of_Z t) (SF_of_Z S) = SF_of_mantissa false m e /\
    (Qabs (inject_Z m * pow2 e - inject_Z t / inject_Z S) <= pow2 (-19))%Q.
Proof.
  intros Ht HS. destruct S as [|ps|ps]; try lia. destruct t as [|pt|pt]; try lia.
  - exists 0, (-20). split; [lia|]. split; [lia|]. split; [reflexivity|].
    unfold Qdiv. rewrite !Qmult_0_l. vm_compute. discriminate.
  - apply int_div_bound. lia.
Qed.

Lemma rate_of_bound t S :
  0 <= t <= S -> 0 < S ->
  exists r, rate_of t S = Ok r /\ is_finite (py_round_1 r) = true /\
    (Qabs (num_value (py_round_1 r) - 100 * (inject_Z t / inject_Z S)) <= 1 # 10)%Q.
Proof.
  intros Ht HS. unfold rate_of.
  replace (0 <? S) with true by (symmetry; apply Z.ltb_lt; lia).
  unfold py_truediv. replace (S =? 0) with false by (symmetry; apply Z.eqb_neq; lia).
  destruct (int_div_mantissa t S Ht HS) as (m & e & Hm & He & Hdiv & Herr).
  rewrite Hdiv, no_overflow_mantissa by exact Hm. cbn [bind].
  rewrite py_mul_float_100.
  assert (HSpos : (0 < inject_Z S)%Q) by (rewrite <- (Zlt_Qlt 0); lia).
  assert (Hratio : (0 <= inject_Z t / inject_Z S <= 1)%Q).
  { split.
    - apply Qle_shift_div_l; [exact HSpos|]. rewrite Qmult_0_l. rewrite <- (Zle_Qle 0). lia.
    - apply Qle_shift_div_r; [exact HSpos|]. rewrite Qmult_1_l. rewrite <- Zle_Qle. lia. }
  assert (H19 : (pow2 (-19) == 1 # 524288)%Q) by (vm_compute; reflexivity).
  apply Qabs_Qle_condition in Herr. rewrite H19 in Herr.
  destruct (mul_100_mantissa m e Hm He ltac:(nra)) as (m1 & e1 & Hm1 & He1 & Hmul & Herr1).
  rewrite Hmul.
  apply Qabs_Qle_condition in Herr1. rewrite H19 in Herr1.
  destruct (float_round_1_mantissa m1 e1 Hm1 He1 ltac:(nra)) as (m2 & e2 & Hm2 & Hrnd & Herr2).
  apply Qabs_Qle_condition in Herr2. rewrite H19 in Herr2.
  eexists. split; [reflexivity|].
  unfold py_round_1. rewrite Hrnd. split; [apply SF_of_mantissa_finite; exact Hm2|].
  unfold num_value. rewrite SF2Q_of_mantissa by exact Hm2.
  apply Qabs_Qle_condition.
  revert Hratio Herr Herr1 Herr2.
  generalize (inject_Z t / inject_Z S)%Q (inject_Z m * pow2 e)%Q (inject_Z m1 * pow2 e1)%Q
    (inject_Z m2 * pow2 e2)%Q.
  intros V X Y Z0 Hratio Herr Herr1 Herr2. split; lra.
Qed.

Lemma rate_of_zero_sum t S : S <= 0 -> rate_of t S = Ok (PyInt 0).
Proof.
  intros HS. unfold rate_of.
  replace (0 <? S) with false by (symmetry; apply Z.ltb_ge; lia). reflexivity.
Qed.

(* ===================================================================== *)
(** * Dictionaries, sorting and ranking                                   *)
(* ===================================================================== *)

(** ** Dictionaries *)

Section Dict.
Context {V : Type}.
Implicit Types (d : list (string * V)) (k : string) (v : V).

Lemma dict_get_set d k v k' :
  dict_get (dict_set d k v) k' = if String.eqb k k' then Some v else dict_get d k'.
Proof.
  induction d as [|[k0 v0] d IH]; simpl.
  - reflexivity.
  - destruct (String.eqb_spec k0 k) as [->|Hne]; simpl.
    + destruct (String.eqb_spec k k'); reflexivity.
    + rewrite IH. destruct (String.eqb_spec k0 k') as [->|Hne'].
      * destruct (String.eqb_spec k k'); [congruence | reflexivity].
      * reflexivity.
Qed.

Lemma dict_set_fresh d k v :
  ~ In k (map fst d) -> dict_set d k v = (d ++ [(k, v)])%list.
Proof.
  induction d as [|[k0 v0] d IH]; simpl; intros Hk.
  - reflexivity.
  - destruct (String.eqb_spec k0 k) as [->|Hne].
    + exfalso. apply Hk. left. reflexivity.
    + f_equal. apply IH. intros H. apply Hk. right. exact H.
Qed.

Lemma dict_set_keys d k v :
  forall k', In k' (map fst (dict_set d k v)) <-> k' = k \/ In k' (map fst d).
Proof.
  induction d as [|[k0 v0] d IH]; simpl; intros k'.
  - intuition.
  - destruct (String.eqb_spec k0 k) as [->|Hne]; simpl.
    + intuition.
    + rewrite IH. intuition.
Qed.

Lemma dict_set_NoDup d k v :
  List.NoDup (map fst d) -> List.NoDup (map fst (dict_set d k v)).
Proof.
  induction d as [|[k0 v0] d IH]; simpl; intros Hd.
  - apply List.NoDup_cons_iff. split; [apply in_nil | apply List.NoDup_nil].
  - apply List.NoDup_cons_iff in Hd. destruct Hd as [Hk0 Hd].
    destruct (String.eqb_spec k0 k) as [->|Hne]; simpl.
    + apply List.NoDup_cons_iff. split; assumption.
    + apply List.NoDup_cons_iff. split; [|apply IH; exact Hd].
      rewrite dict_set_keys. intros [H|H]; [congruence | contradiction].
Qed.

Lemma dict_get_In d k v :
  List.NoDup (map fst d) -> (dict_get d k = Some v <-> In (k, v) d).
Proof.
  induction d as [|[k0 v0] d IH]; simpl; intros Hd.
  - split; [discriminate | intros []].
  - apply List.NoDup_cons_iff in Hd. destruct Hd as [Hk0 Hd].
    destruct (String.eqb_spec k0 k) as [->|Hne].
    + split.
      * intros [= ->]. left. reflexivity.
      * intros [[= ->]|H]; [reflexivity|].
        exfalso. apply Hk0. apply (in_map fst) in H. exact H.
    + rewrite (IH Hd). split; [intros H; right; exact H|].
      intros [[= -> ->]|H]; [congruence | exact H].
Qed.

Lemma dict_get_None d k :
  dict_get d k = None <-> ~ In k (map fst d).
Proof.
  induction d as [|[k0 v0] d IH]; simpl.
  - intuition.
  - destruct (String.eqb_spec k0 k) as [->|Hne].
    + split; [discriminate | intros H; exfalso; apply H; left; reflexivity].
    + rewrite IH. intuition.
Qed.

End Dict.

(** ** Sorting *)

Section Sorting.
Context {A : Type} (key : A -> Z).

Lemma insert_desc_perm x l : Permutation (insert_desc key x l) (x :: l).
Proof.
  induction l as [|y l IH]; simpl.
  - apply Permutation_refl.
  - destruct (key x <? key y).
    + apply Permutation_trans with (y :: x :: l).
      * apply perm_skip. exact IH.
      * apply perm_swap.
    + apply Permutation_refl.
Qed.

Lemma sorted_reverse_perm l : Permutation (sorted_reverse key l) l.
Proof.
  induction l as [|x l IH]; simpl.
  - apply Permutation_refl.
  - apply Permutation_trans with (x :: sorted_reverse key l).
    + apply insert_desc_perm.
    + apply perm_skip. exact IH.
Qed.

Lemma insert_desc_descending x l :
  descending key l -> descending key (insert_desc key x l).
Proof.
  unfold descending. induction l as [|y l IH]; simpl; intros Hl.
  - constructor; constructor.
  - apply StronglySorted_inv in Hl. destruct Hl as [Hl Hy].
    destruct (Z.ltb_spec (key x) (key y)) as [Hlt|Hge].
    + constructor; [apply IH; exact Hl|].
      apply List.Forall_forall. intros z Hz.
      apply (Permutation_in _ (insert_desc_perm x l)) in Hz.
      destruct Hz as [<-|Hz]; [lia|].
      rewrite List.Forall_forall in Hy. apply Hy. exact Hz.
    + constructor; [constructor; assumption|].
      constructor; [lia|].
      rewrite List.Forall_forall in Hy |- *. intros z Hz. specialize (Hy z Hz). lia.
Qed.

Lemma sorted_reverse_descending l : descending key (sorted_reverse key l).
Proof.
  induction l as [|x l IH]; simpl.
  - constructor.
  - apply insert_desc_descending. exact IH.
Qed.

Lemma descending_app l1 l2 :
  descending key (l1 ++ l2)%list ->
  forall a b, In a l1 -> In b l2 -> key b <= key a.
Proof.
  unfold descending. induction l1 as [|x l1 IH]; simpl; intros H a b Ha Hb.
  - destruct Ha.
  - apply StronglySorted_inv in H. destruct H as [H Hx].
    destruct Ha as [<-|Ha].
    + rewrite List.Forall_forall in Hx. apply Hx. apply in_or_app. right. exact Hb.
    + apply (IH H a b Ha Hb).
Qed.

Lemma descending_prefix l1 l2 :
  descending key (l1 ++ l2)%list -> descending key l1.
Proof.
  unfold descending. induction l1 as [|x l1 IH]; simpl; intros H; [constructor|].
  apply StronglySorted_inv in H. destruct H as [H1 H2].
  constructor; [apply IH; exact H1|].
  rewrite List.Forall_forall in H2 |- *. intros b Hb. apply H2.
  apply in_or_app. left. exact Hb.
Qed.

End Sorting.

(** ** Counting the entries above a total *)

Lemma count_above_app t l1 l2 :
  count_above t (l1 ++ l2)%list = count_above t l1 + count_above t l2.
Proof. unfold count_above. rewrite List.filter_app, List.length_app. lia. Qed.

Lemma count_above_none t l :
  (forall x, In x l -> total (snd x) <= t) -> count_above t l = 0.
Proof.
  unfold count_above. induction l as [|y l IH]; simpl; intros H.
  - reflexivity.
  - destruct (Z.ltb_spec t (total (snd y))) as [Hlt|Hge].
    + specialize (H y (or_introl eq_refl)). lia.
    + apply IH. intros x Hx. apply H. right. exact Hx.
Qed.

Lemma count_above_all t l :
  (forall x, In x l -> t < total (snd x)) -> count_above t l = Z.of_nat (length l).
Proof.
  unfold count_above. induction l as [|y l IH]; simpl; intros H.
  - reflexivity.
  - destruct (Z.ltb_spec t (total (snd y))) as [Hlt|Hge].
    + simpl. f_equal. f_equal. apply Nat2Z.inj. apply IH. intros x Hx. apply H. right. exact Hx.
    + specialize (H y (or_introl eq_refl)). lia.
Qed.

Lemma count_above_perm t l l' :
  Permutation l l' -> count_above t l = count_above t l'.
Proof.
  intros HP. unfold count_above. induction HP; simpl.
  - reflexivity.
  - destruct (t <? total (snd x)); simpl; lia.
  - destruct (t <? total (snd x)); destruct (t <? total (snd y)); simpl; lia.
  - lia.
Qed.

Lemma count_above_same_totals {A} t (f : A -> string * score_entry)
  (g : A -> string * score_entry) (l : list A) :
  (forall x, In x l -> total (snd (f x)) = total (snd (g x))) ->
  count_above t (map f l) = count_above t (map g l).
Proof.
  unfold count_above. induction l as [|y l IH]; simpl; intros H.
  - reflexivity.
  - rewrite (H y (or_introl eq_refl)).
    assert (IH' := IH (fun x Hx => H x (or_intror Hx))).
    destruct (t <? total (snd (g y))); simpl; lia.
Qed.

Lemma count_above_with_rank t l0 l :
  count_above t (map (with_rank l0) l) = count_above t l.
Proof.
  rewrite <- (List.map_id l) at 2.
  apply count_above_same_totals. intros x _. reflexivity.
Qed.

(** ** The ranking loop *)

Lemma with_rank_keys l0 l : map fst (map (with_rank l0) l) = map fst l.
Proof. rewrite List.map_map. reflexivity. Qed.

Lemma rank_inv_init :
  rank_inv [] {| ranked_scores := []; last_score := None;
                 current_rank := 0; rank_counter := 0 |}.
Proof. repeat split. Qed.

Lemma rank_inv_step pre st x :
  rank_inv pre st ->
  descending entry_total (pre ++ [x])%list ->
  ~ In (fst x) (map fst pre) ->
  rank_inv (pre ++ [x])%list (rank_step st x).
Proof.
  intros (Hranked & Hcount & Hlast) Hdesc Hfresh.
  assert (Hle : forall y, In y pre -> total (snd x) <= total (snd y)).
  { intros y Hy. apply (descending_app entry_total pre [x] Hdesc y x Hy). left. reflexivity. }
  assert (Hcur : (if differs (total (snd x)) (last_score st)
                  then rank_counter st + 1 else current_rank st)
                 = 1 + count_above (total (snd x)) (pre ++ [x])%list).
  { rewrite count_above_app.
    rewrite (count_above_none _ [x]) by (intros z [<-|[]]; lia).
    destruct (rev pre) as [|y r] eqn:Erev.
    - rewrite Hlast. simpl.
      assert (pre = []) as ->
        by (apply (f_equal (@rev _)) in Erev; rewrite rev_involutive in Erev; exact Erev).
      rewrite Hcount. reflexivity.
    - destruct Hlast as [Hl Hc]. rewrite Hl. simpl.
      assert (Hpre : pre = (rev r ++ [y])%list).
      { apply (f_equal (@rev _)) in Erev. rewrite rev_involutive in Erev. exact Erev. }
      assert (Hy : In y pre) by (rewrite Hpre; apply in_or_app; right; left; reflexivity).
      destruct (Z.eqb_spec (total (snd x)) (total (snd y))) as [Heq|Hne]; simpl.
      + rewrite Hc, Heq. lia.
      + rewrite Hcount. rewrite count_above_all; [lia|].
        intros z Hz. specialize (Hle y Hy).
        assert (total (snd y) <= total (snd z)).
        { rewrite Hpre in Hz. apply in_app_or in Hz. destruct Hz as [Hz|[<-|[]]]; [|lia].
          assert (Hd : descending entry_total (rev r ++ [y])%list)
            by (rewrite <- Hpre; apply (descending_prefix entry_total pre [x] Hdesc)).
          apply (descending_app entry_total (rev r) [y] Hd z y Hz). left. reflexivity. }
        lia. }
  destruct x as [user data]. simpl fst in *; simpl snd in *.
  unfold rank_inv, rank_step. simpl ranked_scores; simpl rank_counter;
    simpl last_score; simpl current_rank.
  split; [|split].
  - rewrite Hranked, Hcur.
    rewrite dict_set_fresh by (rewrite with_rank_keys; exact Hfresh).
    rewrite List.map_app. simpl. f_equal.
    apply List.map_ext_in. intros y Hy. unfold with_rank. f_equal. f_equal. f_equal.
    rewrite count_above_app.
    rewrite (count_above_none _ [(user, data)]); [lia|].
    intros z [<-|[]]. simpl. apply (Hle y Hy).
  - rewrite Hcount, List.length_app. simpl. lia.
  - rewrite rev_app_distr. simpl. split; [|exact Hcur].
    destruct (last_score st) as [s|]; simpl; [|reflexivity].
    destruct (Z.eqb_spec (total data) s) as [->|]; reflexivity.
Qed.

Lemma rank_fold rest : forall pre st,
  rank_inv pre st ->
  descending entry_total (pre ++ rest)%list ->
  List.NoDup (map fst (pre ++ rest)%list) ->
  rank_inv (pre ++ rest)%list (fold_left rank_step rest st).
Proof.
  induction rest as [|x rest IH]; intros pre st Hinv Hdesc Hnd; simpl.
  - rewrite List.app_nil_r. exact Hinv.
  - replace (pre ++ x :: rest)%list with ((pre ++ [x]) ++ rest)%list in *
      by (rewrite <- List.app_assoc; reflexivity).
    apply IH; [|exact Hdesc|exact Hnd].
    apply rank_inv_step; [exact Hinv| |].
    + apply (descending_prefix entry_total _ rest Hdesc).
    + rewrite !List.map_app in Hnd. rewrite <- List.app_assoc in Hnd. simpl in Hnd.
      apply List.NoDup_remove_2 in Hnd. intros H. apply Hnd.
      apply in_or_app. left. exact H.
Qed.

Lemma rank_loop_spec sorted :
  descending entry_total sorted ->
  List.NoDup (map fst sorted) ->
  ranked_scores (rank_loop sorted) = map (with_rank sorted) sorted.
Proof.
  intros Hdesc Hnd.
  destruct (rank_fold sorted [] _ rank_inv_init Hdesc Hnd) as [H _]. exact H.
Qed.

(* ===================================================================== *)
(** * The stages of [calculate_scores]                                    *)
(* ===================================================================== *)

(** ** One participant *)

Lemma nonneg_counts_spec a :
  nonneg_counts a = true ->
  0 <= get_count a "p_enhancement" /\ 0 <= get_count a "p_bug" /\
  0 <= get_count a "p_documentation" /\ 0 <= get_count a "p_typo" /\
  0 <= get_count a "i_enhancement" /\ 0 <= get_count a "i_bug" /\
  0 <= get_count a "i_documentation".
Proof.
  unfold nonneg_counts. simpl forallb. rewrite !andb_true_iff, !Z.leb_le. tauto.
Qed.

Lemma base_entry_total self a :
  total (base_entry self a) = l_total (score_participant self a).
Proof.
  unfold base_entry, score_participant. simpl.
  destruct (zero_pr_guard _ _ _ _ _); reflexivity.
Qed.

Lemma scored_total self p : total (snd (scored self p)) = participant_total self p.
Proof. apply base_entry_total. Qed.

Lemma total_nonneg ps a :
  nonneg_counts a = true -> 0 <= l_total (score_participant (analyzer_of ps) a).
Proof.
  intros H. apply nonneg_counts_spec in H.
  unfold score_participant, _extract_pr_counts, _extract_issue_counts,
    _calculate_valid_counts, _calculate_adjusted_counts, _calculate_total_score,
    zero_pr_guard. simpl.
  destruct (_ && _) eqn:E; simpl.
  - rewrite !andb_true_iff, !Z.eqb_eq, Z.ltb_lt in E.
    destruct (0 <? get_count a "p_typo"); lia.
  - lia.
Qed.

(** ** The scoring loop *)

Lemma score_fold self ps : forall acc s,
  List.NoDup (map fst ps) ->
  (forall k, In k (map fst ps) -> ~ In k (map fst acc)) ->
  fold_left (score_step self) ps (acc, s) =
  ((acc ++ map (scored self) ps)%list, s + sum_Z (map (participant_total self) ps)).
Proof.
  induction ps as [|[k a] ps IH]; intros acc s Hnd Hfresh; simpl.
  - rewrite List.app_nil_r. f_equal. lia.
  - apply List.NoDup_cons_iff in Hnd. destruct Hnd as [Hk Hnd].
    rewrite dict_set_fresh by (apply Hfresh; left; reflexivity).
    rewrite IH.
    + rewrite <- List.app_assoc. simpl. f_equal. unfold participant_total at 2. simpl. lia.
    + exact Hnd.
    + intros k' Hk' Hin. rewrite List.map_app in Hin. apply in_app_or in Hin.
      destruct Hin as [Hin|[<-|[]]].
      * apply (Hfresh k'); [right; exact Hk' | exact Hin].
      * apply Hk. exact Hk'.
Qed.

Lemma score_loop_spec self :
  List.NoDup (map fst (participants self)) ->
  score_loop self = (map (scored self) (participants self), grand_total self).
Proof.
  intros Hnd. unfold score_loop. rewrite score_fold; [reflexivity | exact Hnd |].
  intros k _ [].
Qed.

Lemma scored_keys self ps : map fst (map (scored self) ps) = map fst ps.
Proof. rewrite List.map_map. reflexivity. Qed.

Lemma sum_Z_bound l x :
  (forall y, In y l -> 0 <= y) -> In x l -> 0 <= x <= sum_Z l.
Proof.
  induction l as [|y l IH]; simpl; intros Hpos Hx; [destruct Hx|].
  assert (0 <= sum_Z l).
  { clear - Hpos. induction l as [|z l IHl]; simpl; [lia|].
    assert (0 <= z) by (apply Hpos; right; left; reflexivity).
    assert (0 <= sum_Z l); [|lia].
    apply IHl. intros w [<-|Hw]; apply Hpos; [left | right; right]; auto. }
  destruct Hx as [<-|Hx].
  - specialize (Hpos y (or_introl eq_refl)). lia.
  - assert (0 <= y) by (apply Hpos; left; reflexivity).
    assert (0 <= x <= sum_Z l); [|lia].
    apply IH; [|exact Hx]. intros z Hz. apply Hpos. right. exact Hz.
Qed.

(** ** Filtering *)

Lemma kept_scores_In mc scores x :
  In x (kept_scores mc scores) <->
  In x scores /\ (0 < mc -> mc <= total (snd x)).
Proof.
  unfold kept_scores. destruct (Z.ltb_spec 0 mc) as [Hlt|Hge].
  - rewrite List.filter_In. destruct x as [u s]. simpl. rewrite Z.leb_le. intuition.
  - intuition lia.
Qed.

Lemma NoDup_map_fst_filter {V} (f : string * V -> bool) (l : list (string * V)) :
  List.NoDup (map fst l) -> List.NoDup (map fst (List.filter f l)).
Proof.
  induction l as [|x l IH]; simpl; intros Hnd; [constructor|].
  apply List.NoDup_cons_iff in Hnd. destruct Hnd as [Hx Hnd].
  destruct (f x); simpl; [|apply IH; exact Hnd].
  apply List.NoDup_cons_iff. split; [|apply IH; exact Hnd].
  intros Hin. apply Hx. apply List.in_map_iff in Hin. destruct Hin as (y & Hy & Hin).
  apply List.filter_In in Hin. rewrite <- Hy. apply in_map. tauto.
Qed.

Lemma kept_scores_NoDup mc scores :
  List.NoDup (map fst scores) -> List.NoDup (map fst (kept_scores mc scores)).
Proof.
  unfold kept_scores. destruct (0 <? mc); [apply NoDup_map_fst_filter | auto].
Qed.

(** ** The rate loop *)

Lemma rate_loop_ok scores S :
  (forall x, In x scores -> exists r, rate_of (total (snd x)) S = Ok r) ->
  rate_loop scores S = Ok (map (rated_entry S) scores).
Proof.
  induction scores as [|[k d] scores IH]; intros H.
  - reflexivity.
  - destruct (H (k, d) (or_introl eq_refl)) as [r Hr]. simpl in Hr.
    cbn [rate_loop]. rewrite Hr.
    rewrite IH by (intros x Hx; apply H; right; exact Hx).
    simpl. unfold rated_entry at 2. simpl. rewrite Hr. reflexivity.
Qed.

Lemma rated_keys S l : map fst (map (rated_entry S) l) = map fst l.
Proof. rewrite List.map_map. reflexivity. Qed.

(** ** Relabelling *)

Lemma dict_set_In {V} (d : list (string * V)) k v k' v' :
  In (k', v') (dict_set d k v) -> (k' = k /\ v' = v) \/ In (k', v') d.
Proof.
  induction d as [|[k0 v0] d IH]; simpl.
  - intros [[= <- <-]|[]]. left. auto.
  - destruct (String.eqb_spec k0 k) as [->|Hne]; simpl.
    + intros [[= <- <-]|H]; [left; auto | right; right; exact H].
    + intros [H|H]; [right; left; exact H|].
      destruct (IH H) as [?|?]; [left; assumption | right; right; assumption].
Qed.

Lemma relabel_fold_In ui l : forall acc k' d,
  In (k', d)
    (fold_left (relabel_step ui) l acc) ->
  In (k', d) acc \/ exists k, In (k, d) l /\ display_name ui k = k'.
Proof.
  induction l as [|[k0 d0] l IH]; simpl; intros acc k' d H.
  - left. exact H.
  - apply IH in H. destruct H as [H|(k & Hk & Hd)].
    + apply dict_set_In in H. destruct H as [[-> ->]|H]; [|left; exact H].
      right. exists k0. split; [left; reflexivity | reflexivity].
    + right. exists k. split; [right; exact Hk | exact Hd].
Qed.

Lemma relabel_fold_NoDup ui l : forall acc,
  List.NoDup (map fst acc) ->
  List.NoDup (map fst
    (fold_left (relabel_step ui) l acc)).
Proof.
  induction l as [|[k0 d0] l IH]; simpl; intros acc H.
  - exact H.
  - apply IH. apply dict_set_NoDup. exact H.
Qed.

Lemma relabel_In ui l k' d :
  In (k', d) (relabel ui l) -> exists k, In (k, d) l /\ display_name ui k = k'.
Proof.
  unfold relabel. destruct (truthy ui) eqn:E.
  - intros H. apply relabel_fold_In in H. destruct H as [[]|H]. exact H.
  - intros H. exists k'. split; [exact H|].
    destruct ui as [m|]; [|reflexivity].
    simpl in E. apply negb_false_iff, bool_decide_eq_true in E. subst m.
    simpl. rewrite lookup_empty. reflexivity.
Qed.

Lemma relabel_NoDup ui l :
  List.NoDup (map fst l) -> List.NoDup (map fst (relabel ui l)).
Proof.
  unfold relabel. destruct (truthy ui); [|auto].
  intros _. apply relabel_fold_NoDup. constructor.
Qed.

Lemma relabel_None l : relabel None l = l.
Proof. reflexivity. Qed.

Lemma well_formed_nonneg ps p :
  well_formed ps -> In p ps -> nonneg_counts (snd p) = true.
Proof.
  intros [_ H] Hp. rewrite forallb_forall in H. apply (H p Hp).
Qed.

Lemma participant_total_bounds ps p :
  well_formed ps -> In p ps ->
  0 <= participant_total (analyzer_of ps) p <= grand_total (analyzer_of ps).
Proof.
  intros Hwf Hp. unfold grand_total. simpl participants.
  apply sum_Z_bound.
  - intros y Hy. apply List.in_map_iff in Hy. destruct Hy as (q & <- & Hq).
    apply total_nonneg. apply (well_formed_nonneg ps q Hwf Hq).
  - apply in_map. exact Hp.
Qed.

Lemma rate_of_total ps p :
  well_formed ps -> In p ps ->
  exists r, rate_of (participant_total (analyzer_of ps) p) (grand_total (analyzer_of ps)) = Ok r.
Proof.
  intros Hwf Hp. pose proof (participant_total_bounds ps p Hwf Hp) as Hb.
  destruct (Z.ltb_spec 0 (grand_total (analyzer_of ps))) as [Hpos|Hle].
  - destruct (rate_of_bound _ _ Hb Hpos) as (r & Hr & _). exists r. exact Hr.
  - exists (PyInt 0). apply rate_of_zero_sum. exact Hle.
Qed.

Lemma rated_scores_NoDup ps mc :
  well_formed ps -> List.NoDup (map fst (rated_scores (analyzer_of ps) mc)).
Proof.
  intros [Hnd _]. unfold rated_scores. rewrite rated_keys.
  apply kept_scores_NoDup. rewrite scored_keys. exact Hnd.
Qed.

Lemma final_sorted_perm self ui mc :
  Permutation (final_sorted self ui mc) (relabel ui (rated_scores self mc)).
Proof. apply sorted_reverse_perm. Qed.

Lemma final_sorted_NoDup ps ui mc :
  well_formed ps -> List.NoDup (map fst (final_sorted (analyzer_of ps) ui mc)).
Proof.
  intros Hwf.
  apply (Permutation_NoDup (l := map fst (relabel ui (rated_scores (analyzer_of ps) mc)))).
  - apply Permutation_map, Permutation_sym, final_sorted_perm.
  - apply relabel_NoDup, rated_scores_NoDup. exact Hwf.
Qed.

Theorem calculate_scores_unfold ps ui mc :
  well_formed ps ->
  calculate_scores (analyzer_of ps) ui mc = Ok (ranked_result (analyzer_of ps) ui mc).
Proof.
  intros Hwf. unfold calculate_scores.
  rewrite score_loop_spec by (destruct Hwf as [Hnd _]; exact Hnd).
  change (if 0 <? mc
          then List.filter (fun '(user, s) => mc <=? total s)
                 (map (scored (analyzer_of ps)) (participants (analyzer_of ps)))
          else map (scored (analyzer_of ps)) (participants (analyzer_of ps)))
    with (kept_scores mc (map (scored (analyzer_of ps)) (participants (analyzer_of ps)))).
  unfold _finalize_scores. rewrite rate_loop_ok.
  - cbn [bind]. f_equal.
    change (fun x : string * score_entry => total (snd x)) with entry_total.
    apply rank_loop_spec.
    + apply sorted_reverse_descending.
    + apply (final_sorted_NoDup ps ui mc Hwf).
  - intros x Hx. apply kept_scores_In in Hx. destruct Hx as [Hx _].
    apply List.in_map_iff in Hx. destruct Hx as (p & <- & Hp).
    rewrite scored_total. apply rate_of_total; assumption.
Qed.

(** ** Facts about the result *)

Lemma ranked_result_In self ui mc k e :
  In (k, e) (ranked_result self ui mc) <->
  exists d, In (k, d) (relabel ui (rated_scores self mc)) /\
            e = set_rank d (1 + count_above (total d) (final_sorted self ui mc)).
Proof.
  unfold ranked_result. rewrite List.in_map_iff. split.
  - intros ([k' d] & [= <- <-] & Hin). exists d. split; [|reflexivity].
    apply (Permutation_in _ (final_sorted_perm self ui mc)). exact Hin.
  - intros (d & Hin & ->). exists (k, d). split; [reflexivity|].
    apply (Permutation_in _ (Permutation_sym (final_sorted_perm self ui mc))). exact Hin.
Qed.

Lemma ranked_result_count self ui mc t :
  count_above t (ranked_result self ui mc) = count_above t (final_sorted self ui mc).
Proof. apply count_above_with_rank. Qed.

Lemma ranked_result_NoDup ps ui mc :
  well_formed ps -> List.NoDup (map fst (ranked_result (analyzer_of ps) ui mc)).
Proof.
  intros Hwf. unfold ranked_result. rewrite with_rank_keys.
  apply final_sorted_NoDup. exact Hwf.
Qed.

Lemma count_above_mono t t' l : t <= t' -> count_above t' l <= count_above t l.
Proof.
  intros Hle. unfold count_above. apply inj_le.
  induction l as [|x l IH]; simpl; [lia|].
  destruct (Z.ltb_spec t' (total (snd x))); destruct (Z.ltb_spec t (total (snd x)));
    simpl; lia.
Qed.

(** ** Looking a participant up in the result, without relabelling *)

Lemma NoDup_keys_unique {V} (l : list (string * V)) k v v' :
  List.NoDup (map fst l) -> In (k, v) l -> In (k, v') l -> v = v'.
Proof.
  intros Hnd H1 H2. apply (dict_get_In l k v Hnd) in H1. apply (dict_get_In l k v' Hnd) in H2.
  congruence.
Qed.

Lemma rated_scores_In ps mc k d :
  In (k, d) (rated_scores (analyzer_of ps) mc) <->
  exists a, In (k, a) ps /\
    (0 < mc -> mc <= l_total (score_participant (analyzer_of ps) a)) /\
    d = snd (rated_entry (grand_total (analyzer_of ps)) (scored (analyzer_of ps) (k, a))).
Proof.
  unfold rated_scores. rewrite List.in_map_iff. split.
  - intros (x & Hx & Hin). apply kept_scores_In in Hin. destruct Hin as [Hin Hmc].
    apply List.in_map_iff in Hin. destruct Hin as ([k' a] & <- & Hp).
    injection Hx as <- <-. exists a. split; [exact Hp|]. split; [|reflexivity].
    rewrite scored_total in Hmc. exact Hmc.
  - intros (a & Hp & Hmc & ->). exists (scored (analyzer_of ps) (k, a)).
    split; [reflexivity|]. apply kept_scores_In. split.
    + apply (in_map (scored (analyzer_of ps)) _ _ Hp).
    + rewrite scored_total. exact Hmc.
Qed.

Lemma result_lookup ps mc name a :
  well_formed ps -> In (name, a) ps ->
  (0 < mc -> mc <= l_total (score_participant (analyzer_of ps) a)) ->
  exists n,
    dict_get (ranked_result (analyzer_of ps) None mc) name =
    Some (set_rank
            (snd (rated_entry (grand_total (analyzer_of ps))
                    (scored (analyzer_of ps) (name, a)))) n).
Proof.
  intros Hwf Hp Hmc. eexists.
  apply dict_get_In; [apply ranked_result_NoDup; exact Hwf|].
  apply ranked_result_In. eexists. split; [|reflexivity].
  rewrite relabel_None. apply rated_scores_In. exists a. auto.
Qed.

Lemma result_absent ps mc name a :
  well_formed ps -> In (name, a) ps ->
  0 < mc -> l_total (score_participant (analyzer_of ps) a) < mc ->
  dict_get (ranked_result (analyzer_of ps) None mc) name = None.
Proof.
  intros Hwf Hp Hpos Hlt. apply dict_get_None. intros Hin.
  apply List.in_map_iff in Hin. destruct Hin as ([k e] & Hk & Hin). simpl in Hk. subst k.
  apply ranked_result_In in Hin. destruct Hin as (d & Hin & _).
  rewrite relabel_None in Hin. apply rated_scores_In in Hin.
  destruct Hin as (a' & Hp' & Hmc & _).
  assert (a' = a) by (destruct Hwf as [Hnd _]; apply (NoDup_keys_unique ps name a' a Hnd Hp' Hp)).
  subst a'. specialize (Hmc Hpos). lia.
Qed.

Lemma result_entry_total ps ui mc k e :
  In (k, e) (ranked_result (analyzer_of ps) ui mc) ->
  exists k' a, In (k', a) ps /\ display_name ui k' = k /\
    (0 < mc -> mc <= l_total (score_participant (analyzer_of ps) a)) /\
    total e = l_total (score_participant (analyzer_of ps) a).
Proof.
  intros Hin. apply ranked_result_In in Hin. destruct Hin as (d & Hin & ->).
  apply relabel_In in Hin. destruct Hin as (k' & Hin & Hk).
  apply rated_scores_In in Hin. destruct Hin as (a & Hp & Hmc & ->).
  exists k', a. repeat split; auto. simpl. apply base_entry_total.
Qed.

Ltac unfold_participant :=
  unfold score_participant, _extract_pr_counts, _extract_issue_counts,
    _calculate_valid_counts, _calculate_adjusted_counts, _calculate_total_score,
    _create_score_dict; cbv zeta.

Lemma locals_inputs self a :
  let l := score_participant self a in
  l_p_fb l = get_count a "p_enhancement" + get_count a "p_bug" /\
  l_p_d l = get_count a "p_documentation" /\
  l_p_t l = get_count a "p_typo" /\
  l_i_fb l = get_count a "i_enhancement" + get_count a "i_bug" /\
  l_i_d l = get_count a "i_documentation".
Proof.
  unfold_participant. destruct (zero_pr_guard _ _ _ _ _); simpl; repeat split.
Qed.

Ltac raw_inputs self a :=
  let E1 := fresh "E" in let E2 := fresh "E" in let E3 := fresh "E" in
  let E4 := fresh "E" in let E5 := fresh "E" in
  destruct (locals_inputs self a) as (E1 & E2 & E3 & E4 & E5);
  rewrite ?E1, ?E2, ?E3, ?E4, ?E5; clear E1 E2 E3 E4 E5.

Lemma zero_pr_locals self a :
  let l := score_participant self a in
  zero_pr_guard (l_p_fb l) (l_p_d l) (l_p_t l) (l_i_fb l) (l_i_d l) = true ->
  l_p_valid l = 1 /\
  l_i_valid l = Z.min (l_i_fb l + l_i_d l) 4 /\
  l_p_fb_at l = 0 /\ l_p_d_at l = 0 /\ l_p_t_at l = 0 /\
  l_i_fb_at l = Z.min (l_i_fb l) (l_i_valid l) /\
  l_i_d_at l = l_i_valid l - l_i_fb_at l /\
  l_total l = feat_bug_is (score self) * l_i_fb_at l + doc_is (score self) * l_i_d_at l /\
  l_entry l =
    {| feat_bug_PR := PyFloat (S754_zero false);
       document_PR := PyFloat (S754_zero false);
       typo_PR := PyFloat (S754_zero false);
       feat_bug_issue := PyInt (feat_bug_is (score self) * l_i_fb_at l);
       document_issue := PyInt (doc_is (score self) * l_i_d_at l);
       total := l_total l;
       rate := None;
       rank := None |}.
Proof.
  intros l. unfold l. raw_inputs self a. intros Hg.
  unfold_participant. rewrite Hg. simpl.
  unfold zero_pr_guard in Hg. rewrite !andb_true_iff, !Z.eqb_eq, Z.ltb_lt in Hg.
  destruct Hg as [[[_ _] Ht] _]. rewrite Ht. simpl.
  repeat split; try reflexivity; try lia.
Qed.

Lemma kept_scores_survivors self mc ps :
  kept_scores mc (map (scored self) ps) =
  map (scored self) (List.filter (survives self mc) ps).
Proof.
  unfold kept_scores, survives. destruct (0 <? mc); simpl.
  - induction ps as [|p ps IH]; simpl; [reflexivity|].
    rewrite base_entry_total. fold (participant_total self p).
    destruct (mc <=? participant_total self p); simpl; rewrite IH; reflexivity.
  - f_equal. induction ps as [|p ps IH]; simpl; [reflexivity|]. f_equal. exact IH.
Qed.

(** ** Relabelling with a collision *)

Lemma relabel_fold_get_other ui l d : forall acc,
  (forall x, In x l -> display_name ui (fst x) <> d) ->
  dict_get (fold_left (relabel_step ui) l acc) d = dict_get acc d.
Proof.
  induction l as [|[k e] l IH]; simpl; intros acc H; [reflexivity|].
  rewrite IH by (intros x Hx; apply H; right; exact Hx).
  rewrite dict_get_set.
  destruct (String.eqb_spec (display_name ui k) d) as [Heq|Hne]; [|reflexivity].
  exfalso. apply (H (k, e)); [left; reflexivity | exact Heq].
Qed.

Lemma relabel_fold_get_last ui l1 x l2 acc :
  (forall y, In y l2 -> display_name ui (fst y) <> display_name ui (fst x)) ->
  dict_get (fold_left (relabel_step ui) (l1 ++ x :: l2)%list acc) (display_name ui (fst x))
  = Some (snd x).
Proof.
  intros H. rewrite List.fold_left_app. simpl.
  rewrite relabel_fold_get_other by exact H.
  destruct x as [k e]. simpl. rewrite dict_get_set, String.eqb_refl. reflexivity.
Qed.

Lemma dict_set_length_present {V} (d : list (string * V)) k v :
  In k (map fst d) -> length (dict_set d k v) = length d.
Proof.
  induction d as [|[k0 v0] d IH]; simpl; intros H; [destruct H|].
  destruct (String.eqb_spec k0 k) as [->|Hne]; simpl; [reflexivity|].
  f_equal. apply IH. destruct H as [H|H]; [congruence | exact H].
Qed.

Lemma dict_set_length_le {V} (d : list (string * V)) k v :
  (length (dict_set d k v) <= S (length d))%nat.
Proof.
  induction d as [|[k0 v0] d IH]; simpl; [lia|].
  destruct (String.eqb k0 k); simpl; lia.
Qed.

Lemma relabel_fold_length ui l : forall acc,
  (length (fold_left (relabel_step ui) l acc) <= length acc + length l)%nat.
Proof.
  induction l as [|[k e] l IH]; simpl; intros acc; [lia|].
  specialize (IH (dict_set acc (display_name ui k) e)).
  pose proof (dict_set_length_le acc (display_name ui k) e). lia.
Qed.

Lemma relabel_fold_keys ui l : forall acc k,
  In k (map fst acc) -> In k (map fst (fold_left (relabel_step ui) l acc)).
Proof.
  induction l as [|[k0 e] l IH]; simpl; intros acc k H; [exact H|].
  apply IH. apply dict_set_keys. right. exact H.
Qed.

Lemma relabel_fold_collision ui l1 x1 l2 x2 l3 :
  display_name ui (fst x1) = display_name ui (fst x2) ->
  (length (fold_left (relabel_step ui) (l1 ++ x1 :: l2 ++ x2 :: l3)%list [])
   < length (l1 ++ x1 :: l2 ++ x2 :: l3)%list)%nat.
Proof.
  intros Hd. rewrite List.fold_left_app. simpl fold_left at 1.
  rewrite List.fold_left_app. simpl fold_left at 1.
  set (acc1 := fold_left (relabel_step ui) l1 []).
  set (acc2 := relabel_step ui acc1 x1).
  set (acc3 := fold_left (relabel_step ui) l2 acc2).
  pose proof (relabel_fold_length ui l1 []) as H1. fold acc1 in H1. simpl in H1.
  assert (H2 : (length acc2 <= S (length acc1))%nat).
  { unfold acc2. destruct x1 as [k1 e1]. apply dict_set_length_le. }
  pose proof (relabel_fold_length ui l2 acc2) as H3. fold acc3 in H3.
  assert (Hk : In (display_name ui (fst x1)) (map fst acc3)).
  { unfold acc3. apply relabel_fold_keys. unfold acc2. destruct x1 as [k1 e1].
    apply dict_set_keys. left. reflexivity. }
  assert (H4 : length (relabel_step ui acc3 x2) = length acc3).
  { destruct x2 as [k2 e2]. simpl. apply dict_set_length_present.
    simpl in Hd. rewrite <- Hd. exact Hk. }
  pose proof (relabel_fold_length ui l3 (relabel_step ui acc3 x2)) as H5.
  rewrite !List.length_app. simpl. rewrite List.length_app. simpl. lia.
Qed.

Ltac solve_NoDup :=
  repeat (apply List.NoDup_cons; [cbn; intuition discriminate|]); apply List.NoDup_nil.

(** ** Sums of rationals *)

Lemma sum_Q_perm l l' : Permutation l l' -> (sum_Q l == sum_Q l')%Q.
Proof.
  intros HP. induction HP; simpl.
  - reflexivity.
  - rewrite IHHP. reflexivity.
  - ring.
  - rewrite IHHP1. exact IHHP2.
Qed.

Lemma sum_Q_close {A} (f g : A -> Q) (c : Q) (l : list A) :
  (forall x, In x l -> Qabs (f x - g x) <= c)%Q ->
  (Qabs (sum_Q (map f l) - sum_Q (map g l)) <= c * inject_Z (Z.of_nat (length l)))%Q.
Proof.
  induction l as [|x l IH]; intros H.
  - simpl. vm_compute. destruct c as [[|?|?] ?]; simpl; discriminate.
  - assert (Hx := H x (or_introl eq_refl)).
    assert (IH' := IH (fun y Hy => H y (or_intror Hy))).
    cbn [map sum_Q fold_right length]. fold (sum_Q (map f l)). fold (sum_Q (map g l)).
    rewrite Nat2Z.inj_succ. unfold Z.succ. rewrite inject_Z_plus.
    change (inject_Z 1) with 1%Q.
    apply Qabs_Qle_condition in Hx. apply Qabs_Qle_condition in IH'.
    apply Qabs_Qle_condition.
    revert Hx IH'.
    generalize (f x) (g x) (sum_Q (map f l)) (sum_Q (map g l)) (inject_Z (Z.of_nat (length l))).
    intros a b sa sb n Hx IH'. split; lra.
Qed.

Lemma sum_Q_shares (S : Z) (ts : list Z) :
  (sum_Q (map (fun t => 100 * (inject_Z t / inject_Z S)) ts)
   == 100 * (inject_Z (sum_Z ts) / inject_Z S))%Q.
Proof.
  induction ts as [|t ts IH]; simpl.
  - unfold Qdiv. rewrite Qmult_0_l. ring.
  - rewrite IH, inject_Z_plus. unfold Qdiv. ring.
Qed.

(** ** Relabelling without a collision *)

Lemma relabel_fold_fresh ui l : forall acc,
  List.NoDup (map (display_name ui) (map fst l)) ->
  (forall k, In k (map fst l) -> ~ In (display_name ui k) (map fst acc)) ->
  fold_left (relabel_step ui) l acc =
  (acc ++ map (fun x => (display_name ui (fst x), snd x)) l)%list.
Proof.
  induction l as [|[k e] l IH]; simpl; intros acc Hnd Hfresh.
  - rewrite List.app_nil_r. reflexivity.
  - apply List.NoDup_cons_iff in Hnd. destruct Hnd as [Hk Hnd].
    rewrite dict_set_fresh by (apply Hfresh; left; reflexivity).
    rewrite IH; [rewrite <- List.app_assoc; reflexivity | exact Hnd |].
    intros k' Hk' Hin. rewrite List.map_app in Hin. apply in_app_or in Hin.
    destruct Hin as [Hin|[Heq|[]]].
    + apply (Hfresh k'); [right; exact Hk' | exact Hin].
    + simpl in Heq. apply Hk. rewrite Heq. apply in_map. exact Hk'.
Qed.

Lemma relabel_values ui l :
  List.NoDup (map (display_name ui) (map fst l)) ->
  map snd (relabel ui l) = map snd l.
Proof.
  intros Hnd. unfold relabel. destruct (truthy ui); [|reflexivity].
  rewrite relabel_fold_fresh; [|exact Hnd|intros k _ []].
  simpl. rewrite List.map_map. reflexivity.
Qed.

Lemma rate_sum_values r : rate_sum r = sum_Q (map rate_value (map snd r)).
Proof. unfold rate_sum. rewrite List.map_map. reflexivity. Qed.

Lemma filter_all {A} (f : A -> bool) (l : list A) :
  (forall x, In x l -> f x = true) -> List.filter f l = l.
Proof.
  induction l as [|x l IH]; simpl; intros H; [reflexivity|].
  rewrite (H x (or_introl eq_refl)). f_equal. apply IH. intros y Hy. apply H. right. exact Hy.
Qed.

(* ===================================================================== *)
(** * The scenarios of the specification, evaluated                       *)
(* ===================================================================== *)

(** Two feature pull requests: [p_valid = 2], total [3 * 2]. *)
Example scenario_two_features :
  let l := score_participant (analyzer_of []) {[ "p_enhancement" := 2 ]} in
  l_p_fb l = 2 /\ l_p_valid l = 2 /\ l_p_fb_at l = 2 /\ l_total l = 6.
Proof. vm_compute. repeat split. Qed.

(** Five documentation pull requests and no feature or bug pull request:
    the cap is [3 * max 0 1], so [p_valid = 3] and the total is [2 * 3]. *)
Example scenario_five_documentation_prs :
  let l := score_participant (analyzer_of []) {[ "p_documentation" := 5 ]} in
  l_p_fb l = 0 /\ l_p_valid l = 3 /\ l_p_fb_at l = 0 /\ l_p_d_at l = 3 /\
  l_total l = 6.
Proof. vm_compute. repeat split. Qed.

(** Issues only: the synthetic [p_valid = 1], [i_valid = min 3 4]. *)
Example scenario_issues_only :
  let l := score_participant (analyzer_of []) issues_only in
  l_p_valid l = 1 /\ l_i_valid l = 3 /\ l_i_fb_at l = 1 /\ l_i_d_at l = 2 /\
  l_total l = 4.
Proof. vm_compute. repeat split. Qed.

(** One issue and nothing else: [p_valid] is 1 although there is no pull
    request. *)
Example scenario_one_issue :
  let l := score_participant (analyzer_of []) only_one_issue in
  l_p_fb l + l_p_d l + l_p_t l = 0 /\ l_p_valid l = 1 /\ l_i_valid l = 1 /\
  l_total l = 2.
Proof. vm_compute. repeat split. Qed.

(** Totals 6, 4 and 1 give the rates 54.5, 36.4 and 9.1 and the ranks 1, 2
    and 3. *)
Example three_participants_rates :
  match calculate_scores (analyzer_of three_participants) None 0 with
  | Ok r =>
      map (fun x => (fst x, total (snd x), Qred (rate_value (snd x)), rank (snd x))) r
  | Raise _ => []
  end
  = [("alice", 6, 109 # 2, Some 1);
     ("bob", 4, 5122844576133939 # 140737488355328, Some 2);
     ("carol", 1, 5122844576133939 # 562949953421312, Some 3)].
Proof. vm_compute. reflexivity. Qed.

(** The binary64 numbers nearest to 36.4 and to 9.1 are the two rates
    above. *)
Example nearest_to_36_4 :
  b64_div (SF_of_Z 364) (SF_of_Z 10) = S754_finite false 5122844576133939 (-47).
Proof. vm_compute. reflexivity. Qed.

Example nearest_to_9_1 :
  b64_div (SF_of_Z 91) (SF_of_Z 10) = S754_finite false 5122844576133939 (-49).
Proof. vm_compute. reflexivity. Qed.

(** With the threshold 5 only the first of the totals 6 and 1 is returned;
    its rate is [round (6 / 7 * 100) 1], the binary64 number nearest to
    85.7. *)
Example filtered_participants_result :
  calculate_scores (analyzer_of filtered_participants) None 5 =
  Ok [("a",
       {| feat_bug_PR := PyInt 6; document_PR := PyInt 0; typo_PR := PyInt 0;
          feat_bug_issue := PyInt 0; document_issue := PyInt 0;
          total := 6;
          rate := Some (PyFloat (S754_finite false 6030601376025805 (-46)));
          rank := Some 1 |})].
Proof. vm_compute. reflexivity. Qed.

Example nearest_to_85_7 :
  b64_div (SF_of_Z 857) (SF_of_Z 10) = S754_finite false 6030601376025805 (-46).
Proof. vm_compute. reflexivity. Qed.

(** Under the display names of [team_names] the entry of "carol", processed
    last, replaces the entry of "alice" at the position of "alice". *)
Example team_names_result :
  match calculate_scores (analyzer_of three_participants) team_names 0 with
  | Ok r => map (fun x => (fst x, total (snd x), rank (snd x))) r
  | Raise _ => []
  end
  = [("bob", 4, Some 1); ("team", 1, Some 2)].
Proof. vm_compute. reflexivity. Qed.

(* ===================================================================== *)
(** * Properties of the scorer                                            *)
(* ===================================================================== *)

Lemma three_participants_wf : well_formed three_participants.
Proof. split; [solve_NoDup | reflexivity]. Qed.

Lemma filtered_participants_wf : well_formed filtered_participants.
Proof. split; [solve_NoDup | reflexivity]. Qed.

(** C1.  A participant without any pull request ([p_fb], [p_d] and [p_t]
    all zero) but with at least one issue takes the synthetic-credit path
    of [calculate_scores]: [p_valid] is 1, [i_valid] is
    [min (i_fb + i_d) 4], the attributed issue counts are
    [i_fb_at = min i_fb i_valid] and [i_d_at = i_valid - i_fb_at], and the
    total is [2 * i_fb_at + 1 * i_d_at].  The entry returned for the
    participant (who passes the filter) has its three pull-request fields
    equal to zero, its issue fields equal to the weighted issue counts and
    that total.  A participant with one feature issue and two
    documentation issues gets the total 4. *)
Theorem zero_pr_synthetic_credit (ps : list (string * gmap string Z)) (name : string)
  (activities : gmap string Z) (min_contributions : Z) :
  let l := score_participant (analyzer_of ps) activities in
  well_formed ps -> In (name, activities) ps ->
  l_p_fb l = 0 -> l_p_d l = 0 -> l_p_t l = 0 -> 0 < l_i_fb l + l_i_d l ->
  min_contributions <= l_total l ->
  l_p_valid l = 1 /\
  l_i_valid l = Z.min (l_i_fb l + l_i_d l) 4 /\
  l_i_fb_at l = Z.min (l_i_fb l) (l_i_valid l) /\
  l_i_d_at l = l_i_valid l - l_i_fb_at l /\
  l_total l = 2 * l_i_fb_at l + 1 * l_i_d_at l /\
  (exists r e,
     calculate_scores (analyzer_of ps) None min_contributions = Ok r /\
     dict_get r name = Some e /\
     num_is_zero (feat_bug_PR e) = true /\
     num_is_zero (document_PR e) = true /\
     num_is_zero (typo_PR e) = true /\
     feat_bug_issue e = PyInt (2 * l_i_fb_at l) /\
     document_issue e = PyInt (1 * l_i_d_at l) /\
     total e = 2 * l_i_fb_at l + 1 * l_i_d_at l) /\
  l_total (score_participant (analyzer_of ps) issues_only) = 4.
Proof.
  intros l Hwf Hp Hfb Hd Ht Hi Hmc.
  assert (Hg : zero_pr_guard (l_p_fb l) (l_p_d l) (l_p_t l) (l_i_fb l) (l_i_d l) = true).
  { unfold zero_pr_guard. rewrite Hfb, Hd, Ht. simpl. apply Z.ltb_lt. exact Hi. }
  destruct (zero_pr_locals (analyzer_of ps) activities Hg)
    as (H1 & H2 & _ & _ & _ & H6 & H7 & H8 & H9).
  fold l in H1, H2, H6, H7, H8, H9. simpl score in H8, H9.
  split; [exact H1|]. split; [exact H2|]. split; [exact H6|]. split; [exact H7|].
  split; [exact H8|].
  destruct (result_lookup ps min_contributions name activities Hwf Hp (fun _ => Hmc))
    as [n Hn].
  unfold rated_entry, scored, base_entry in Hn. cbn [fst snd] in Hn. fold l in Hn.
  assert (H4 : l_total (score_participant (analyzer_of ps) issues_only) = 4)
    by (vm_compute; reflexivity).
  clearbody l. rewrite H9 in Hn. unfold set_rate, set_rank in Hn. cbn in Hn.
  split; [|exact H4].
  eexists. eexists. split; [apply calculate_scores_unfold; exact Hwf|].
  split; [exact Hn|]. cbn. rewrite H8. repeat split.
Qed.

(** The theorem at [three_participants]: "bob" has one feature issue, two
    documentation issues and no pull request. *)
Lemma zero_pr_synthetic_credit_witness :
  well_formed three_participants /\
  In ("bob", issues_only) three_participants /\
  exists r e,
    calculate_scores (analyzer_of three_participants) None 0 = Ok r /\
    dict_get r "bob" = Some e /\
    num_is_zero (feat_bug_PR e) = true /\
    total e = 4.
Proof.
  assert (Hin : In ("bob", issues_only) three_participants) by (right; left; reflexivity).
  split; [exact three_participants_wf|]. split; [exact Hin|].
  destruct (zero_pr_synthetic_credit three_participants "bob" issues_only 0
              three_participants_wf Hin eq_refl eq_refl eq_refl eq_refl
              ltac:(vm_compute; discriminate))
    as (_ & _ & _ & _ & _ & (r & e & Hr & He & Hz & _ & _ & _ & _ & Ht) & _).
  exists r, e. split; [exact Hr|]. split; [exact He|]. split; [exact Hz|].
  rewrite Ht. reflexivity.
Defined.

(** C3, amended.  [_calculate_valid_counts] returns a [p_valid] that does
    not exceed [p_fb + p_d + p_t] and an [i_valid] that exceeds neither
    [i_fb + i_d] nor [4 * p_valid].  In [calculate_scores] the two bounds
    on [i_valid] hold for every participant, and the bound on [p_valid]
    holds for every participant outside the zero-PR path; on that path
    [p_valid] is the synthetic 1 while [p_fb + p_d + p_t] is 0. *)
Theorem valid_counts_bounds (self : RepoAnalyzer) (activities : gmap string Z) :
  (forall p_fb p_d p_t i_fb i_d,
     let '(p_valid, i_valid) := _calculate_valid_counts p_fb p_d p_t i_fb i_d in
     p_valid <= p_fb + p_d + p_t /\ i_valid <= i_fb + i_d /\ i_valid <= 4 * p_valid) /\
  let l := score_participant self activities in
  l_i_valid l <= l_i_fb l + l_i_d l /\
  l_i_valid l <= 4 * l_p_valid l /\
  (if zero_pr_guard (l_p_fb l) (l_p_d l) (l_p_t l) (l_i_fb l) (l_i_d l)
   then l_p_valid l = 1 /\ l_p_fb l + l_p_d l + l_p_t l = 0
   else l_p_valid l <= l_p_fb l + l_p_d l + l_p_t l).
Proof.
  split.
  - intros. unfold _calculate_valid_counts. lia.
  - intros l. unfold l. raw_inputs self activities.
    destruct (zero_pr_guard _ _ _ _ _) eqn:Hg; unfold_participant; rewrite Hg; simpl.
    + unfold zero_pr_guard in Hg. rewrite !andb_true_iff, !Z.eqb_eq, Z.ltb_lt in Hg. lia.
    + lia.
Qed.

(** C3, as stated, fails on the zero-PR path: for a participant with one
    issue and no pull request [calculate_scores] works with [p_valid = 1],
    which exceeds [p_fb + p_d + p_t = 0]. *)
Lemma valid_counts_bound_fails_on_zero_pr_path :
  nonneg_counts only_one_issue = true /\
  let l := score_participant (analyzer_of []) only_one_issue in
  l_p_valid l = 1 /\
  l_p_fb l + l_p_d l + l_p_t l = 0 /\
  ~ (l_p_valid l <= l_p_fb l + l_p_d l + l_p_t l).
Proof.
  split; [reflexivity|]. vm_compute. repeat split. intros H. apply H. reflexivity.
Qed.

(** C5.  For non-negative counts, with [p_valid] and [i_valid] as
    [_calculate_valid_counts] computes them (so that [p_fb <= p_valid]),
    the counts attributed by [_calculate_adjusted_counts] add up to
    [p_valid] and to [i_valid].  Feature/bug pull requests are credited
    first and in full, documentation pull requests next, typo pull
    requests receive the remainder; feature/bug issues are credited first
    and documentation issues receive the remainder.  No category is
    credited more than its raw count. *)
Theorem adjusted_counts_partition (p_fb p_d p_t i_fb i_d : Z) :
  0 <= p_fb -> 0 <= p_d -> 0 <= p_t -> 0 <= i_fb -> 0 <= i_d ->
  let '(p_valid, i_valid) := _calculate_valid_counts p_fb p_d p_t i_fb i_d in
  let '(p_fb_at, p_d_at, p_t_at, i_fb_at, i_d_at) :=
    _calculate_adjusted_counts p_fb p_d p_valid i_fb i_valid in
  p_fb <= p_valid /\
  p_fb_at + p_d_at + p_t_at = p_valid /\
  i_fb_at + i_d_at = i_valid /\
  p_fb_at = p_fb /\
  p_d_at = Z.min p_d (p_valid - p_fb_at) /\
  p_t_at = p_valid - p_fb_at - p_d_at /\
  i_fb_at = Z.min i_fb i_valid /\
  i_d_at = i_valid - i_fb_at /\
  0 <= p_d_at <= p_d /\ 0 <= p_t_at <= p_t /\
  0 <= i_fb_at <= i_fb /\ 0 <= i_d_at <= i_d.
Proof.
  intros. unfold _calculate_valid_counts, _calculate_adjusted_counts. cbv zeta.
  repeat split; lia.
Qed.

(** The theorem at [p_fb = 1], [p_d = 5], [p_t = 2], [i_fb = 3] and
    [i_d = 9]: the documentation and typo credit is capped at 3 and the
    issue credit at 12. *)
Lemma adjusted_counts_partition_witness :
  0 <= 1 /\ 0 <= 5 /\ 0 <= 2 /\ 0 <= 3 /\ 0 <= 9 /\
  let '(p_valid, i_valid) := _calculate_valid_counts 1 5 2 3 9 in
  let '(p_fb_at, p_d_at, p_t_at, i_fb_at, i_d_at) :=
    _calculate_adjusted_counts 1 5 p_valid 3 i_valid in
  p_valid = 4 /\ i_valid = 12 /\
  p_fb_at + p_d_at + p_t_at = p_valid /\ i_fb_at + i_d_at = i_valid.
Proof.
  pose proof (adjusted_counts_partition 1 5 2 3 9
                ltac:(lia) ltac:(lia) ltac:(lia) ltac:(lia) ltac:(lia)) as H.
  vm_compute in H. destruct H as (_ & H1 & H2 & _).
  repeat (split; [lia|]). vm_compute. repeat split.
Defined.

(** C7.  Whenever the zero-PR branch of [calculate_scores] is taken, the
    test [p_t > 0] inside it is false, [p_t_at] is 0, the typo term adds
    nothing to the total, and the entry's typo field is zero: the branch
    granting one typo credit cannot be reached. *)
Theorem zero_pr_branch_typo_credit_dead (self : RepoAnalyzer) (activities : gmap string Z) :
  let l := score_participant self activities in
  zero_pr_guard (l_p_fb l) (l_p_d l) (l_p_t l) (l_i_fb l) (l_i_d l) = true ->
  (0 <? l_p_t l) = false /\
  l_p_t_at l = 0 /\
  typo_pr (score self) * l_p_t_at l = 0 /\
  l_total l = feat_bug_is (score self) * l_i_fb_at l + doc_is (score self) * l_i_d_at l /\
  typo_PR (l_entry l) = PyFloat (S754_zero false).
Proof.
  intros l. unfold l. raw_inputs self activities. intros Hg.
  unfold_participant. rewrite Hg. simpl.
  unfold zero_pr_guard in Hg. rewrite !andb_true_iff, !Z.eqb_eq, Z.ltb_lt in Hg.
  destruct Hg as [[[_ _] Ht] _]. rewrite Ht. simpl. repeat split; lia.
Qed.

(** The theorem at [issues_only], which takes the zero-PR branch. *)
Lemma zero_pr_branch_typo_credit_dead_witness :
  let l := score_participant (analyzer_of []) issues_only in
  zero_pr_guard (l_p_fb l) (l_p_d l) (l_p_t l) (l_i_fb l) (l_i_d l) = true /\
  l_p_t_at l = 0 /\
  l_total l = 4.
Proof.
  intros l. split; [reflexivity|].
  destruct (zero_pr_branch_typo_credit_dead (analyzer_of []) issues_only eq_refl)
    as (_ & Hat & _ & _ & _).
  split; [exact Hat | reflexivity].
Defined.

(** C8.  When a non-empty [user_info] gives two participants [u1] and
    [u2] that pass the filter the same display name [d], and [u2] is the
    last participant in insertion order to be processed under that name,
    [calculate_scores] returns normally; the keys of the result are
    distinct, the entry under [d] is the one of [u2] (its five category
    fields, its total and its rate), and the result has fewer entries than
    there are participants that pass the filter: the entry of [u1] is
    gone. *)
Theorem display_name_collision_last_wins (ps : list (string * gmap string Z))
  (user_info : option (gmap string string)) (min_contributions : Z)
  (l1 l2 l3 : list (string * gmap string Z)) (u1 u2 d : string)
  (a1 a2 : gmap string Z) :
  let self := analyzer_of ps in
  well_formed ps ->
  truthy user_info = true ->
  ps = (l1 ++ (u1, a1) :: l2 ++ (u2, a2) :: l3)%list ->
  display_name user_info u1 = d ->
  display_name user_info u2 = d ->
  survives self min_contributions (u1, a1) = true ->
  survives self min_contributions (u2, a2) = true ->
  (forall p, In p l3 -> display_name user_info (fst p) = d ->
             survives self min_contributions p = false) ->
  exists r e q,
    calculate_scores self user_info min_contributions = Ok r /\
    List.NoDup (dict_keys r) /\
    dict_get r d = Some e /\
    rate_of (l_total (score_participant self a2)) (grand_total self) = Ok q /\
    same_but_rank e (set_rate (base_entry self a2) (py_round_1 q)) /\
    (length r < length (List.filter (survives self min_contributions) ps))%nat.
Proof.
  intros self Hwf Htruthy Hps Hd1 Hd2 Hs1 Hs2 Hlater.
  assert (Hp2 : In (u2, a2) ps).
  { rewrite Hps. apply in_or_app. right. right. apply in_or_app. right. left. reflexivity. }
  destruct (rate_of_total ps (u2, a2) Hwf Hp2) as [q Hq].
  unfold participant_total in Hq. simpl snd in Hq. fold self in Hq.
  exists (ranked_result self user_info min_contributions).
  assert (Hrated : rated_scores self min_contributions =
                   map (fun p => rated_entry (grand_total self) (scored self p))
                     (List.filter (survives self min_contributions) ps)).
  { unfold rated_scores. simpl participants. rewrite kept_scores_survivors.
    rewrite List.map_map. reflexivity. }
  set (f := fun p => rated_entry (grand_total self) (scored self p)) in *.
  assert (Hsplit : List.filter (survives self min_contributions) ps =
            (List.filter (survives self min_contributions) l1 ++ (u1, a1) ::
             List.filter (survives self min_contributions) l2 ++ (u2, a2) ::
             List.filter (survives self min_contributions) l3)%list).
  { rewrite Hps. rewrite List.filter_app. simpl. rewrite Hs1.
    rewrite List.filter_app. simpl. rewrite Hs2. reflexivity. }
  assert (Hrel : relabel user_info (rated_scores self min_contributions) =
                 fold_left (relabel_step user_info)
                   (map f (List.filter (survives self min_contributions) ps)) []).
  { unfold relabel. rewrite Htruthy, Hrated. reflexivity. }
  assert (Hget : dict_get (relabel user_info (rated_scores self min_contributions)) d
                 = Some (snd (f (u2, a2)))).
  { rewrite Hrel, Hsplit. rewrite List.map_app. simpl map. rewrite List.map_app. simpl map.
    rewrite List.app_comm_cons, List.app_assoc.
    rewrite <- Hd2. change u2 with (fst (f (u2, a2))) at 2.
    apply relabel_fold_get_last.
    intros y Hy. apply List.in_map_iff in Hy. destruct Hy as (p & <- & Hp).
    apply List.filter_In in Hp. destruct Hp as [Hp Hsp].
    simpl. intros Heq. rewrite Hd2 in Heq.
    rewrite (Hlater p Hp Heq) in Hsp. discriminate. }
  assert (Hnd : List.NoDup (map fst (relabel user_info (rated_scores self min_contributions))))
    by (apply relabel_NoDup, rated_scores_NoDup; exact Hwf).
  apply (dict_get_In _ _ _ Hnd) in Hget.
  eexists. exists q. split; [apply calculate_scores_unfold; exact Hwf|].
  split; [apply ranked_result_NoDup; exact Hwf|].
  split.
  { apply dict_get_In; [apply ranked_result_NoDup; exact Hwf|].
    apply ranked_result_In. eexists. split; [exact Hget | reflexivity]. }
  split; [exact Hq|].
  split.
  { unfold f, rated_entry, scored. cbn [fst snd]. rewrite base_entry_total. fold self.
    rewrite Hq. repeat split. }
  unfold ranked_result. rewrite List.length_map.
  rewrite (Permutation_length (final_sorted_perm self user_info min_contributions)).
  rewrite Hrel, Hsplit.
  rewrite <- (List.length_map f
               (List.filter (survives self min_contributions) l1 ++ (u1, a1) ::
                List.filter (survives self min_contributions) l2 ++ (u2, a2) ::
                List.filter (survives self min_contributions) l3)%list).
  rewrite List.map_app. simpl map. rewrite List.map_app. simpl map.
  apply relabel_fold_collision. simpl. congruence.
Qed.

(** The theorem at [three_participants] under [team_names]: "alice" and
    "carol" are both shown as "team", "carol" comes last. *)
Lemma display_name_collision_last_wins_witness :
  well_formed three_participants /\
  truthy team_names = true /\
  display_name team_names "alice" = "team" /\
  display_name team_names "carol" = "team" /\
  exists r e,
    calculate_scores (analyzer_of three_participants) team_names 0 = Ok r /\
    dict_get r "team" = Some e /\
    total e = 1 /\
    (length r < 3)%nat.
Proof.
  split; [exact three_participants_wf|]. repeat (split; [reflexivity|]).
  destruct (display_name_collision_last_wins three_participants team_names 0
              [] [("bob", issues_only)] [] "alice" "carol" "team"
              {[ "p_enhancement" := 2 ]} {[ "p_typo" := 1 ]}
              three_participants_wf eq_refl eq_refl eq_refl eq_refl eq_refl eq_refl
              ltac:(intros p [])) as (r & e & q & Hr & _ & He & _ & Hsame & Hlen).
  exists r, e. split; [exact Hr|]. split; [exact He|].
  destruct Hsame as (_ & _ & _ & _ & _ & Ht & _). split; [rewrite Ht; reflexivity|].
  exact Hlen.
Defined.

(** C9.  [calculate_averages] of an empty score dictionary returns
    normally; the five category fields, ["total"] and ["rate"] of the
    returned entry are the integer 0 and the entry has no ["rank"]. *)
Theorem averages_of_empty_scores (self : RepoAnalyzer) :
  exists averages,
    calculate_averages self [] = Ok averages /\
    dict_get averages "feat/bug PR" = Some (PyInt 0) /\
    dict_get averages "document PR" = Some (PyInt 0) /\
    dict_get averages "typo PR" = Some (PyInt 0) /\
    dict_get averages "feat/bug issue" = Some (PyInt 0) /\
    dict_get averages "document issue" = Some (PyInt 0) /\
    dict_get averages "total" = Some (PyInt 0) /\
    dict_get averages "rate" = Some (PyInt 0) /\
    dict_get averages "rank" = None.
Proof.
  exists zero_averages. repeat split.
Qed.

(** C10.  A participant without any pull request has a total of at most
    8, whatever the number of issues: [i_valid] is at most 4 and the total
    is [2 * i_fb_at + 1 * i_d_at], at most [2 * i_valid].  The bound holds
    for the entry the loop creates and for the entry found under the
    participant's name in any result of [calculate_scores]. *)
Theorem zero_pr_total_at_most_8 (ps : list (string * gmap string Z)) (name : string)
  (activities : gmap string Z) :
  let l := score_participant (analyzer_of ps) activities in
  l_p_fb l = 0 -> l_p_d l = 0 -> l_p_t l = 0 ->
  l_i_valid l <= 4 /\
  l_total l = 2 * l_i_fb_at l + 1 * l_i_d_at l /\
  l_total l <= 2 * l_i_valid l /\
  l_total l <= 8 /\
  total (l_entry l) <= 8 /\
  (well_formed ps -> In (name, activities) ps ->
   forall mc r e,
     calculate_scores (analyzer_of ps) None mc = Ok r ->
     dict_get r name = Some e -> total e <= 8).
Proof.
  intros l Hfb Hd Ht.
  assert (Hl : l_i_valid l <= 4 /\ l_total l = 2 * l_i_fb_at l + 1 * l_i_d_at l /\
               l_total l <= 2 * l_i_valid l /\ l_total l <= 8).
  { revert Hfb Hd Ht. unfold l. raw_inputs (analyzer_of ps) activities.
    intros Hfb Hd Ht. unfold_participant.
    destruct (zero_pr_guard _ _ _ _ _) eqn:E; simpl.
    - rewrite Ht. simpl. lia.
    - rewrite Hfb, Hd, Ht. lia. }
  destruct Hl as (H1 & H2 & H3 & H4). repeat split; auto.
  - change (total (l_entry l)) with (total (base_entry (analyzer_of ps) activities)).
    rewrite base_entry_total. exact H4.
  - intros Hwf Hin mc r e Hr Hget.
    rewrite calculate_scores_unfold in Hr by exact Hwf. injection Hr as <-.
    apply dict_get_In in Hget; [|apply ranked_result_NoDup; exact Hwf].
    apply result_entry_total in Hget. destruct Hget as (k' & a & Hp & Hk & _ & Htot).
    simpl in Hk. subst k'.
    assert (a = activities)
      by (destruct Hwf as [Hnd _]; apply (NoDup_keys_unique ps name _ _ Hnd Hp Hin)).
    subst a. rewrite Htot. exact H4.
Qed.

(** The theorem at "bob" of [three_participants], for the entry of the
    loop and for the entry of the result. *)
Lemma zero_pr_total_at_most_8_witness :
  let l := score_participant (analyzer_of three_participants) issues_only in
  l_p_fb l = 0 /\ l_p_d l = 0 /\ l_p_t l = 0 /\
  well_formed three_participants /\
  In ("bob", issues_only) three_participants /\
  l_total l <= 8 /\ total (l_entry l) <= 8 /\
  exists r e,
    calculate_scores (analyzer_of three_participants) None 0 = Ok r /\
    dict_get r "bob" = Some e /\
    total e <= 8.
Proof.
  intros l. repeat (split; [reflexivity|]).
  assert (Hin : In ("bob", issues_only) three_participants) by (right; left; reflexivity).
  split; [exact three_participants_wf|]. split; [exact Hin|].
  destruct (zero_pr_total_at_most_8 three_participants "bob" issues_only
              eq_refl eq_refl eq_refl) as (_ & _ & _ & H8 & He & Hres).
  split; [exact H8|]. split; [exact He|].
  pose proof (calculate_scores_unfold three_participants None 0 three_participants_wf) as Hr.
  assert (Hget : exists e,
             dict_get (ranked_result (analyzer_of three_participants) None 0) "bob" = Some e)
    by (vm_compute; eexists; reflexivity).
  destruct Hget as [e Hget].
  exists (ranked_result (analyzer_of three_participants) None 0), e.
  split; [exact Hr|]. split; [exact Hget|].
  apply (Hres three_participants_wf Hin 0 _ e Hr Hget).
Defined.

(* ===================================================================== *)
(** * More properties of the scorer                                       *)
(* ===================================================================== *)

Lemma counts_le_spec a b :
  counts_le a b = true ->
  get_count a "p_enhancement" <= get_count b "p_enhancement" /\
  get_count a "p_bug" <= get_count b "p_bug" /\
  get_count a "p_documentation" <= get_count b "p_documentation" /\
  get_count a "p_typo" <= get_count b "p_typo" /\
  get_count a "i_enhancement" <= get_count b "i_enhancement" /\
  get_count a "i_bug" <= get_count b "i_bug" /\
  get_count a "i_documentation" <= get_count b "i_documentation".
Proof.
  unfold counts_le, counter_keys. simpl forallb. rewrite !andb_true_iff, !Z.leb_le. tauto.
Qed.

Lemma l_total_cases self a :
  let p_fb := get_count a "p_enhancement" + get_count a "p_bug" in
  let p_d := get_count a "p_documentation" in
  let p_t := get_count a "p_typo" in
  let i_fb := get_count a "i_enhancement" + get_count a "i_bug" in
  let i_d := get_count a "i_documentation" in
  l_total (score_participant self a) =
  if zero_pr_guard p_fb p_d p_t i_fb i_d then
    feat_bug_is (score self) * Z.min i_fb (Z.min (i_fb + i_d) 4) +
    doc_is (score self) * (Z.min (i_fb + i_d) 4 - Z.min i_fb (Z.min (i_fb + i_d) 4))
  else
    let p_valid := p_fb + Z.min (p_d + p_t) (3 * Z.max p_fb 1) in
    let i_valid := Z.min (i_fb + i_d) (4 * p_valid) in
    feat_bug_pr (score self) * Z.min p_fb p_valid +
    doc_pr (score self) * Z.min p_d (p_valid - Z.min p_fb p_valid) +
    typo_pr (score self) * (p_valid - Z.min p_fb p_valid
                            - Z.min p_d (p_valid - Z.min p_fb p_valid)) +
    feat_bug_is (score self) * Z.min i_fb i_valid +
    doc_is (score self) * (i_valid - Z.min i_fb i_valid).
Proof.
  cbv zeta. unfold_participant.
  destruct (zero_pr_guard _ _ _ _ _) eqn:Hg; simpl; [|reflexivity].
  unfold zero_pr_guard in Hg. rewrite !andb_true_iff, !Z.eqb_eq, Z.ltb_lt in Hg.
  destruct Hg as [[[_ _] Ht] _]. rewrite Ht. simpl. lia.
Qed.

Lemma closed_arith x d t u w :
  0 <= x -> 0 <= d -> 0 <= t -> 0 <= u -> 0 <= w ->
  (if zero_pr_guard x d t u w then
    2 * Z.min u (Z.min (u + w) 4) +
    1 * (Z.min (u + w) 4 - Z.min u (Z.min (u + w) 4))
  else
    let p_valid := x + Z.min (d + t) (3 * Z.max x 1) in
    let i_valid := Z.min (u + w) (4 * p_valid) in
    3 * Z.min x p_valid +
    2 * Z.min d (p_valid - Z.min x p_valid) +
    1 * (p_valid - Z.min x p_valid - Z.min d (p_valid - Z.min x p_valid)) +
    2 * Z.min u i_valid +
    1 * (i_valid - Z.min u i_valid)) =
  let c := Z.min (d + t) (3 * Z.max x 1) in
  let i_valid := Z.min (u + w) (4 * Z.max (x + c) 1) in
  3 * x + c + Z.min d c + i_valid + Z.min u i_valid.
Proof.
  intros Hx Hd Ht Hu Hw. cbv zeta.
  destruct (zero_pr_guard x d t u w) eqn:Hg.
  - unfold zero_pr_guard in Hg. rewrite !andb_true_iff, !Z.eqb_eq, Z.ltb_lt in Hg.
    destruct Hg as [[[-> ->] ->] Hpos]. simpl. lia.
  - assert (Hcase : 0 < x + Z.min (d + t) (3 * Z.max x 1) \/
                    (x = 0 /\ d = 0 /\ t = 0 /\ u = 0 /\ w = 0)).
    { unfold zero_pr_guard in Hg. rewrite !andb_false_iff, !Z.eqb_neq, Z.ltb_ge in Hg. lia. }
    destruct Hcase as [Hpos|(-> & -> & -> & -> & ->)]; [|reflexivity].
    set (c := Z.min (d + t) (3 * Z.max x 1)) in *.
    assert (Hc : 0 <= c) by (unfold c; lia).
    replace (Z.max (x + c) 1) with (x + c) by lia.
    replace (Z.min x (x + c)) with x by lia.
    replace (x + c - x) with c by lia.
    set (v := Z.min (u + w) (4 * (x + c))). lia.
Qed.

Lemma l_total_closed_form ps a :
  nonneg_counts a = true ->
  let p_fb := get_count a "p_enhancement" + get_count a "p_bug" in
  let p_d := get_count a "p_documentation" in
  let p_t := get_count a "p_typo" in
  let i_fb := get_count a "i_enhancement" + get_count a "i_bug" in
  let i_d := get_count a "i_documentation" in
  let c := Z.min (p_d + p_t) (3 * Z.max p_fb 1) in
  let i_valid := Z.min (i_fb + i_d) (4 * Z.max (p_fb + c) 1) in
  l_total (score_participant (analyzer_of ps) a) =
  3 * p_fb + c + Z.min p_d c + i_valid + Z.min i_fb i_valid.
Proof.
  intros Ha. apply nonneg_counts_spec in Ha.
  rewrite l_total_cases. cbv zeta. simpl score.
  cbn [SCORE_WEIGHTS feat_bug_pr doc_pr typo_pr feat_bug_is doc_is].
  apply closed_arith; lia.
Qed.

(** X1.  More activity never lowers a score: when no counter of [a] is
    negative and every counter of [b] is at least the one of [a], the
    total that the loop of [calculate_scores] computes for [b] is at
    least the total for [a]. *)
Theorem total_is_monotone (ps : list (string * gmap string Z)) (a b : gmap string Z) :
  nonneg_counts a = true -> counts_le a b = true ->
  l_total (score_participant (analyzer_of ps) a)
  <= l_total (score_participant (analyzer_of ps) b).
Proof.
  intros Ha Hab.
  assert (Hb : nonneg_counts b = true).
  { apply nonneg_counts_spec in Ha. apply counts_le_spec in Hab.
    unfold nonneg_counts. simpl forallb. rewrite !andb_true_iff, !Z.leb_le. lia. }
  rewrite (l_total_closed_form ps a Ha), (l_total_closed_form ps b Hb). cbv zeta.
  apply nonneg_counts_spec in Ha. apply counts_le_spec in Hab.
  set (xa := get_count a "p_enhancement" + get_count a "p_bug").
  set (xb := get_count b "p_enhancement" + get_count b "p_bug").
  assert (Hx : 0 <= xa <= xb) by (unfold xa, xb; lia).
  set (ca := Z.min (get_count a "p_documentation" + get_count a "p_typo") (3 * Z.max xa 1)).
  set (cb := Z.min (get_count b "p_documentation" + get_count b "p_typo") (3 * Z.max xb 1)).
  assert (Hc : 0 <= ca <= cb) by (unfold ca, cb; lia).
  set (ua := get_count a "i_enhancement" + get_count a "i_bug").
  set (ub := get_count b "i_enhancement" + get_count b "i_bug").
  assert (Hu : 0 <= ua <= ub) by (unfold ua, ub; lia).
  set (va := Z.min (ua + get_count a "i_documentation") (4 * Z.max (xa + ca) 1)).
  set (vb := Z.min (ub + get_count b "i_documentation") (4 * Z.max (xb + cb) 1)).
  assert (Hv : va <= vb) by (unfold va, vb; lia).
  clearbody va vb ca cb ua ub xa xb. lia.
Qed.

(** The theorem at [issues_only] and the same counters with one merged
    feature pull request more: the total rises from 4 to 7. *)
Lemma total_is_monotone_witness :
  l_total (score_participant (analyzer_of []) issues_only) = 4 /\
  l_total (score_participant (analyzer_of []) (<["p_enhancement" := 1]> issues_only)) = 7 /\
  l_total (score_participant (analyzer_of []) issues_only)
  <= l_total (score_participant (analyzer_of [])
                (<["p_enhancement" := 1]> issues_only)).
Proof.
  split; [reflexivity|]. split; [reflexivity|].
  apply (total_is_monotone [] issues_only (<["p_enhancement" := 1]> issues_only));
    reflexivity.
Defined.

(** Where an entry of the result comes from. *)
Lemma result_entry_origin ps ui mc k e :
  In (k, e) (ranked_result (analyzer_of ps) ui mc) ->
  exists k' a,
    In (k', a) ps /\ display_name ui k' = k /\
    (0 < mc -> mc <= l_total (score_participant (analyzer_of ps) a)) /\
    e = set_rank
          (snd (rated_entry (grand_total (analyzer_of ps)) (scored (analyzer_of ps) (k', a))))
          (1 + count_above (l_total (score_participant (analyzer_of ps) a))
                 (final_sorted (analyzer_of ps) ui mc)).
Proof.
  intros Hin. apply ranked_result_In in Hin. destruct Hin as (d & Hin & ->).
  apply relabel_In in Hin. destruct Hin as (k' & Hin & Hk).
  apply rated_scores_In in Hin. destruct Hin as (a & Hp & Hmc & ->).
  exists k', a. repeat split; auto. f_equal. f_equal. f_equal. simpl. apply base_entry_total.
Qed.

Lemma base_entry_fields ps a :
  nonneg_counts a = true ->
  let e := base_entry (analyzer_of ps) a in
  (fields_sum e == inject_Z (total e))%Q /\
  (0 <= num_value (feat_bug_PR e))%Q /\ (0 <= num_value (document_PR e))%Q /\
  (0 <= num_value (typo_PR e))%Q /\ (0 <= num_value (feat_bug_issue e))%Q /\
  (0 <= num_value (document_issue e))%Q /\ 0 <= total e.
Proof.
  intros Ha. pose proof (total_nonneg ps a Ha) as Htot.
  apply nonneg_counts_spec in Ha.
  cbv zeta. unfold fields_sum. rewrite base_entry_total. unfold base_entry.
  revert Htot. unfold_participant.
  destruct (zero_pr_guard _ _ _ _ _) eqn:Hg; simpl; intros Htot.
  - unfold zero_pr_guard in Hg. rewrite !andb_true_iff, !Z.eqb_eq, Z.ltb_lt in Hg.
    destruct Hg as [[[_ _] Ht] Hi]. rewrite Ht in *. simpl in *.
    repeat split; try (apply Qle_refl); try lia.
    + rewrite !Qplus_0_l, <- inject_Z_plus. apply inject_Z_injective. lia.
    + rewrite <- (Zle_Qle 0). lia.
    + rewrite <- (Zle_Qle 0). lia.
  - repeat split; try lia; try (rewrite <- (Zle_Qle 0); lia).
    rewrite <- !inject_Z_plus. apply inject_Z_injective. unfold _calculate_total_score. simpl. lia.
Qed.

(** Every entry of a result keeps the fields of the entry built in the
    loop. *)
Lemma result_entry_fields ps ui mc k e :
  In (k, e) (ranked_result (analyzer_of ps) ui mc) ->
  exists k' a,
    In (k', a) ps /\
    feat_bug_PR e = feat_bug_PR (base_entry (analyzer_of ps) a) /\
    document_PR e = document_PR (base_entry (analyzer_of ps) a) /\
    typo_PR e = typo_PR (base_entry (analyzer_of ps) a) /\
    feat_bug_issue e = feat_bug_issue (base_entry (analyzer_of ps) a) /\
    document_issue e = document_issue (base_entry (analyzer_of ps) a) /\
    total e = total (base_entry (analyzer_of ps) a).
Proof.
  intros Hin. apply result_entry_origin in Hin.
  destruct Hin as (k' & a & Hp & _ & _ & ->).
  exists k', a. simpl. repeat split; auto.
Qed.

Lemma ranked_entry_fields ps ui mc k e :
  well_formed ps ->
  In (k, e) (ranked_result (analyzer_of ps) ui mc) ->
  (fields_sum e == inject_Z (total e))%Q /\
  (0 <= num_value (feat_bug_PR e))%Q /\ (0 <= num_value (document_PR e))%Q /\
  (0 <= num_value (typo_PR e))%Q /\ (0 <= num_value (feat_bug_issue e))%Q /\
  (0 <= num_value (document_issue e))%Q /\ 0 <= total e.
Proof.
  intros Hwf Hin.
  apply result_entry_fields in Hin.
  destruct Hin as (k' & a & Hp & H1 & H2 & H3 & H4 & H5 & H6).
  pose proof (well_formed_nonneg ps (k', a) Hwf Hp) as Hnn. simpl in Hnn.
  pose proof (base_entry_fields ps a Hnn) as Hb. cbv zeta in Hb.
  unfold fields_sum in *. rewrite H1, H2, H3, H4, H5, H6. exact Hb.
Qed.

(** X2.  In every entry that [calculate_scores] returns for well-formed
    participants, ["total"] is the sum of the five category fields, and
    neither a field nor the total is negative. *)
Theorem total_is_sum_of_fields ps ui mc r k e :
  well_formed ps ->
  calculate_scores (analyzer_of ps) ui mc = Ok r ->
  In (k, e) r ->
  (fields_sum e == inject_Z (total e))%Q /\
  (0 <= num_value (feat_bug_PR e))%Q /\ (0 <= num_value (document_PR e))%Q /\
  (0 <= num_value (typo_PR e))%Q /\ (0 <= num_value (feat_bug_issue e))%Q /\
  (0 <= num_value (document_issue e))%Q /\ 0 <= total e.
Proof.
  intros Hwf Hr Hin. rewrite calculate_scores_unfold in Hr by exact Hwf.
  injection Hr as <-. apply (ranked_entry_fields ps ui mc k e Hwf Hin).
Qed.

(** The theorem at the entry of "carol" for [three_participants]. *)
Lemma total_is_sum_of_fields_witness :
  exists e, In ("carol", e) (ranked_result (analyzer_of three_participants) None 0) /\
    (fields_sum e == inject_Z (total e))%Q.
Proof.
  destruct (dict_get (ranked_result (analyzer_of three_participants) None 0) "carol")
    as [e|] eqn:He; [|vm_compute in He; discriminate].
  assert (Hin : In ("carol", e) (ranked_result (analyzer_of three_participants) None 0)).
  { apply dict_get_In; [apply ranked_result_NoDup, three_participants_wf | exact He]. }
  exists e. split; [exact Hin|].
  apply (total_is_sum_of_fields three_participants None 0 _ "carol" e
           three_participants_wf
           (calculate_scores_unfold three_participants None 0 three_participants_wf) Hin).
Defined.

Lemma result_entry_rate ps ui mc k e :
  well_formed ps ->
  In (k, e) (ranked_result (analyzer_of ps) ui mc) ->
  exists q,
    rate_of (total e) (grand_total (analyzer_of ps)) = Ok q /\
    rate e = Some (py_round_1 q) /\
    0 <= total e <= grand_total (analyzer_of ps).
Proof.
  intros Hwf Hin. apply result_entry_origin in Hin.
  destruct Hin as (k' & a & Hp & _ & _ & ->).
  destruct (rate_of_total ps (k', a) Hwf Hp) as (q & Hq).
  pose proof (participant_total_bounds ps (k', a) Hwf Hp) as Hb.
  unfold participant_total in Hq, Hb. simpl in Hq, Hb.
  exists q. simpl. rewrite base_entry_total. rewrite Hq. auto.
Qed.

(** X3.  When the grand total is positive, every returned entry has a
    ["rate"]: a finite number within 0.1 of
    [100 * total / total_score_sum]. *)
Theorem entry_rate_accuracy ps ui mc r k e :
  well_formed ps ->
  calculate_scores (analyzer_of ps) ui mc = Ok r ->
  In (k, e) r ->
  0 < grand_total (analyzer_of ps) ->
  exists x,
    rate e = Some x /\ is_finite x = true /\
    (Qabs (num_value x -
           100 * (inject_Z (total e) / inject_Z (grand_total (analyzer_of ps))))
     <= 1 # 10)%Q.
Proof.
  intros Hwf Hr Hin Hpos. rewrite calculate_scores_unfold in Hr by exact Hwf.
  injection Hr as <-.
  destruct (result_entry_rate ps ui mc k e Hwf Hin) as (q & Hq & Hrate & Hb).
  destruct (rate_of_bound _ _ Hb Hpos) as (q' & Hq' & Hfin & Hacc).
  rewrite Hq in Hq'. injection Hq' as <-.
  exists (py_round_1 q). auto.
Qed.

(** The theorem at the entry of "bob" for [three_participants]. *)
Lemma entry_rate_accuracy_witness :
  exists e x,
    In ("bob", e) (ranked_result (analyzer_of three_participants) None 0) /\
    rate e = Some x /\
    (Qabs (num_value x -
           100 * (inject_Z (total e) /
                  inject_Z (grand_total (analyzer_of three_participants))))
     <= 1 # 10)%Q.
Proof.
  destruct (dict_get (ranked_result (analyzer_of three_participants) None 0) "bob")
    as [e|] eqn:He; [|vm_compute in He; discriminate].
  assert (Hin : In ("bob", e) (ranked_result (analyzer_of three_participants) None 0)).
  { apply dict_get_In; [apply ranked_result_NoDup, three_participants_wf | exact He]. }
  destruct (entry_rate_accuracy three_participants None 0 _ "bob" e
              three_participants_wf
              (calculate_scores_unfold three_participants None 0 three_participants_wf)
              Hin ltac:(vm_compute; reflexivity)) as (x & Hx & _ & Hacc).
  exists e, x. auto.
Defined.

(** X4.  When the grand total is 0 no division takes place: every
    returned entry has the total 0, the integer 0 as its rate, and the
    rank 1. *)
Theorem nobody_scored ps ui mc r k e :
  well_formed ps ->
  calculate_scores (analyzer_of ps) ui mc = Ok r ->
  grand_total (analyzer_of ps) = 0 ->
  In (k, e) r ->
  total e = 0 /\ rate e = Some (PyInt 0) /\ rank e = Some 1.
Proof.
  intros Hwf Hr Hz Hin. rewrite calculate_scores_unfold in Hr by exact Hwf.
  injection Hr as <-.
  assert (Hall : forall k e, In (k, e) (ranked_result (analyzer_of ps) ui mc) -> total e = 0).
  { intros k0 e0 H0. destruct (result_entry_rate ps ui mc k0 e0 Hwf H0) as (_ & _ & _ & Hb).
    lia. }
  destruct (result_entry_rate ps ui mc k e Hwf Hin) as (q & Hq & Hrate & Hb).
  rewrite rate_of_zero_sum in Hq by lia. injection Hq as <-.
  split; [lia|]. split; [exact Hrate|].
  pose proof Hin as Hin'. apply ranked_result_In in Hin'. destruct Hin' as (d & _ & ->).
  simpl. rewrite <- ranked_result_count.
  rewrite count_above_none; [reflexivity|].
  intros [k1 e1] H1. simpl. rewrite (Hall k1 e1 H1).
  change (total (set_rank d (1 + count_above (total d) (final_sorted (analyzer_of ps) ui mc))))
    with (total d) in Hb. lia.
Qed.

Lemma idle_participants_wf : well_formed idle_participants.
Proof.
  split; [|reflexivity]. simpl.
  repeat constructor; simpl; intuition discriminate.
Qed.

(** The theorem at [idle_participants]. *)
Lemma nobody_scored_witness :
  exists e,
    In ("eli", e) (ranked_result (analyzer_of idle_participants) None 0) /\
    total e = 0 /\ rate e = Some (PyInt 0) /\ rank e = Some 1.
Proof.
  destruct (dict_get (ranked_result (analyzer_of idle_participants) None 0) "eli")
    as [e|] eqn:He; [|vm_compute in He; discriminate].
  assert (Hin : In ("eli", e) (ranked_result (analyzer_of idle_participants) None 0)).
  { apply dict_get_In; [apply ranked_result_NoDup, idle_participants_wf | exact He]. }
  exists e. split; [exact Hin|].
  apply (nobody_scored idle_participants None 0 _ "eli" e idle_participants_wf
           (calculate_scores_unfold idle_participants None 0 idle_participants_wf)
           eq_refl Hin).
Defined.

Section SortingMore.
Context {A : Type} (key : A -> Z).

Lemma insert_desc_front x l :
  (forall y, In y l -> key y <= key x) -> insert_desc key x l = x :: l.
Proof.
  destruct l as [|y l]; [reflexivity|]. intros H. simpl.
  destruct (Z.ltb_spec (key x) (key y)); [|reflexivity].
  specialize (H y (or_introl eq_refl)). lia.
Qed.

Lemma filter_insert_desc_out (P : A -> bool) x l :
  P x = false -> List.filter P (insert_desc key x l) = List.filter P l.
Proof.
  intros Hx. induction l as [|y l IH]; simpl.
  - rewrite Hx. reflexivity.
  - destruct (key x <? key y); simpl.
    + rewrite IH. reflexivity.
    + rewrite Hx. reflexivity.
Qed.

Lemma filter_insert_desc_in (P : A -> bool) x l :
  P x = true -> descending key l ->
  List.filter P (insert_desc key x l) = insert_desc key x (List.filter P l).
Proof.
  intros Hx. induction l as [|y l IH]; intros Hd; simpl.
  - rewrite Hx. reflexivity.
  - inversion Hd as [|? ? Hd' Hall]; subst.
    destruct (Z.ltb_spec (key x) (key y)) as [Hlt|Hge]; simpl.
    + destruct (P y) eqn:Hy.
      * rewrite IH by exact Hd'. simpl.
        destruct (Z.ltb_spec (key x) (key y)); [reflexivity|lia].
      * apply IH; exact Hd'.
    + rewrite Hx. symmetry.
      change (insert_desc key x (List.filter P (y :: l)) = x :: List.filter P (y :: l)).
      apply insert_desc_front. intros z Hz. apply List.filter_In in Hz. destruct Hz as [Hz _].
      destruct Hz as [<-|Hz]; [lia|].
      rewrite List.Forall_forall in Hall. specialize (Hall z Hz). simpl in Hall. lia.
Qed.

(** Sorting and filtering commute. *)
Lemma sorted_reverse_filter (P : A -> bool) l :
  sorted_reverse key (List.filter P l) = List.filter P (sorted_reverse key l).
Proof.
  induction l as [|x l IH]; [reflexivity|]. simpl.
  destruct (P x) eqn:Hx.
  - simpl. rewrite IH. symmetry. apply filter_insert_desc_in; [exact Hx|].
    apply sorted_reverse_descending.
  - rewrite IH. symmetry. apply filter_insert_desc_out. exact Hx.
Qed.

(** The sort is stable: the items with one key keep their order. *)
Lemma filter_insert_desc_key t x l :
  List.filter (fun y => key y =? t) (insert_desc key x l) =
  if key x =? t then x :: List.filter (fun y => key y =? t) l
  else List.filter (fun y => key y =? t) l.
Proof.
  induction l as [|y l IH]; simpl.
  - destruct (key x =? t); reflexivity.
  - destruct (Z.ltb_spec (key x) (key y)) as [Hlt|Hge]; simpl.
    + rewrite IH. destruct (Z.eqb_spec (key x) t) as [Hx|Hx];
        destruct (Z.eqb_spec (key y) t) as [Hy|Hy]; try reflexivity. lia.
    + destruct (key x =? t); reflexivity.
Qed.

Lemma sorted_reverse_stable t l :
  List.filter (fun y => key y =? t) (sorted_reverse key l) =
  List.filter (fun y => key y =? t) l.
Proof.
  induction l as [|x l IH]; [reflexivity|]. simpl.
  rewrite filter_insert_desc_key, IH. reflexivity.
Qed.

End SortingMore.

Lemma descending_map {A B} (ka : A -> Z) (kb : B -> Z) (f : A -> B) l :
  (forall x, kb (f x) = ka x) -> descending ka l -> descending kb (map f l).
Proof.
  intros Hk. induction 1 as [|x l Hd IH Hall]; simpl; constructor; auto.
  rewrite List.Forall_forall in *. intros y Hy. apply in_map_iff in Hy.
  destruct Hy as (z & <- & Hz). rewrite !Hk. apply Hall. exact Hz.
Qed.

Lemma insert_desc_map {A B} (ka : A -> Z) (kb : B -> Z) (f : A -> B) x l :
  (forall x, kb (f x) = ka x) ->
  insert_desc kb (f x) (map f l) = map f (insert_desc ka x l).
Proof.
  intros Hk. induction l as [|y l IH]; [reflexivity|]. simpl.
  rewrite !Hk. destruct (ka x <? ka y); simpl; [rewrite IH|]; reflexivity.
Qed.

Lemma sorted_reverse_map {A B} (ka : A -> Z) (kb : B -> Z) (f : A -> B) l :
  (forall x, kb (f x) = ka x) ->
  sorted_reverse kb (map f l) = map f (sorted_reverse ka l).
Proof.
  intros Hk. induction l as [|x l IH]; [reflexivity|]. simpl.
  rewrite IH. apply insert_desc_map. exact Hk.
Qed.

Lemma count_above_lt_length t l x :
  In x l -> total (snd x) <= t -> count_above t l < Z.of_nat (length l).
Proof.
  unfold count_above. induction l as [|y l IH]; intros Hin Hle; [destruct Hin|].
  simpl. destruct Hin as [->|Hin].
  - destruct (Z.ltb_spec t (total (snd x))); [lia|].
    pose proof (List.filter_length_le (fun x => t <? total (snd x)) l). lia.
  - specialize (IH Hin Hle). destruct (t <? total (snd y)); simpl; lia.
Qed.

Lemma count_above_nonneg t l : 0 <= count_above t l.
Proof. unfold count_above. lia. Qed.

(** X5.  The result of [calculate_scores] is in descending order of
    total; its first entry has rank 1 and every rank lies between 1 and
    the number of entries. *)
Theorem result_is_sorted_by_total ps ui mc r :
  well_formed ps ->
  calculate_scores (analyzer_of ps) ui mc = Ok r ->
  descending entry_total r /\
  (forall k e rest, r = (k, e) :: rest -> rank e = Some 1) /\
  (forall k e, In (k, e) r ->
     exists n, rank e = Some n /\ 1 <= n <= Z.of_nat (length r)).
Proof.
  intros Hwf Hr. rewrite calculate_scores_unfold in Hr by exact Hwf. injection Hr as <-.
  unfold ranked_result.
  pose proof (sorted_reverse_descending entry_total
                (relabel ui (rated_scores (analyzer_of ps) mc))) as Hd.
  fold (final_sorted (analyzer_of ps) ui mc) in Hd.
  set (fs := final_sorted (analyzer_of ps) ui mc) in *.
  split; [|split].
  - apply (descending_map entry_total entry_total); [reflexivity | exact Hd].
  - intros k e rest Heq. destruct fs as [|x fs'] eqn:Hfs; [discriminate|].
    simpl in Heq. injection Heq as _ <- _. simpl.
    rewrite count_above_none; [reflexivity|].
    inversion Hd as [|? ? _ Hall]; subst. intros y [<-|Hy]; [lia|].
    rewrite List.Forall_forall in Hall. apply (Hall y Hy).
  - intros k e Hin. apply in_map_iff in Hin. destruct Hin as (x & Heq & Hx).
    injection Heq as _ <-. eexists. split; [reflexivity|].
    rewrite List.length_map.
    pose proof (count_above_nonneg (total (snd x)) fs).
    pose proof (count_above_lt_length (total (snd x)) fs x Hx (Z.le_refl _)). lia.
Qed.

(** The theorem at [three_participants]. *)
Lemma result_is_sorted_by_total_witness :
  descending entry_total (ranked_result (analyzer_of three_participants) None 0).
Proof.
  apply (result_is_sorted_by_total three_participants None 0 _ three_participants_wf
           (calculate_scores_unfold three_participants None 0 three_participants_wf)).
Defined.

Lemma display_name_falsy ui k : truthy ui = false -> display_name ui k = k.
Proof.
  destruct ui as [m|]; [|reflexivity]. simpl. intros H.
  apply negb_false_iff, bool_decide_eq_true in H. subst m. reflexivity.
Qed.

Lemma relabel_fresh ui l :
  List.NoDup (map (display_name ui) (map fst l)) ->
  relabel ui l = map (rename ui) l.
Proof.
  intros Hnd. unfold relabel. destruct (truthy ui) eqn:Ht.
  - rewrite relabel_fold_fresh; [reflexivity | exact Hnd | intros k _ []].
  - clear Hnd. induction l as [|[k d] l IH]; [reflexivity|]. simpl.
    unfold rename at 1. simpl. rewrite display_name_falsy by exact Ht. f_equal. exact IH.
Qed.

Lemma NoDup_map_filter {A B} (f : A -> B) (P : A -> bool) l :
  List.NoDup (map f l) -> List.NoDup (map f (List.filter P l)).
Proof.
  induction l as [|x l IH]; simpl; intros H; [constructor|].
  apply List.NoDup_cons_iff in H. destruct H as [Hx Hl].
  destruct (P x); simpl; [|auto].
  apply List.NoDup_cons_iff. split; [|auto].
  intros Hin. apply Hx. apply in_map_iff in Hin. destruct Hin as (y & Hy & Hin).
  apply List.filter_In in Hin. apply in_map_iff. exists y. tauto.
Qed.

Lemma rated_scores_survivors self mc :
  rated_scores self mc =
  map (fun p => rated_entry (grand_total self) (scored self p))
      (List.filter (survives self mc) (participants self)).
Proof.
  unfold rated_scores. rewrite kept_scores_survivors, List.map_map. reflexivity.
Qed.

Lemma final_sorted_fresh self ui mc :
  List.NoDup (map (display_name ui) (map fst (participants self))) ->
  final_sorted self ui mc =
  map (rename ui)
    (sorted_reverse entry_total
       (map (fun p => rated_entry (grand_total self) (scored self p))
          (List.filter (survives self mc) (participants self)))).
Proof.
  intros Hnd. unfold final_sorted. rewrite rated_scores_survivors.
  rewrite relabel_fresh.
  - apply (sorted_reverse_map entry_total entry_total). reflexivity.
  - rewrite !List.map_map. simpl. rewrite List.map_map in Hnd.
    apply (NoDup_map_filter (fun p => display_name ui (fst p))). exact Hnd.
Qed.

Lemma with_rank_rename ui l0 l :
  map (with_rank (map (rename ui) l0)) (map (rename ui) l) =
  map (rename ui) (map (with_rank l0) l).
Proof.
  rewrite !List.map_map. apply map_ext. intros [k d]. unfold with_rank, rename. simpl.
  f_equal. f_equal. f_equal.
  rewrite <- (List.map_id l0) at 2.
  apply (count_above_same_totals _ (rename ui) (fun x => x)). reflexivity.
Qed.

Lemma rename_None l : map (rename None) l = l.
Proof.
  induction l as [|[k d] l IH]; [reflexivity|]. simpl. rewrite IH. reflexivity.
Qed.

Lemma display_name_None_keys (l : list string) : map (display_name None) l = l.
Proof. apply List.map_id. Qed.

(** The result on a dictionary whose display names are pairwise distinct:
    the rated entries of the survivors, sorted, ranked, renamed. *)
Lemma ranked_result_fresh self ui mc :
  List.NoDup (map (display_name ui) (map fst (participants self))) ->
  ranked_result self ui mc =
  map (rename ui)
    (let sorted_items :=
       sorted_reverse entry_total
         (map (fun p => rated_entry (grand_total self) (scored self p))
            (List.filter (survives self mc) (participants self))) in
     map (with_rank sorted_items) sorted_items).
Proof.
  intros Hnd. unfold ranked_result. rewrite final_sorted_fresh by exact Hnd.
  cbv zeta. apply with_rank_rename.
Qed.

(** X7.  When the display names are pairwise distinct, [user_info] only
    renames: the result is the one computed without [user_info], with
    every key replaced by its display name. *)
Theorem display_names_only_rename ps ui mc r0 :
  well_formed ps ->
  List.NoDup (map (display_name ui) (map fst ps)) ->
  calculate_scores (analyzer_of ps) None mc = Ok r0 ->
  calculate_scores (analyzer_of ps) ui mc = Ok (map (rename ui) r0).
Proof.
  intros Hwf Hnd Hr0. rewrite calculate_scores_unfold in * by exact Hwf.
  injection Hr0 as <-. f_equal.
  rewrite (ranked_result_fresh (analyzer_of ps) ui mc) by exact Hnd.
  rewrite (ranked_result_fresh (analyzer_of ps) None mc).
  - rewrite rename_None. reflexivity.
  - simpl. rewrite display_name_None_keys. apply Hwf.
Qed.

(** The theorem at [three_participants] with [nicknames]. *)
Lemma display_names_only_rename_witness :
  calculate_scores (analyzer_of three_participants) nicknames 0 =
  Ok (map (rename nicknames) (ranked_result (analyzer_of three_participants) None 0)).
Proof.
  apply (display_names_only_rename three_participants nicknames 0 _ three_participants_wf).
  - vm_compute. repeat constructor; simpl; intuition discriminate.
  - apply calculate_scores_unfold, three_participants_wf.
Defined.

Lemma filter_map_comm {A B} (f : A -> B) (P : B -> bool) l :
  List.filter P (map f l) = map f (List.filter (fun x => P (f x)) l).
Proof.
  induction l as [|x l IH]; [reflexivity|]. simpl.
  destruct (P (f x)); simpl; rewrite IH; reflexivity.
Qed.

Lemma filter_filter {A} (P Q : A -> bool) l :
  List.filter P (List.filter Q l) = List.filter (fun x => Q x && P x) l.
Proof.
  induction l as [|x l IH]; [reflexivity|]. simpl.
  destruct (Q x); simpl; [destruct (P x)|]; rewrite IH; reflexivity.
Qed.

Lemma count_above_filter_threshold mc t l :
  mc <= t ->
  count_above t (List.filter (fun x => mc <=? entry_total x) l) = count_above t l.
Proof.
  intros Hle. unfold count_above. f_equal. f_equal. rewrite filter_filter.
  apply List.filter_ext. intros x. unfold entry_total.
  destruct (Z.leb_spec mc (total (snd x))); destruct (Z.ltb_spec t (total (snd x)));
    simpl; auto; lia.
Qed.

Lemma survives_zero self p : survives self 0 p = true.
Proof. reflexivity. Qed.

Lemma survives_positive self mc p :
  0 < mc -> survives self mc p = (mc <=? participant_total self p).
Proof.
  intros H. unfold survives. destruct (Z.ltb_spec 0 mc); [reflexivity|lia].
Qed.

(** X8.  When the display names are pairwise distinct, a positive
    [min_contributions] removes the entries below it from the result
    computed without a threshold and changes nothing else: the survivors
    keep their rate, their rank and their order. *)
Theorem threshold_only_removes ps ui mc r0 :
  well_formed ps ->
  List.NoDup (map (display_name ui) (map fst ps)) ->
  0 < mc ->
  calculate_scores (analyzer_of ps) ui 0 = Ok r0 ->
  calculate_scores (analyzer_of ps) ui mc =
  Ok (List.filter (fun x => mc <=? total (snd x)) r0).
Proof.
  intros Hwf Hnd Hmc Hr0. rewrite calculate_scores_unfold in * by exact Hwf.
  injection Hr0 as <-. f_equal.
  rewrite !ranked_result_fresh by exact Hnd. cbv zeta.
  rewrite (filter_all (survives (analyzer_of ps) 0)) by (intros; apply survives_zero).
  set (rated := fun p => rated_entry (grand_total (analyzer_of ps)) (scored (analyzer_of ps) p)).
  assert (Hkeep : map rated (List.filter (survives (analyzer_of ps) mc)
                               (participants (analyzer_of ps))) =
                  List.filter (fun x => mc <=? entry_total x)
                    (map rated (participants (analyzer_of ps)))).
  { rewrite filter_map_comm. f_equal. apply List.filter_ext. intros p.
    rewrite survives_positive by exact Hmc. unfold rated, entry_total. simpl.
    rewrite base_entry_total. reflexivity. }
  rewrite Hkeep, sorted_reverse_filter.
  set (s0 := sorted_reverse entry_total (map rated (participants (analyzer_of ps)))).
  rewrite (filter_map_comm (rename ui)). f_equal.
  rewrite (filter_map_comm (with_rank s0)). simpl.
  change (fun x : string * score_entry => mc <=? total (snd x))
    with (fun x : string * score_entry => mc <=? entry_total x).
  apply List.map_ext_in. intros x Hx. apply List.filter_In in Hx. destruct Hx as [_ Hx].
  apply Z.leb_le in Hx. unfold with_rank. f_equal. f_equal. f_equal.
  apply count_above_filter_threshold. exact Hx.
Qed.

(** The theorem at [three_participants] with the threshold 3. *)
Lemma threshold_only_removes_witness :
  calculate_scores (analyzer_of three_participants) None 3 =
  Ok (List.filter (fun x => 3 <=? total (snd x))
        (ranked_result (analyzer_of three_participants) None 0)).
Proof.
  apply (threshold_only_removes three_participants None 3 _ three_participants_wf).
  - vm_compute. repeat constructor; simpl; intuition discriminate.
  - reflexivity.
  - apply calculate_scores_unfold, three_participants_wf.
Defined.

(** X6.  The sort of [_finalize_scores] is stable: when the display names
    are pairwise distinct, the entries with one total appear in the
    result in the order in which their participants were collected. *)
Theorem ties_keep_insertion_order ps ui mc r t :
  well_formed ps ->
  List.NoDup (map (display_name ui) (map fst ps)) ->
  calculate_scores (analyzer_of ps) ui mc = Ok r ->
  map fst (List.filter (fun x => total (snd x) =? t) r) =
  map (display_name ui)
    (map fst
       (List.filter (fun p => participant_total (analyzer_of ps) p =? t)
          (List.filter (survives (analyzer_of ps) mc) ps))).
Proof.
  intros Hwf Hnd Hr. rewrite calculate_scores_unfold in Hr by exact Hwf.
  injection Hr as <-.
  rewrite ranked_result_fresh by exact Hnd. cbv zeta.
  set (rated := fun p => rated_entry (grand_total (analyzer_of ps)) (scored (analyzer_of ps) p)).
  set (s := sorted_reverse entry_total _).
  rewrite (filter_map_comm (rename ui)), (filter_map_comm (with_rank s)). simpl.
  change (fun x : string * score_entry => total (snd x) =? t)
    with (fun x : string * score_entry => entry_total x =? t).
  unfold s. rewrite sorted_reverse_stable, filter_map_comm.
  rewrite !List.map_map. simpl. f_equal.
  apply List.filter_ext. intros p. unfold rated, entry_total. simpl.
  rewrite base_entry_total. reflexivity.
Qed.

Lemma tied_participants_wf : well_formed tied_participants.
Proof.
  split; [|reflexivity]. simpl.
  repeat constructor; simpl; intuition discriminate.
Qed.

(** The theorem at [tied_participants]: of the two participants with the
    total 1, the one collected first comes first. *)
Lemma ties_keep_insertion_order_witness :
  map fst (List.filter (fun x => total (snd x) =? 1)
             (ranked_result (analyzer_of tied_participants) None 0)) = ["zoe"; "bea"].
Proof.
  rewrite (ties_keep_insertion_order tied_participants None 0 _ 1 tied_participants_wf).
  - reflexivity.
  - vm_compute. repeat constructor; simpl; intuition discriminate.
  - apply calculate_scores_unfold, tied_participants_wf.
Defined.

Lemma relabel_fold_key_iff ui l : forall acc k,
  In k (map fst (fold_left (relabel_step ui) l acc)) <->
  In k (map fst acc) \/ In k (map (display_name ui) (map fst l)).
Proof.
  induction l as [|[k0 d0] l IH]; intros acc k; simpl.
  - tauto.
  - rewrite IH. rewrite dict_set_keys. intuition (subst; auto).
Qed.

Lemma relabel_key_iff ui l k :
  In k (map fst (relabel ui l)) <-> In k (map (display_name ui) (map fst l)).
Proof.
  unfold relabel. destruct (truthy ui) eqn:Ht.
  - rewrite relabel_fold_key_iff. simpl. tauto.
  - rewrite List.map_map.
    rewrite (List.map_ext (fun x => display_name ui (fst x)) fst); [tauto|].
    intros x. apply display_name_falsy. exact Ht.
Qed.

Lemma relabel_length ui l : (length (relabel ui l) <= length l)%nat.
Proof.
  unfold relabel. destruct (truthy ui); [|lia].
  pose proof (relabel_fold_length ui l []). simpl in *. lia.
Qed.

Lemma ranked_result_length self ui mc :
  (length (ranked_result self ui mc) <=
   length (List.filter (survives self mc) (participants self)))%nat.
Proof.
  unfold ranked_result. rewrite List.length_map.
  rewrite (Permutation_length (final_sorted_perm self ui mc)).
  etransitivity; [apply relabel_length|].
  rewrite rated_scores_survivors, List.length_map. reflexivity.
Qed.

(** X9.  The keys of the result are distinct; they are exactly the
    display names of the participants that pass the filter, so the result
    has at most one entry per such participant. *)
Theorem result_keys_are_display_names ps ui mc r :
  well_formed ps ->
  calculate_scores (analyzer_of ps) ui mc = Ok r ->
  List.NoDup (dict_keys r) /\
  (forall k, In k (dict_keys r) <->
     exists p, In p ps /\ survives (analyzer_of ps) mc p = true /\
               display_name ui (fst p) = k) /\
  (length r <= length (List.filter (survives (analyzer_of ps) mc) ps))%nat.
Proof.
  intros Hwf Hr. rewrite calculate_scores_unfold in Hr by exact Hwf.
  injection Hr as <-. split; [apply ranked_result_NoDup; exact Hwf|].
  unfold dict_keys, ranked_result. rewrite with_rank_keys, List.length_map.
  pose proof (final_sorted_perm (analyzer_of ps) ui mc) as Hperm.
  split.
  - intros k.
    rewrite (Permutation_in' (eq_refl k) (Permutation_map fst Hperm)) at 1.
    rewrite relabel_key_iff, rated_scores_survivors, !List.map_map. simpl.
    rewrite in_map_iff. split.
    + intros (p & Hk & Hp). apply List.filter_In in Hp. exists p. tauto.
    + intros (p & Hp & Hs & Hk). exists p. split; [exact Hk|].
      apply List.filter_In. tauto.
  - pose proof (ranked_result_length (analyzer_of ps) ui mc) as Hlen.
    unfold ranked_result in Hlen. rewrite List.length_map in Hlen. exact Hlen.
Qed.

(** The theorem at [three_participants] with [team_names]. *)
Lemma result_keys_are_display_names_witness :
  List.NoDup (dict_keys (ranked_result (analyzer_of three_participants) team_names 0)) /\
  (length (ranked_result (analyzer_of three_participants) team_names 0) <= 3)%nat.
Proof.
  destruct (result_keys_are_display_names three_participants team_names 0 _
              three_participants_wf
              (calculate_scores_unfold three_participants team_names 0 three_participants_wf))
    as (Hnd & _ & Hlen).
  split; [exact Hnd | exact Hlen].
Defined.

(** ** The rates, the filter and the ranks, for every [user_info] *)

Lemma sum_Z_perm l l' : Permutation l l' -> sum_Z l = sum_Z l'.
Proof.
  intros HP. induction HP; simpl; lia.
Qed.

Lemma sum_Z_filter_zero {A} (g : A -> Z) (P : A -> bool) l :
  (forall x, In x l -> P x = false -> g x = 0) ->
  sum_Z (map g (List.filter P l)) = sum_Z (map g l).
Proof.
  induction l as [|x l IH]; simpl; intros H; [reflexivity|].
  rewrite <- IH by (intros y Hy; apply H; right; exact Hy).
  destruct (P x) eqn:E; simpl; [reflexivity|].
  rewrite (H x (or_introl eq_refl) E). lia.
Qed.

Lemma dict_set_total (acc : list (string * score_entry)) k v :
  (forall x, In x acc -> fst x = k -> entry_total x = 0) ->
  sum_Z (map entry_total (dict_set acc k v)) = sum_Z (map entry_total acc) + total v.
Proof.
  induction acc as [|[k0 v0] acc IH]; simpl; intros H.
  - unfold entry_total. simpl. lia.
  - destruct (String.eqb_spec k0 k) as [->|Hne]; simpl.
    + pose proof (H (k, v0) (or_introl eq_refl) eq_refl) as H0.
      unfold entry_total in *. simpl in *. lia.
    + rewrite IH by (intros x Hx; apply H; right; exact Hx). lia.
Qed.

Lemma relabel_fold_total ui l : forall acc,
  no_score_replaced ui l ->
  (forall x, In x l -> 0 <= entry_total x) ->
  (forall x, In x acc -> 0 <= entry_total x) ->
  (forall x, In x acc -> 0 < entry_total x ->
     forall y, In y l -> display_name ui (fst y) <> fst x) ->
  sum_Z (map entry_total (fold_left (relabel_step ui) l acc)) =
  sum_Z (map entry_total acc) + sum_Z (map entry_total l).
Proof.
  induction l as [|[k0 d0] l IH]; intros acc Hsafe Hl Hacc Hkeep.
  - simpl. lia.
  - destruct Hsafe as [Hfirst Hsafe]. cbn [fold_left relabel_step map sum_Z fold_right].
    rewrite IH.
    + rewrite dict_set_total; [unfold sum_Z, entry_total; simpl; lia|].
      intros x Hx Hk.
      pose proof (Hacc x Hx) as Hnn.
      destruct (Z.eq_dec (entry_total x) 0) as [H0|Hne]; [exact H0|].
      exfalso. apply (Hkeep x Hx ltac:(lia) (k0, d0) (or_introl eq_refl)).
      simpl. symmetry. exact Hk.
    + exact Hsafe.
    + intros x Hx. apply Hl. right. exact Hx.
    + intros [k e] Hx. apply dict_set_In in Hx. destruct Hx as [[-> ->]|Hx].
      * apply (Hl (k0, d0)). left. reflexivity.
      * apply Hacc. exact Hx.
    + intros [k e] Hx Hpos y Hy. apply dict_set_In in Hx. destruct Hx as [[-> ->]|Hx].
      * simpl. apply (Hfirst Hpos y Hy).
      * apply (Hkeep (k, e) Hx Hpos). right. exact Hy.
Qed.

Lemma relabel_total ui l :
  no_score_replaced ui l ->
  (forall x, In x l -> 0 <= entry_total x) ->
  sum_Z (map entry_total (relabel ui l)) = sum_Z (map entry_total l).
Proof.
  intros Hsafe Hl. unfold relabel. destruct (truthy ui); [|reflexivity].
  rewrite relabel_fold_total; [reflexivity | exact Hsafe | exact Hl | intros x [] | intros x []].
Qed.

Lemma positive_kept_survives self ui mc ps p :
  positive_kept self ui mc ps = true -> In p ps ->
  0 < participant_total self p -> survives self mc p = true.
Proof.
  induction ps as [|q ps IH]; simpl; intros H Hin Hpos; [destruct Hin|].
  apply andb_true_iff in H. destruct H as [Hq Hrest].
  destruct Hin as [->|Hin]; [|apply IH; assumption].
  apply orb_true_iff in Hq. destruct Hq as [Hq|Hq].
  - apply Z.leb_le in Hq. lia.
  - apply andb_true_iff in Hq. apply Hq.
Qed.

Lemma positive_kept_rated self ui mc ps :
  positive_kept self ui mc ps = true ->
  no_score_replaced ui
    (map (fun p => rated_entry (grand_total self) (scored self p))
       (List.filter (survives self mc) ps)).
Proof.
  induction ps as [|p ps IH]; simpl; intros H; [exact I|].
  apply andb_true_iff in H. destruct H as [Hp Hrest].
  destruct (survives self mc p) eqn:Hs; [|apply IH; exact Hrest].
  simpl. split; [|apply IH; exact Hrest].
  unfold entry_total at 1. simpl. rewrite base_entry_total. fold (participant_total self p).
  intros Hpos y Hy.
  apply orb_true_iff in Hp. destruct Hp as [Hp|Hp]; [apply Z.leb_le in Hp; lia|].
  simpl in Hp. rewrite forallb_forall in Hp.
  apply in_map_iff in Hy. destruct Hy as (q & <- & Hq).
  apply List.filter_In in Hq. destruct Hq as [Hq Hsq].
  specialize (Hp q Hq). rewrite Hsq in Hp. simpl in Hp.
  apply negb_true_iff in Hp. simpl. intros Heq. rewrite Heq, String.eqb_refl in Hp.
  discriminate.
Qed.

(** When no positive total is lost, the totals of the result add up to
    the grand total. *)
Lemma ranked_result_total ps ui mc :
  well_formed ps ->
  positive_kept (analyzer_of ps) ui mc ps = true ->
  sum_Z (map entry_total (ranked_result (analyzer_of ps) ui mc)) =
  grand_total (analyzer_of ps).
Proof.
  intros Hwf Hkept. set (self := analyzer_of ps).
  unfold ranked_result. rewrite List.map_map.
  change (fun x => entry_total (with_rank (final_sorted self ui mc) x)) with entry_total.
  rewrite (sum_Z_perm _ _ (Permutation_map entry_total (final_sorted_perm self ui mc))).
  rewrite rated_scores_survivors. simpl participants.
  assert (Hnn : forall p, In p ps -> 0 <= participant_total self p).
  { intros p Hp. apply (participant_total_bounds ps p Hwf Hp). }
  rewrite relabel_total.
  - rewrite List.map_map.
    rewrite (List.map_ext _ (participant_total self))
      by (intros p; unfold entry_total; simpl; apply base_entry_total).
    unfold grand_total. simpl participants.
    apply sum_Z_filter_zero. intros p Hp Hs.
    pose proof (Hnn p Hp).
    destruct (Z.eq_dec (participant_total self p) 0) as [H0|Hne]; [exact H0|].
    rewrite (positive_kept_survives self ui mc ps p Hkept Hp) in Hs by lia. discriminate.
  - apply positive_kept_rated. exact Hkept.
  - intros x Hx. apply in_map_iff in Hx. destruct Hx as (p & <- & Hp).
    apply List.filter_In in Hp. unfold entry_total. simpl. rewrite base_entry_total.
    apply Hnn, Hp.
Qed.

(** C2, amended.  When the grand total is positive and no participant
    with a positive total is lost (none is dropped by the
    [min_contributions] filter, and none is replaced by a later
    participant with the same display name), the rates of the returned
    entries sum to 100 within 0.1 times the number of returned
    participants.  Participants without any score may be dropped: their
    rate is zero. *)
Theorem rates_sum_to_100_when_no_score_is_lost (ps : list (string * gmap string Z))
  (user_info : option (gmap string string)) (min_contributions : Z) :
  let self := analyzer_of ps in
  well_formed ps ->
  0 < grand_total self ->
  positive_kept self user_info min_contributions ps = true ->
  exists r,
    calculate_scores self user_info min_contributions = Ok r /\
    (Qabs (rate_sum r - 100) <= (1 # 10) * inject_Z (Z.of_nat (length r)))%Q.
Proof.
  intros self Hwf Hpos Hkept.
  exists (ranked_result self user_info min_contributions).
  split; [apply calculate_scores_unfold; exact Hwf|].
  set (r := ranked_result self user_info min_contributions).
  set (share := fun x : string * score_entry =>
                  (100 * (inject_Z (entry_total x) / inject_Z (grand_total self)))%Q).
  assert (H100 : (sum_Q (map share r) == 100)%Q).
  { unfold share.
    rewrite <- (List.map_map entry_total
                  (fun t => (100 * (inject_Z t / inject_Z (grand_total self)))%Q)).
    rewrite sum_Q_shares. unfold r, self.
    rewrite ranked_result_total by assumption.
    unfold Qdiv. rewrite Qmult_inv_r; [reflexivity|].
    apply Qnot_eq_sym, Qlt_not_eq. rewrite <- (Zlt_Qlt 0). exact Hpos. }
  rewrite <- H100. unfold rate_sum. apply sum_Q_close.
  intros [k e] Hin. unfold share, entry_total. cbn [snd].
  destruct (result_entry_rate ps user_info min_contributions k e Hwf Hin)
    as (q & Hq & Hrate & Hb).
  destruct (rate_of_bound _ _ Hb Hpos) as (q' & Hq' & _ & Hacc).
  rewrite Hq in Hq'. injection Hq' as <-.
  unfold rate_value. rewrite Hrate. exact Hacc.
Qed.

Lemma idle_among_active_wf : well_formed idle_among_active.
Proof.
  split; [|reflexivity]. simpl. solve_NoDup.
Qed.

(** The theorem at [idle_among_active] with the threshold 1: the
    participant without a score is dropped and the two rates that are
    left, 85.7 and 14.3, sum to 100. *)
Lemma rates_sum_to_100_witness :
  well_formed idle_among_active /\
  0 < grand_total (analyzer_of idle_among_active) /\
  positive_kept (analyzer_of idle_among_active) None 1 idle_among_active = true /\
  exists r,
    calculate_scores (analyzer_of idle_among_active) None 1 = Ok r /\
    length r = 2%nat /\
    (Qabs (rate_sum r - 100) <= (1 # 10) * inject_Z (Z.of_nat (length r)))%Q.
Proof.
  split; [exact idle_among_active_wf|]. split; [reflexivity|]. split; [reflexivity|].
  destruct (rates_sum_to_100_when_no_score_is_lost idle_among_active None 1
              idle_among_active_wf eq_refl eq_refl) as (r & Hr & Hsum).
  exists r. split; [exact Hr|]. split; [|exact Hsum].
  apply (f_equal (fun x => match x with Ok r => length r | Raise _ => 0%nat end)) in Hr.
  rewrite <- Hr. vm_compute. reflexivity.
Defined.

(** C2, as stated, fails: with totals 6 and 1 and [min_contributions = 5]
    only the first participant is returned, with the rate 85.7 computed
    against the grand total 7, and 85.7 is not within 0.1 of 100. *)
Lemma rate_sum_misses_100_after_filtering :
  well_formed filtered_participants /\
  0 < grand_total (analyzer_of filtered_participants) /\
  exists r,
    calculate_scores (analyzer_of filtered_participants) None 5 = Ok r /\
    length r = 1%nat /\
    (Qabs (rate_sum r - (857 # 10)) <= 1 # 1000000000)%Q /\
    ~ (Qabs (rate_sum r - 100) <= (1 # 10) * inject_Z (Z.of_nat (length r)))%Q.
Proof.
  split; [exact filtered_participants_wf|]. split; [reflexivity|].
  eexists. split; [exact filtered_participants_result|].
  split; [reflexivity|]. split; [vm_compute; discriminate|].
  vm_compute. intros H. apply H. reflexivity.
Qed.

(** The condition on the display names is needed as well: under
    [team_names] the entry of "carol" replaces the entry of "alice", the
    two rates that are left sum to 45.5 (36.4 and 9.1), and the filter
    drops nobody. *)
Example rate_sum_misses_100_after_collision :
  well_formed three_participants /\
  0 < grand_total (analyzer_of three_participants) /\
  (forall p, In p three_participants ->
     survives (analyzer_of three_participants) 0 p = true) /\
  positive_kept (analyzer_of three_participants) team_names 0 three_participants = false /\
  exists r,
    calculate_scores (analyzer_of three_participants) team_names 0 = Ok r /\
    length r = 2%nat /\
    (Qabs (rate_sum r - (455 # 10)) <= 1 # 1000000000)%Q /\
    ~ (Qabs (rate_sum r - 100) <= (1 # 10) * inject_Z (Z.of_nat (length r)))%Q.
Proof.
  split; [exact three_participants_wf|]. split; [reflexivity|].
  split; [intros p _; reflexivity|]. split; [vm_compute; reflexivity|].
  exists (ranked_result (analyzer_of three_participants) team_names 0).
  split; [apply calculate_scores_unfold, three_participants_wf|].
  split; [vm_compute; reflexivity|]. split; [vm_compute; discriminate|].
  vm_compute. intros H. apply H. reflexivity.
Qed.

(** The keys of the result are the display names of the participants
    that pass the filter. *)
Lemma ranked_result_keys self ui mc k :
  In k (map fst (ranked_result self ui mc)) <->
  exists p, In p (participants self) /\ survives self mc p = true /\
            display_name ui (fst p) = k.
Proof.
  unfold ranked_result. rewrite with_rank_keys.
  rewrite (Permutation_in' (eq_refl k) (Permutation_map fst (final_sorted_perm self ui mc))).
  rewrite relabel_key_iff, rated_scores_survivors, !List.map_map. simpl.
  rewrite in_map_iff. split.
  - intros (p & Hk & Hp). apply List.filter_In in Hp. exists p. tauto.
  - intros (p & Hp & Hs & Hk). exists p. split; [exact Hk|].
    apply List.filter_In. tauto.
Qed.

Lemma dict_get_is_key {V} (d : list (string * V)) k :
  (exists v, dict_get d k = Some v) <-> In k (map fst d).
Proof.
  pose proof (dict_get_None d k) as H.
  destruct (dict_get d k) as [v|].
  - split; [|eauto]. intros _.
    destruct (in_dec string_dec k (map fst d)) as [Hin|Hout]; [exact Hin|].
    apply H in Hout. discriminate.
  - split; [intros [v Hv]; discriminate|]. intros Hin. exfalso.
    apply (proj1 H eq_refl). exact Hin.
Qed.




(** C4.  The result of [calculate_scores] carries competition ranks:
    every participant that passes the filter has an entry under its
    display name, and the rank of every returned entry is 1 plus the
    number of returned entries with a strictly greater total; hence a
    strictly greater total never has a greater rank, and equal totals
    have equal ranks. *)
Theorem ranks_are_competition_ranks (ps : list (string * gmap string Z))
  (user_info : option (gmap string string)) (min_contributions : Z) :
  let self := analyzer_of ps in
  well_formed ps ->
  exists r,
    calculate_scores self user_info min_contributions = Ok r /\
    (forall p, In p ps -> survives self min_contributions p = true ->
       exists e ra, dict_get r (display_name user_info (fst p)) = Some e /\
                    rank e = Some ra /\ 1 <= ra <= Z.of_nat (length r)) /\
    (forall ua da, In (ua, da) r -> rank da = Some (1 + count_above (total da) r)) /\
    (forall ua da ub db ra rb,
       In (ua, da) r -> In (ub, db) r ->
       rank da = Some ra -> rank db = Some rb ->
       (total db < total da -> ra <= rb) /\
       (total da = total db -> ra = rb)).
Proof.
  intros self Hwf. exists (ranked_result self user_info min_contributions).
  split; [apply calculate_scores_unfold; exact Hwf|].
  assert (Hrank : forall ua da,
            In (ua, da) (ranked_result self user_info min_contributions) ->
            rank da = Some (1 + count_above (total da)
                                  (ranked_result self user_info min_contributions))).
  { intros ua da Hin. apply ranked_result_In in Hin. destruct Hin as (d & _ & ->).
    rewrite ranked_result_count. reflexivity. }
  split; [|split; [exact Hrank|]].
  - intros p Hp Hs.
    destruct (proj2 (dict_get_is_key (ranked_result self user_info min_contributions)
                       (display_name user_info (fst p)))) as [e He].
    { apply ranked_result_keys. exists p. auto. }
    exists e, (1 + count_above (total e) (ranked_result self user_info min_contributions)).
    split; [exact He|].
    apply dict_get_In in He; [|apply ranked_result_NoDup; exact Hwf].
    split; [apply (Hrank _ _ He)|].
    pose proof (count_above_nonneg (total e)
                  (ranked_result self user_info min_contributions)).
    pose proof (count_above_lt_length (total e) _ _ He (Z.le_refl _)) as Hlt.
    cbn [snd] in Hlt. lia.
  - intros ua da ub db ra rb Ha Hb Hra Hrb.
    rewrite (Hrank ua da Ha) in Hra. rewrite (Hrank ub db Hb) in Hrb.
    injection Hra as <-. injection Hrb as <-. split.
    + intros Hlt.
      pose proof (count_above_mono (total db) (total da)
                    (ranked_result self user_info min_contributions) ltac:(lia)).
      lia.
    + intros ->. reflexivity.
Qed.

(** The theorem at [tied_participants] (totals 1, 3 and 1): "amy" has
    the rank 1, and "zoe" and "bea", who are tied, both have the rank 2;
    no rank 3 is given. *)
Lemma ranks_are_competition_ranks_witness :
  well_formed tied_participants /\
  exists r,
    calculate_scores (analyzer_of tied_participants) None 0 = Ok r /\
    map (fun x => (fst x, total (snd x), rank (snd x))) r =
      [("amy", 3, Some 1); ("zoe", 1, Some 2); ("bea", 1, Some 2)] /\
    (exists e ra, dict_get r "bea" = Some e /\ rank e = Some ra /\ 1 <= ra <= 3) /\
    (forall ua da, In (ua, da) r -> rank da = Some (1 + count_above (total da) r)).
Proof.
  split; [exact tied_participants_wf|].
  destruct (ranks_are_competition_ranks tied_participants None 0 tied_participants_wf)
    as (r & Hr & Hall & Hrank & _).
  assert (Hlen : length r = 3%nat).
  { apply (f_equal (fun x => match x with Ok r => length r | Raise _ => 0%nat end)) in Hr.
    rewrite <- Hr. vm_compute. reflexivity. }
  exists r. split; [exact Hr|]. split; [|split; [|exact Hrank]].
  - apply (f_equal (fun x => match x with
                             | Ok r => map (fun x => (fst x, total (snd x), rank (snd x))) r
                             | Raise _ => []
                             end)) in Hr.
    rewrite <- Hr. vm_compute. reflexivity.
  - destruct (Hall ("bea", {[ "i_documentation" := 1 ]})) as (e & ra & He & Hra & Hb).
    + right. right. left. reflexivity.
    + reflexivity.
    + exists e, ra. rewrite Hlen in Hb. auto.
Defined.

(* ===================================================================== *)
(** * Properties of [calculate_averages]                                  *)
(* ===================================================================== *)

Lemma overflow_or_bind {A B} (P : A -> Prop) (Q : B -> Prop) m (k : A -> result B) :
  overflow_or P m -> (forall a, P a -> overflow_or Q (k a)) -> overflow_or Q (bind m k).
Proof. destruct m as [a|e]; simpl; auto. Qed.

Lemma overflow_or_weaken {A} (P Q : A -> Prop) m :
  (forall a, P a -> Q a) -> overflow_or P m -> overflow_or Q m.
Proof. destruct m; simpl; auto. Qed.

Lemma float_of_int_raise z : overflow_or (fun _ => True) (float_of_int z).
Proof. unfold float_of_int, no_overflow. destruct (binary_normalize _ _ _ _ _); simpl; auto. Qed.

Lemma to_float_raise x : overflow_or (fun _ => True) (to_float x).
Proof. destruct x; simpl; [apply float_of_int_raise | exact I]. Qed.

Lemma py_add_raise x y : overflow_or (fun _ => True) (py_add x y).
Proof.
  destruct x as [a|f], y as [b|g]; simpl; auto.
  - pose proof (float_of_int_raise a). destruct (float_of_int a); simpl in *; auto.
  - pose proof (float_of_int_raise b). destruct (float_of_int b); simpl in *; auto.
Qed.

(** ** The conversion of a positive integer is not zero *)

Lemma shr_fexp_pos m e l :
  0 < m -> emin 53 1024 <= e ->
  0 < shr_m (fst (shr_fexp 53 1024 m e l)) /\ emin 53 1024 <= snd (shr_fexp 53 1024 m e l).
Proof.
  intros Hm He. destruct (shr_fexp_spec m e l ltac:(lia)) as [H1 H2].
  rewrite H1, H2. clear H1 H2.
  pose proof (Zdigits2_lower m Hm) as Hd.
  assert (Hd1 : 1 <= Zdigits2 m) by (destruct m; simpl in *; lia).
  set (n := Z.max e (fexp 53 1024 (Zdigits2 m + e)) - e).
  assert (Hn : 0 <= n <= Zdigits2 m - 1) by (unfold n, fexp, emin in *; lia).
  split; [|lia].
  assert (Hpow : 2 ^ n <= 2 ^ (Zdigits2 m - 1)) by (apply Z.pow_le_mono_r; lia).
  assert (Hp : 0 < 2 ^ n) by (apply Z.pow_pos_nonneg; lia).
  apply Z.div_str_pos. lia.
Qed.

Lemma binary_round_aux_pos s m e l :
  0 < m -> emin 53 1024 <= e ->
  float_is_zero (binary_round_aux 53 1024 s m e l) = false.
Proof.
  intros Hm He. unfold binary_round_aux.
  destruct (shr_fexp_pos m e l Hm He) as [H1 H2].
  destruct (shr_fexp 53 1024 m e l) as [mrs1 e1]. simpl fst in *; simpl snd in *.
  set (m2 := round_nearest_even (shr_m mrs1) (loc_of_shr_record mrs1)).
  assert (Hm2 : 0 < m2).
  { pose proof (round_nearest_even_cases (shr_m mrs1) (loc_of_shr_record mrs1)) as H.
    fold m2 in H. lia. }
  destruct (shr_fexp_pos m2 e1 loc_Exact Hm2 H2) as [H3 H4].
  destruct (shr_fexp 53 1024 m2 e1 loc_Exact) as [mrs2 e2]. simpl fst in *; simpl snd in *.
  destruct (shr_m mrs2); try lia. destruct (e2 <=? 1024 - 53); reflexivity.
Qed.

Lemma float_of_int_nonzero z g :
  0 < z -> float_of_int z = Ok g -> float_is_zero g = false.
Proof.
  intros Hz. destruct z as [|p|p]; try lia. unfold float_of_int. simpl binary_normalize.
  unfold binary_round, shl_align.
  set (ex' := fexp 53 1024 (Zpos (digits2_pos p) + 0)).
  assert (Hex : emin 53 1024 <= ex') by (unfold ex', fexp; lia).
  assert (Hnz : forall mz ez, 0 < mz -> emin 53 1024 <= ez ->
            no_overflow (binary_round_aux 53 1024 false mz ez loc_Exact) = Ok g ->
            float_is_zero g = false).
  { intros mz ez Hmz Hez Hg.
    pose proof (binary_round_aux_pos false mz ez loc_Exact Hmz Hez) as Hnz.
    destruct (binary_round_aux 53 1024 false mz ez loc_Exact); simpl in *;
      try discriminate; injection Hg as <-; reflexivity. }
  destruct (ex' - 0) as [|d|d] eqn:E.
  - apply Hnz; [lia | unfold emin; lia].
  - apply Hnz; [lia | unfold emin; lia].
  - apply Hnz; [lia | exact Hex].
Qed.

Lemma py_truediv_raise x n :
  0 < n -> overflow_or (fun _ => True) (py_truediv x (PyInt n)).
Proof.
  intros Hn. destruct x as [a|f]; simpl.
  - destruct (Z.eqb_spec n 0); [lia|].
    unfold no_overflow. destruct (b64_div _ _); simpl; auto.
  - pose proof (float_of_int_raise n) as Hr.
    destruct (float_of_int n) as [g|e] eqn:Hg; simpl in *; auto.
    rewrite (float_of_int_nonzero n g Hn Hg). exact I.
Qed.

(** ** The loops of [calculate_averages] *)

Lemma add_categories_row data v1 v2 v3 v4 v5 v6 :
  add_categories data (dict_keys (totals_row v1 v2 v3 v4 v5 v6))
    (totals_row v1 v2 v3 v4 v5 v6) =
  do a1 <- py_add v1 (feat_bug_PR data);
  do a2 <- py_add v2 (document_PR data);
  do a3 <- py_add v3 (typo_PR data);
  do a4 <- py_add v4 (feat_bug_issue data);
  do a5 <- py_add v5 (document_issue data);
  do a6 <- py_add v6 (PyInt (total data));
  Ok (totals_row a1 a2 a3 a4 a5 a6).
Proof. reflexivity. Qed.

Lemma add_categories_total data s totals :
  row_with_total s totals ->
  overflow_or (row_with_total (s + total data))
    (add_categories data (dict_keys totals) totals).
Proof.
  intros (v1 & v2 & v3 & v4 & v5 & ->). rewrite add_categories_row.
  do 5 (apply (overflow_or_bind (fun _ => True)); [apply py_add_raise | intros ? _]).
  simpl. unfold row_with_total. eauto 10.
Qed.

Lemma totals_loop_total scores : forall s totals,
  row_with_total s totals ->
  overflow_or (row_with_total (s + sum_Z (map entry_total scores)))
    (totals_loop scores totals).
Proof.
  induction scores as [|[k data] scores IH]; intros s totals Hrow.
  - simpl. rewrite Z.add_0_r. exact Hrow.
  - cbn [totals_loop].
    eapply overflow_or_bind; [apply add_categories_total; exact Hrow|].
    intros totals' Hrow'. cbn [map sum_Z fold_right]. unfold entry_total at 1. cbn [snd].
    replace (s + (total data + fold_right Z.add 0 (map entry_total scores)))
      with (s + total data + sum_Z (map entry_total scores)) by (unfold sum_Z; lia).
    apply IH. exact Hrow'.
Qed.

Lemma divide_all_row s n totals :
  0 < n -> row_with_total s totals ->
  overflow_or (averages_row s n) (divide_all totals n).
Proof.
  intros Hn (v1 & v2 & v3 & v4 & v5 & ->). unfold totals_row. cbn [divide_all].
  pose proof (py_truediv_raise v1 n Hn) as H1.
  pose proof (py_truediv_raise v2 n Hn) as H2.
  pose proof (py_truediv_raise v3 n Hn) as H3.
  pose proof (py_truediv_raise v4 n Hn) as H4.
  pose proof (py_truediv_raise v5 n Hn) as H5.
  pose proof (py_truediv_raise (PyInt s) n Hn) as H6.
  destruct (py_truediv v1 (PyInt n)) as [q1|e1]; [|exact H1]. cbn [bind].
  destruct (py_truediv v2 (PyInt n)) as [q2|e2]; [|exact H2]. cbn [bind].
  destruct (py_truediv v3 (PyInt n)) as [q3|e3]; [|exact H3]. cbn [bind].
  destruct (py_truediv v4 (PyInt n)) as [q4|e4]; [|exact H4]. cbn [bind].
  destruct (py_truediv v5 (PyInt n)) as [q5|e5]; [|exact H5]. cbn [bind].
  destruct (py_truediv (PyInt s) (PyInt n)) as [q6|e6] eqn:E6; [|exact H6]. cbn [bind].
  simpl. exists q1, q2, q3, q4, q5, q6. rewrite E6. auto.
Qed.

Lemma sum_rates_raise values : forall acc,
  (forall e, In e values -> rate e <> None) ->
  overflow_or (fun _ => True) (sum_rates acc values).
Proof.
  induction values as [|e values IH]; intros acc Hr; [exact I|].
  cbn [sum_rates]. unfold entry_get. simpl.
  destruct (rate e) as [x|] eqn:Hx; [|exfalso; apply (Hr e); [left; reflexivity | exact Hx]].
  cbn [bind]. eapply overflow_or_bind; [apply py_add_raise|].
  intros acc' _. apply IH. intros e' He'. apply Hr. right. exact He'.
Qed.

Lemma calculate_averages_spec self scores :
  scores <> [] ->
  (forall k e, In (k, e) scores -> rate e <> None) ->
  overflow_or
    (fun averages => exists q1 q2 q3 q4 q5 q6 q7,
       averages =
         (totals_row q1 q2 q3 q4 q5 q6 ++ [("rate", q7)])%list /\
       py_truediv (PyInt (sum_Z (map entry_total scores)))
                  (PyInt (Z.of_nat (length scores))) = Ok q6)
    (calculate_averages self scores).
Proof.
  intros Hne Hr. unfold calculate_averages. destruct scores as [|x scores']; [congruence|].
  set (scores := x :: scores') in *.
  assert (Hn : 0 < Z.of_nat (length scores)) by (unfold scores; simpl; lia).
  eapply overflow_or_bind.
  { apply (totals_loop_total scores 0). unfold row_with_total, initial_totals, totals_row.
    eauto 10. }
  intros totals Hrow. simpl in Hrow.
  eapply overflow_or_bind; [apply divide_all_row; [exact Hn | exact Hrow]|].
  intros averages (q1 & q2 & q3 & q4 & q5 & q6 & -> & Hq6).
  eapply overflow_or_bind.
  { apply sum_rates_raise. intros e He. unfold dict_values in He.
    apply in_map_iff in He. destruct He as ([k e'] & <- & Hin). apply (Hr k e'). exact Hin. }
  intros total_rates _.
  destruct (Z.ltb_spec 0 (Z.of_nat (length scores))) as [_|]; [|lia].
  eapply overflow_or_bind; [apply py_truediv_raise; exact Hn|].
  intros q7 _. simpl. exists q1, q2, q3, q4, q5, q6, q7. auto.
Qed.

(** X10.  On a dictionary whose entries all carry a ["rate"],
    [calculate_averages] raises nothing but [OverflowError]: no
    [KeyError], and no [ZeroDivisionError] either.  When it returns, the
    keys are the six categories followed by ["rate"]. *)
Theorem averages_fail_only_by_overflow self scores :
  (forall k e, In (k, e) scores -> rate e <> None) ->
  match calculate_averages self scores with
  | Ok averages => dict_keys averages = dict_keys zero_averages
  | Raise e => e = OverflowError
  end.
Proof.
  intros Hr. destruct scores as [|x scores]; [reflexivity|].
  pose proof (calculate_averages_spec self (x :: scores) ltac:(discriminate) Hr) as H.
  destruct (calculate_averages self (x :: scores)) as [averages|e]; [|exact H].
  simpl in H. destruct H as (q1 & q2 & q3 & q4 & q5 & q6 & q7 & -> & _). reflexivity.
Qed.

Lemma two_rated_entries_rated k e : In (k, e) two_rated_entries -> rate e <> None.
Proof.
  intros [H|[H|[]]]; injection H as _ <-; discriminate.
Qed.

(** The theorem at [two_rated_entries]. *)
Lemma averages_fail_only_by_overflow_witness :
  exists averages,
    calculate_averages (analyzer_of []) two_rated_entries = Ok averages /\
    dict_keys averages = dict_keys zero_averages.
Proof.
  pose proof (averages_fail_only_by_overflow (analyzer_of []) two_rated_entries
                two_rated_entries_rated) as H.
  destruct (calculate_averages (analyzer_of []) two_rated_entries) as [averages|e] eqn:E;
    [|vm_compute in E; discriminate].
  exists averages. split; [reflexivity | exact H].
Defined.

(** X11.  The ["total"] of the averages is the quotient of the exact
    integer sum of the totals by the number of entries, rounded once:
    the floats of the other categories do not reach it. *)
Theorem average_total_is_rounded_once self scores averages :
  scores <> [] ->
  (forall k e, In (k, e) scores -> rate e <> None) ->
  calculate_averages self scores = Ok averages ->
  exists q,
    py_truediv (PyInt (sum_Z (map entry_total scores)))
               (PyInt (Z.of_nat (length scores))) = Ok q /\
    dict_get averages "total" = Some q.
Proof.
  intros Hne Hr Havg.
  pose proof (calculate_averages_spec self scores Hne Hr) as H.
  rewrite Havg in H. simpl in H.
  destruct H as (q1 & q2 & q3 & q4 & q5 & q6 & q7 & -> & Hq6).
  exists q6. split; [exact Hq6 | reflexivity].
Qed.

(** The theorem at [two_rated_entries]: the average total is 5.0. *)
Lemma average_total_is_rounded_once_witness :
  exists averages,
    calculate_averages (analyzer_of []) two_rated_entries = Ok averages /\
    dict_get averages "total" = Some (PyFloat (S754_finite false 5629499534213120 (-50))).
Proof.
  destruct (calculate_averages (analyzer_of []) two_rated_entries) as [averages|e] eqn:E;
    [|vm_compute in E; discriminate].
  destruct (average_total_is_rounded_once (analyzer_of []) two_rated_entries averages
              ltac:(discriminate) two_rated_entries_rated E) as (q & Hq & Hget).
  exists averages. split; [reflexivity|]. rewrite Hget. f_equal.
  vm_compute in Hq. injection Hq as <-. reflexivity.
Defined.

(** ** Results that stay in the binary64 range *)

Lemma Zdigits2_upper m k : 0 <= m -> 0 <= k -> m < 2 ^ k -> Zdigits2 m <= k.
Proof.
  intros Hm Hk Hlt. destruct m as [|p|p]; simpl; try lia.
  pose proof (digits2_pos_bounds p) as [Hlo _].
  assert (H : 2 ^ (Zpos (digits2_pos p) - 1) < 2 ^ k) by lia.
  apply Z.pow_lt_mono_r_iff in H; lia.
Qed.

Lemma Zdigits2_lt m : 0 <= m -> m < 2 ^ Zdigits2 m.
Proof.
  intros Hm. destruct m as [|p|p]; simpl; try lia. apply digits2_pos_bounds.
Qed.

Lemma Zdigits2_div m n :
  0 <= m -> 0 <= n -> Zdigits2 (m / 2 ^ n) <= Z.max 0 (Zdigits2 m - n).
Proof.
  intros Hm Hn. pose proof (Zdigits2_lt m Hm) as Hlt.
  pose proof (Zdigits2_nonneg m) as Hd.
  assert (Hp : 0 < 2 ^ n) by (apply Z.pow_pos_nonneg; lia).
  destruct (Z.le_gt_cases n (Zdigits2 m)) as [Hle|Hgt].
  - apply Zdigits2_upper; [apply Z.div_pos; lia | lia |].
    replace (Z.max 0 (Zdigits2 m - n)) with (Zdigits2 m - n) by lia.
    apply Z.div_lt_upper_bound; [lia|].
    rewrite <- Z.pow_add_r by lia. replace (n + (Zdigits2 m - n)) with (Zdigits2 m) by lia.
    exact Hlt.
  - rewrite Z.div_small; [simpl; lia|]. split; [lia|].
    eapply Z.lt_le_trans; [exact Hlt|]. apply Z.pow_le_mono_r; lia.
Qed.

Lemma binary_round_aux_finite s m e l :
  0 <= m -> e <= 900 -> Zdigits2 m + e <= 1000 ->
  exists m' e', 0 <= m' /\ binary_round_aux 53 1024 s m e l = SF_of_mantissa s m' e'.
Proof.
  intros Hm He Hd. unfold binary_round_aux.
  destruct (shr_fexp_spec m e l Hm) as [Hm1 He1].
  destruct (shr_fexp 53 1024 m e l) as [mrs1 e1]. simpl fst in *; simpl snd in *.
  pose proof (Zdigits2_nonneg m) as Hd0.
  assert (He1' : e <= e1 <= 947) by (unfold fexp, emin in He1; lia).
  assert (Hm1' : 0 <= shr_m mrs1)
    by (rewrite Hm1; apply Z.div_pos; [lia | apply Z.pow_pos_nonneg; lia]).
  assert (Hd1 : Zdigits2 (shr_m mrs1) + e1 <= 1000).
  { rewrite Hm1. pose proof (Zdigits2_div m (e1 - e) Hm ltac:(lia)). lia. }
  set (m2 := round_nearest_even (shr_m mrs1) (loc_of_shr_record mrs1)).
  assert (Hm2 : m2 = shr_m mrs1 \/ m2 = shr_m mrs1 + 1) by apply round_nearest_even_cases.
  assert (Hm2' : 0 <= m2) by lia.
  assert (Hd2 : Zdigits2 m2 <= Zdigits2 (shr_m mrs1) + 1).
  { pose proof (Zdigits2_lt (shr_m mrs1) Hm1') as Hlt.
    pose proof (Zdigits2_nonneg (shr_m mrs1)) as Hnn.
    apply Zdigits2_upper; [lia | lia |].
    rewrite Z.pow_add_r by lia. change (2 ^ 1) with 2. lia. }
  destruct (shr_fexp_spec m2 e1 loc_Exact Hm2') as [Hm3 He2].
  destruct (shr_fexp 53 1024 m2 e1 loc_Exact) as [mrs2 e2]. simpl fst in *; simpl snd in *.
  assert (He2' : e1 <= e2 <= 971) by (unfold fexp, emin in He2; lia).
  assert (Hm3' : 0 <= shr_m mrs2)
    by (rewrite Hm3; apply Z.div_pos; [lia | apply Z.pow_pos_nonneg; lia]).
  exists (shr_m mrs2), e2. split; [exact Hm3'|].
  destruct (shr_m mrs2) as [|p|p]; simpl; try reflexivity.
  replace (e2 <=? 1024 - 53) with true; [reflexivity|]. symmetry. apply Z.leb_le. lia.
Qed.

Lemma digits2_pos_iter_xO p d :
  Zpos (digits2_pos (Pos.iter xO p d)) = Zpos (digits2_pos p) + Zpos d.
Proof.
  induction d as [|d IH] using Pos.peano_ind.
  - simpl. lia.
  - rewrite Pos.iter_succ. simpl digits2_pos. lia.
Qed.

(** [float(z)] returns for an integer of up to a thousand bits. *)
Lemma float_of_int_ok z :
  0 <= z < 2 ^ 1000 ->
  exists m e, 0 <= m /\ float_of_int z = Ok (SF_of_mantissa false m e).
Proof.
  intros [Hz Hlt]. unfold float_of_int.
  destruct z as [|p|p]; try lia.
  - exists 0, 0. split; [lia | reflexivity].
  - simpl binary_normalize. unfold binary_round, shl_align.
    assert (Hd : Zpos (digits2_pos p) <= 1000).
    { apply (Zdigits2_upper (Zpos p) 1000); lia. }
    assert (Hfin : forall mz ez, ez <= 900 -> Zpos (digits2_pos mz) + ez <= 1000 ->
              exists m e, 0 <= m /\
                no_overflow (binary_round_aux 53 1024 false (Zpos mz) ez loc_Exact) =
                Ok (SF_of_mantissa false m e)).
    { intros mz ez H1 H2.
      destruct (binary_round_aux_finite false (Zpos mz) ez loc_Exact ltac:(lia) H1 H2)
        as (m & e & Hm & ->).
      exists m, e. split; [exact Hm | apply no_overflow_mantissa; exact Hm]. }
    destruct (fexp 53 1024 (Zpos (digits2_pos p) + 0) - 0) as [|d|d] eqn:E.
    + apply Hfin; lia.
    + apply Hfin; lia.
    + apply Hfin; [lia|]. rewrite digits2_pos_iter_xO. lia.
Qed.

(** The quotient of two integers is in range when the dividend has up to
    a thousand bits. *)
Lemma int_truediv_ok a n :
  0 <= a < 2 ^ 1000 -> 0 < n ->
  exists f, py_truediv (PyInt a) (PyInt n) = Ok (PyFloat f).
Proof.
  intros [Ha Hlt] Hn. simpl. destruct (Z.eqb_spec n 0); [lia|].
  destruct n as [|pn|pn]; try lia.
  destruct a as [|pa|pa]; try lia.
  - simpl. eauto.
  - unfold b64_div. simpl SF_of_Z. unfold SFdiv.
    unfold SFdiv_core_binary. simpl Zdigits2.
    set (e' := Z.min (fexp 53 1024 (Zpos (digits2_pos pa) + 0 - (Zpos (digits2_pos pn) + 0)))
                     (0 - 0)).
    assert (He' : e' <= 0) by (unfold e'; lia).
    assert (Hda : Zpos (digits2_pos pa) <= 1000).
    { apply (Zdigits2_upper (Zpos pa) 1000); lia. }
    assert (He'' : -1100 <= e') by (unfold e', fexp, emin; lia).
    set (m' := match 0 - 0 - e' with
               | 0 => Zpos pa
               | Zpos _ => Z.shiftl (Zpos pa) (0 - 0 - e')
               | Zneg _ => 0
               end).
    assert (Hm' : m' = Zpos pa * 2 ^ (- e')).
    { unfold m'. replace (0 - 0 - e') with (- e') by lia.
      destruct (- e') as [|s|s] eqn:Es; try lia.
      rewrite Z.shiftl_mul_pow2 by lia. reflexivity. }
    clearbody m'.
    pose proof (Z_div_mod m' (Zpos pn) eq_refl) as Hdm.
    destruct (Z.div_eucl m' (Zpos pn)) as [q r]. destruct Hdm as [Hdm Hr].
    assert (Hpow : 0 < 2 ^ (- e')) by (apply Z.pow_pos_nonneg; lia).
    assert (Hq : 0 <= q <= m') by nia.
    assert (Hdq : Zdigits2 q + e' <= 1000).
    { assert (Zdigits2 q <= Zpos (digits2_pos pa) - e'); [|lia].
      apply Zdigits2_upper; [lia | lia |].
      replace (Zpos (digits2_pos pa) - e') with (Zpos (digits2_pos pa) + (- e')) by lia.
      rewrite Z.pow_add_r by lia. pose proof (digits2_pos_bounds pa) as [_ Hb]. nia. }
    destruct (binary_round_aux_finite (xorb false false) q e' (new_location (Zpos pn) r)
                ltac:(lia) ltac:(lia) Hdq) as (m & e & Hm & ->).
    simpl xorb. rewrite no_overflow_mantissa by exact Hm. simpl. eauto.
Qed.

Lemma within_le b b' x : b <= b' -> within b x -> within b' x.
Proof. destruct x; simpl; intros; lia || exact I. Qed.

Lemma py_add_within b1 b2 x y :
  0 <= b1 -> 0 <= b2 ->
  within b1 x -> within b2 y -> b1 + b2 < 2 ^ 1000 ->
  exists r, py_add x y = Ok r /\ within (b1 + b2) r.
Proof.
  intros Hb1 Hb2 Hx Hy Hb. destruct x as [a|f], y as [c|g]; unfold within in *.
  - exists (PyInt (a + c)). split; [reflexivity | lia].
  - unfold py_add, to_float.
    destruct (float_of_int_ok a ltac:(lia)) as (m & e & _ & ->). cbn [bind]. eauto.
  - unfold py_add, to_float.
    destruct (float_of_int_ok c ltac:(lia)) as (m & e & _ & ->). cbn [bind]. eauto.
  - unfold py_add, to_float. cbn [bind]. eauto.
Qed.

Lemma py_truediv_within b x n :
  within b x -> b < 2 ^ 1000 -> 0 < n < 2 ^ 1000 ->
  exists f, py_truediv x (PyInt n) = Ok (PyFloat f).
Proof.
  intros Hx Hb Hn. destruct x as [a|f].
  - apply int_truediv_ok; unfold within in Hx; lia.
  - unfold py_truediv, to_float.
    destruct (float_of_int_ok n ltac:(lia)) as (m & e & _ & Hg).
    rewrite Hg. cbn [bind]. rewrite (float_of_int_nonzero n _ ltac:(lia) Hg). eauto.
Qed.

Lemma add_categories_within b g data totals :
  0 <= b -> 0 <= g ->
  row_within b totals -> entry_within g data -> b + g < 2 ^ 1000 ->
  exists totals', add_categories data (dict_keys totals) totals = Ok totals' /\
                  row_within (b + g) totals'.
Proof.
  intros Hb0 Hg0 (v1 & v2 & v3 & v4 & v5 & v6 & -> & H1 & H2 & H3 & H4 & H5 & H6)
         (E1 & E2 & E3 & E4 & E5 & E6 & _) Hb.
  rewrite add_categories_row.
  destruct (py_add_within b g _ _ Hb0 Hg0 H1 E1 Hb) as (a1 & -> & A1).
  destruct (py_add_within b g _ _ Hb0 Hg0 H2 E2 Hb) as (a2 & -> & A2).
  destruct (py_add_within b g _ _ Hb0 Hg0 H3 E3 Hb) as (a3 & -> & A3).
  destruct (py_add_within b g _ _ Hb0 Hg0 H4 E4 Hb) as (a4 & -> & A4).
  destruct (py_add_within b g _ _ Hb0 Hg0 H5 E5 Hb) as (a5 & -> & A5).
  destruct (py_add_within b g v6 (PyInt (total data)) Hb0 Hg0 H6 E6 Hb) as (a6 & -> & A6).
  cbn [bind]. eexists. split; [reflexivity|].
  exists a1, a2, a3, a4, a5, a6. auto 10.
Qed.

Lemma totals_loop_within g scores : forall b totals,
  0 <= b -> 0 <= g ->
  row_within b totals ->
  (forall k e, In (k, e) scores -> entry_within g e) ->
  b + Z.of_nat (length scores) * g < 2 ^ 1000 ->
  exists totals', totals_loop scores totals = Ok totals' /\
                  row_within (b + Z.of_nat (length scores) * g) totals'.
Proof.
  induction scores as [|[k data] scores IH]; intros b totals Hb0 Hg Hrow Hall Hb.
  - simpl. exists totals. split; [reflexivity|]. rewrite Z.add_0_r. exact Hrow.
  - cbn [totals_loop].
    assert (Hlen : Z.of_nat (length ((k, data) :: scores)) = 1 + Z.of_nat (length scores))
      by (simpl length; lia).
    rewrite Hlen in *.
    destruct (add_categories_within b g data totals Hb0 Hg Hrow (Hall k data (or_introl eq_refl))
                ltac:(nia)) as (totals1 & -> & Hrow1).
    cbn [bind].
    destruct (IH (b + g) totals1 ltac:(lia) Hg Hrow1
                (fun k' e' H => Hall k' e' (or_intror H)) ltac:(nia))
      as (totals' & -> & Hrow').
    exists totals'. split; [reflexivity|].
    replace (b + (1 + Z.of_nat (length scores)) * g)
      with (b + g + Z.of_nat (length scores) * g) by lia.
    exact Hrow'.
Qed.

Lemma divide_all_within b n totals :
  row_within b totals -> b < 2 ^ 1000 -> 0 < n < 2 ^ 1000 ->
  exists q1 q2 q3 q4 q5 q6,
    divide_all totals n = Ok (totals_row q1 q2 q3 q4 q5 q6).
Proof.
  intros (v1 & v2 & v3 & v4 & v5 & v6 & -> & H1 & H2 & H3 & H4 & H5 & H6) Hb Hn.
  unfold totals_row. cbn [divide_all].
  destruct (py_truediv_within b v1 n H1 Hb Hn) as (f1 & ->).
  destruct (py_truediv_within b v2 n H2 Hb Hn) as (f2 & ->).
  destruct (py_truediv_within b v3 n H3 Hb Hn) as (f3 & ->).
  destruct (py_truediv_within b v4 n H4 Hb Hn) as (f4 & ->).
  destruct (py_truediv_within b v5 n H5 Hb Hn) as (f5 & ->).
  destruct (py_truediv_within b v6 n H6 Hb Hn) as (f6 & ->).
  cbn [bind]. eauto 10.
Qed.

Lemma sum_rates_within g values : forall acc,
  within 0 acc ->
  (forall e, In e values -> entry_within g e) ->
  exists s, sum_rates acc values = Ok s /\ within 0 s.
Proof.
  induction values as [|e values IH]; intros acc Hacc Hall; [simpl; eauto|].
  cbn [sum_rates]. unfold entry_get. simpl.
  destruct (Hall e (or_introl eq_refl)) as (_ & _ & _ & _ & _ & _ & r & -> & Hr).
  cbn [bind].
  assert (Hlimit : 0 + 0 < 2 ^ 1000) by (apply Z.pow_pos_nonneg; lia).
  destruct (py_add_within 0 0 acc r ltac:(lia) ltac:(lia) Hacc Hr Hlimit)
    as (acc' & -> & Hacc').
  cbn [bind]. apply IH; [exact Hacc'|]. intros e' He'. apply Hall. right. exact He'.
Qed.

(** [calculate_averages] returns on entries of moderate size. *)
Lemma calculate_averages_returns self g scores :
  0 <= g ->
  (forall k e, In (k, e) scores -> entry_within g e) ->
  Z.of_nat (length scores) * g < 2 ^ 1000 ->
  Z.of_nat (length scores) < 2 ^ 1000 ->
  exists averages,
    calculate_averages self scores = Ok averages /\
    dict_keys averages = dict_keys zero_averages.
Proof.
  intros Hg Hall Hb Hn. unfold calculate_averages.
  destruct scores as [|x scores']; [eexists; split; reflexivity|].
  set (scores := x :: scores') in *.
  assert (Hpos : 0 < Z.of_nat (length scores)) by (unfold scores; simpl; lia).
  assert (Hrow0 : row_within 0 initial_totals).
  { unfold row_within, initial_totals, totals_row.
    exists (PyInt 0), (PyInt 0), (PyInt 0), (PyInt 0), (PyInt 0), (PyInt 0).
    unfold within. repeat split; lia. }
  destruct (totals_loop_within g scores 0 initial_totals ltac:(lia) Hg Hrow0 Hall ltac:(lia))
    as (totals & -> & Hrow).
  cbn [bind].
  destruct (divide_all_within _ (Z.of_nat (length scores)) totals Hrow ltac:(lia) ltac:(lia))
    as (q1 & q2 & q3 & q4 & q5 & q6 & ->).
  cbn [bind].
  destruct (sum_rates_within g (dict_values scores) (PyInt 0) ltac:(unfold within; lia))
    as (s & -> & Hs).
  { intros e He. unfold dict_values in He. apply in_map_iff in He.
    destruct He as ([k e'] & <- & Hin). apply (Hall k e' Hin). }
  cbn [bind].
  destruct (Z.ltb_spec 0 (Z.of_nat (length scores))); [|lia].
  assert (Hlimit : 0 < 2 ^ 1000) by (apply Z.pow_pos_nonneg; lia).
  destruct (py_truediv_within 0 s (Z.of_nat (length scores)) Hs Hlimit ltac:(lia))
    as (f & ->).
  cbn [bind]. eexists. split; reflexivity.
Qed.

Lemma within_of_value b x :
  (0 <= num_value x)%Q -> (num_value x <= inject_Z b)%Q -> within b x.
Proof.
  destruct x as [z|f]; simpl; [|auto]. intros H1 H2.
  rewrite <- (Zle_Qle 0) in H1. rewrite <- Zle_Qle in H2. lia.
Qed.

Lemma rate_of_shape t S q :
  rate_of t S = Ok q -> q = PyInt 0 \/ exists f, q = PyFloat f.
Proof.
  unfold rate_of. destruct (0 <? S); [|intros [= <-]; left; reflexivity].
  unfold py_truediv. destruct (S =? 0); [discriminate|].
  destruct (no_overflow _) as [f|e]; [|discriminate]. cbn [bind].
  rewrite py_mul_float_100. intros [= <-]. right. eauto.
Qed.

Lemma result_entry_within ps ui mc k e :
  well_formed ps ->
  In (k, e) (ranked_result (analyzer_of ps) ui mc) ->
  entry_within (grand_total (analyzer_of ps)) e.
Proof.
  intros Hwf Hin.
  destruct (result_entry_rate ps ui mc k e Hwf Hin) as (q & Hq & Hrate & Hb).
  pose proof (ranked_entry_fields ps ui mc k e Hwf Hin)
    as (Hsum & H1 & H2 & H3 & H4 & H5 & _).
  unfold fields_sum in Hsum.
  assert (Hle : (inject_Z (total e) <= inject_Z (grand_total (analyzer_of ps)))%Q)
    by (rewrite <- Zle_Qle; lia).
  unfold entry_within.
  repeat (split; [apply within_of_value; [assumption | lra]|]).
  split; [exact Hb|].
  exists (py_round_1 q). split; [exact Hrate|].
  destruct (rate_of_shape _ _ _ Hq) as [->|[f ->]]; simpl; [lia | exact I].
Qed.

(** X12.  [calculate_averages] returns on the result of
    [calculate_scores] whenever the number of participants, and its
    product with the grand total, stay below [2^1000]. *)
Theorem averages_of_scores_return ps ui mc r :
  well_formed ps ->
  calculate_scores (analyzer_of ps) ui mc = Ok r ->
  Z.of_nat (length ps) < 2 ^ 1000 ->
  Z.of_nat (length ps) * grand_total (analyzer_of ps) < 2 ^ 1000 ->
  exists averages,
    calculate_averages (analyzer_of ps) r = Ok averages /\
    dict_keys averages = dict_keys zero_averages.
Proof.
  intros Hwf Hr Hn Hb.
  rewrite calculate_scores_unfold in Hr by exact Hwf. injection Hr as <-.
  assert (Hlen' : (length (ranked_result (analyzer_of ps) ui mc) <= length ps)%nat).
  { etransitivity; [apply ranked_result_length|]. apply List.filter_length_le. }
  assert (Hg : 0 <= grand_total (analyzer_of ps)).
  { destruct ps as [|p ps'] eqn:Eps; [reflexivity|]. rewrite <- Eps in *.
    pose proof (participant_total_bounds ps p Hwf ltac:(rewrite Eps; left; reflexivity)).
    lia. }
  apply (calculate_averages_returns _ (grand_total (analyzer_of ps))).
  - exact Hg.
  - intros k e Hin. apply (result_entry_within ps ui mc k e Hwf Hin).
  - nia.
  - lia.
Qed.

(** The theorem at [three_participants]. *)
Lemma averages_of_scores_return_witness :
  exists averages,
    calculate_averages (analyzer_of three_participants)
      (ranked_result (analyzer_of three_participants) None 0) = Ok averages.
Proof.
  destruct (averages_of_scores_return three_participants None 0 _ three_participants_wf
              (calculate_scores_unfold three_participants None 0 three_participants_wf))
    as (averages & Havg & _).
  - vm_compute. reflexivity.
  - vm_compute. reflexivity.
  - exists averages. exact Havg.
Defined.

(* ===================================================================== *)
(** * Properties of [get_emoji]                                           *)
(* ===================================================================== *)

Lemma canonical_digits m e :
  canonical_mantissa 53 1024 m e = true ->
  Zpos (digits2_pos m) <= 53 /\ emin 53 1024 <= e /\
  (emin 53 1024 < e -> Zpos (digits2_pos m) = 53).
Proof.
  unfold canonical_mantissa, fexp. intros H. apply Z.eqb_eq in H. lia.
Qed.

Lemma canonical_lt m1 e1 m2 e2 :
  canonical_mantissa 53 1024 m1 e1 = true ->
  canonical_mantissa 53 1024 m2 e2 = true ->
  e1 < e2 ->
  (inject_Z (Zpos m1) * pow2 e1 < inject_Z (Zpos m2) * pow2 e2)%Q.
Proof.
  intros H1 H2 Hlt.
  destruct (canonical_digits m1 e1 H1) as (Hd1 & He1 & _).
  destruct (canonical_digits m2 e2 H2) as (_ & _ & Hd2). specialize (Hd2 ltac:(lia)).
  pose proof (digits2_pos_bounds m1) as [_ Hb1].
  pose proof (digits2_pos_bounds m2) as [Hb2 _]. rewrite Hd2 in Hb2.
  assert (Hm1 : Zpos m1 < 2 ^ 53).
  { eapply Z.lt_le_trans; [exact Hb1|]. apply Z.pow_le_mono_r; lia. }
  replace e2 with ((e2 - e1) + e1) by lia.
  rewrite pow2_add, (pow2_nonneg (e2 - e1)) by lia.
  rewrite Qmult_assoc, <- inject_Z_mult.
  apply Qmult_lt_compat_r; [apply pow2_pos|].
  rewrite <- Zlt_Qlt.
  assert (2 ^ 1 <= 2 ^ (e2 - e1)) by (apply Z.pow_le_mono_r; lia).
  change (2 ^ 1) with 2 in *. change (2 ^ (53 - 1)) with (2 ^ 52) in Hb2.
  change (2 ^ 53) with (2 * 2 ^ 52) in Hm1. nia.
Qed.

Lemma SFcompare_ge f mg eg :
  valid_binary 53 1024 f = true ->
  is_finite (PyFloat f) = true ->
  canonical_mantissa 53 1024 mg eg = true ->
  match SFcompare f (S754_finite false mg eg) with
  | Some Gt | Some Eq => true
  | _ => false
  end = true <->
  (inject_Z (Zpos mg) * pow2 eg <= SF2Q f)%Q.
Proof.
  intros Hv Hf Hg. pose proof (pow2_pos eg) as Hpg.
  assert (Hgpos : (0 < inject_Z (Zpos mg) * pow2 eg)%Q).
  { apply Qmult_lt_0_compat; [rewrite <- (Zlt_Qlt 0); lia | exact Hpg]. }
  destruct f as [s|s| |s m e]; simpl in Hf; try discriminate.
  - simpl. split; [discriminate|]. intros H. exfalso. apply (Qlt_not_le _ _ Hgpos H).
  - simpl in Hv. unfold bounded in Hv. apply andb_true_iff in Hv. destruct Hv as [Hc _].
    pose proof (pow2_pos e) as Hpe.
    destruct s; simpl.
    + split; [discriminate|]. intros H. exfalso.
      assert (inject_Z (Z.neg m) * pow2 e < 0)%Q.
      { assert (inject_Z (Z.neg m) < 0)%Q by (rewrite <- (Zlt_Qlt _ 0); lia). nra. }
      apply (Qlt_not_le _ _ Hgpos). eapply Qle_trans; [exact H|]. apply Qlt_le_weak. exact H0.
    + destruct (Z.compare_spec e eg) as [->|Hlt|Hgt].
      * rewrite Pos.compare_cont_spec. simpl.
        destruct (Pos.compare_spec m mg) as [->|Hm|Hm]; simpl.
        -- split; [intros _; apply Qle_refl | reflexivity].
        -- split; [discriminate|]. intros H. exfalso.
           assert (inject_Z (Zpos m) < inject_Z (Zpos mg))%Q by (rewrite <- Zlt_Qlt; lia).
           nra.
        -- split; [|reflexivity]. intros _.
           assert (inject_Z (Zpos mg) < inject_Z (Zpos m))%Q by (rewrite <- Zlt_Qlt; lia).
           nra.
      * split; [discriminate|]. intros H. exfalso.
        pose proof (canonical_lt m e mg eg Hc Hg Hlt). apply (Qlt_not_le _ _ H0 H).
      * split; [|reflexivity]. intros _. apply Qlt_le_weak.
        apply canonical_lt; auto; lia.
Qed.

Lemma py_ge_spec x n mg eg :
  valid_num x = true -> is_finite x = true ->
  binary_normalize 53 1024 n 0 false = S754_finite false mg eg ->
  canonical_mantissa 53 1024 mg eg = true ->
  (inject_Z (Zpos mg) * pow2 eg == inject_Z n)%Q ->
  (py_ge x n = true <-> (inject_Z n <= num_value x)%Q).
Proof.
  intros Hv Hf Hn Hc Hval. destruct x as [z|f]; simpl.
  - rewrite Z.leb_le, Zle_Qle. tauto.
  - rewrite Hn, <- Hval. apply SFcompare_ge; auto.
Qed.

Lemma py_ge_decade x k :
  valid_num x = true -> is_finite x = true ->
  In k [1; 2; 3; 4; 5; 6; 7; 8; 9] ->
  py_ge x (10 * k) = (k <=? Qfloor (num_value x / 10)).
Proof.
  intros Hv Hf Hk.
  assert (Hspec : py_ge x (10 * k) = true <-> (inject_Z (10 * k) <= num_value x)%Q).
  { simpl in Hk.
    destruct Hk as [<-|[<-|[<-|[<-|[<-|[<-|[<-|[<-|[<-|[]]]]]]]]]];
      (eapply py_ge_spec; [exact Hv | exact Hf | vm_compute; reflexivity
                          | vm_compute; reflexivity | vm_compute; reflexivity]). }
  assert (Hfloor : (inject_Z (10 * k) <= num_value x)%Q <-> k <= Qfloor (num_value x / 10)).
  { rewrite inject_Z_mult. change (inject_Z 10) with 10%Q.
    pose proof (Qfloor_le (num_value x / 10)) as Hlo.
    pose proof (Qlt_floor (num_value x / 10)) as Hhi.
    assert (Hdiv : (num_value x / 10 * 10 == num_value x)%Q) by (field; discriminate).
    set (v := num_value x) in *. set (w := (v / 10)%Q) in *. clearbody w. clearbody v.
    split.
    - intros H. assert (Hk' : (inject_Z k <= w)%Q) by lra.
      apply Qfloor_resp_le in Hk'. rewrite Qfloor_Z in Hk'. exact Hk'.
    - intros H. rewrite Zle_Qle in H. lra. }
  destruct (Z.leb_spec k (Qfloor (num_value x / 10))) as [Hle|Hgt].
  - apply Hspec, Hfloor. exact Hle.
  - destruct (py_ge x (10 * k)) eqn:E; [|reflexivity].
    exfalso. assert (k <= Qfloor (num_value x / 10)) by (apply Hfloor, Hspec; reflexivity).
    lia.
Qed.

(** X13.  The emoji depends on the tens of the score only: for an integer
    or a finite float it is the entry of [emoji_table] for the decade of
    the score, the decades below 0 and above 9 counting as 0 and 9. *)
Theorem get_emoji_by_decade (score : pynum) :
  valid_num score = true -> is_finite score = true ->
  get_emoji score = nth (Z.to_nat (decade score)) emoji_table "🌑".
Proof.
  intros Hv Hf. unfold get_emoji, decade.
  change 90 with (10 * 9). change 80 with (10 * 8). change 70 with (10 * 7).
  change 60 with (10 * 6). change 50 with (10 * 5). change 40 with (10 * 4).
  change 30 with (10 * 3). change 20 with (10 * 2). change 10 with (10 * 1) at 9.
  rewrite !(py_ge_decade score _ Hv Hf) by (simpl; tauto).
  set (d := Qfloor (num_value score / 10)).
  destruct (Z.leb_spec 9 d); [replace (Z.max 0 (Z.min 9 d)) with 9 by lia; reflexivity|].
  destruct (Z.leb_spec 8 d); [replace (Z.max 0 (Z.min 9 d)) with 8 by lia; reflexivity|].
  destruct (Z.leb_spec 7 d); [replace (Z.max 0 (Z.min 9 d)) with 7 by lia; reflexivity|].
  destruct (Z.leb_spec 6 d); [replace (Z.max 0 (Z.min 9 d)) with 6 by lia; reflexivity|].
  destruct (Z.leb_spec 5 d); [replace (Z.max 0 (Z.min 9 d)) with 5 by lia; reflexivity|].
  destruct (Z.leb_spec 4 d); [replace (Z.max 0 (Z.min 9 d)) with 4 by lia; reflexivity|].
  destruct (Z.leb_spec 3 d); [replace (Z.max 0 (Z.min 9 d)) with 3 by lia; reflexivity|].
  destruct (Z.leb_spec 2 d); [replace (Z.max 0 (Z.min 9 d)) with 2 by lia; reflexivity|].
  destruct (Z.leb_spec 1 d); [replace (Z.max 0 (Z.min 9 d)) with 1 by lia; reflexivity|].
  replace (Z.max 0 (Z.min 9 d)) with 0 by lia. reflexivity.
Qed.

(** The theorem at the float 85.75. *)
Lemma get_emoji_by_decade_witness :
  get_emoji (PyFloat (S754_finite false 6034119813234688 (-46))) =
  nth 8 emoji_table "🌑".
Proof.
  rewrite (get_emoji_by_decade (PyFloat (S754_finite false 6034119813234688 (-46))));
    reflexivity.
Defined.

(* ===================================================================== *)
(** * Properties of the data collection                                   *)
(* ===================================================================== *)

Lemma counters_ok_new : counters_ok Collector.new_counters = true.
Proof. reflexivity. Qed.

Lemma counters_ok_spec info :
  counters_ok info = true <->
  (exists a b c d e, 0 <= a /\ 0 <= b /\ 0 <= c /\ 0 <= d /\ 0 <= e /\
     info !! "p_enhancement" = Some a /\ info !! "p_bug" = Some 0 /\
     info !! "p_documentation" = Some b /\ info !! "p_typo" = Some c /\
     info !! "i_enhancement" = Some d /\ info !! "i_bug" = Some 0 /\
     info !! "i_documentation" = Some e).
Proof.
  unfold counters_ok, counter_keys. cbn [forallb].
  rewrite !andb_true_iff, !bool_decide_eq_true. split.
  - intros [[(H1 & _ & H3 & H4 & H5 & _ & H7 & _) Hp] Hi].
    destruct (info !! "p_enhancement") as [a|]; [|discriminate].
    destruct (info !! "p_documentation") as [b|]; [|discriminate].
    destruct (info !! "p_typo") as [c|]; [|discriminate].
    destruct (info !! "i_enhancement") as [d|]; [|discriminate].
    destruct (info !! "i_documentation") as [e|]; [|discriminate].
    apply Z.leb_le in H1, H3, H4, H5, H7.
    exists a, b, c, d, e. repeat split; auto.
  - intros (a & b & c & d & e & Ha & Hb & Hc & Hd & He & -> & -> & -> & -> & -> & -> & ->).
    repeat split; auto; apply Z.leb_le; lia.
Qed.

Lemma counters_ok_credit info key n :
  counters_ok info = true -> In key credited_keys -> info !! key = Some n ->
  counters_ok (<[key := n + 1]> info) = true.
Proof.
  intros Hok Hkey Hn. apply counters_ok_spec in Hok.
  destruct Hok as (a & b & c & d & e & Ha & Hb & Hc & Hd & He & H1 & H2 & H3 & H4 & H5 & H6 & H7).
  apply counters_ok_spec.
  simpl in Hkey.
  destruct Hkey as [<-|[<-|[<-|[<-|[<-|[]]]]]];
    rewrite ?H1, ?H3, ?H4, ?H5, ?H7 in Hn; injection Hn as <-.
  - exists (a + 1), b, c, d, e. rewrite lookup_insert_eq, !lookup_insert_ne by discriminate.
    repeat split; auto; lia.
  - exists a, (b + 1), c, d, e. rewrite lookup_insert_eq, !lookup_insert_ne by discriminate.
    repeat split; auto; lia.
  - exists a, b, (c + 1), d, e. rewrite lookup_insert_eq, !lookup_insert_ne by discriminate.
    repeat split; auto; lia.
  - exists a, b, c, (d + 1), e. rewrite lookup_insert_eq, !lookup_insert_ne by discriminate.
    repeat split; auto; lia.
  - exists a, b, c, d, (e + 1). rewrite lookup_insert_eq, !lookup_insert_ne by discriminate.
    repeat split; auto; lia.
Qed.

Lemma counters_ok_nonneg info : counters_ok info = true -> nonneg_counts info = true.
Proof.
  intros H. apply counters_ok_spec in H.
  destruct H as (a & b & c & d & e & Ha & Hb & Hc & Hd & He & H1 & H2 & H3 & H4 & H5 & H6 & H7).
  unfold nonneg_counts, get_count. cbn [forallb].
  rewrite H1, H2, H3, H4, H5, H6, H7. simpl.
  rewrite !andb_true_iff, !Z.leb_le. lia.
Qed.

Lemma counters_ok_credited info key :
  counters_ok info = true -> In key credited_keys ->
  info !! key = Some (get_count info key).
Proof.
  intros Hok Hk. apply counters_ok_spec in Hok.
  destruct Hok as (a & b & c & d & e & _ & _ & _ & _ & _ & H1 & _ & H3 & H4 & H5 & _ & H7).
  unfold get_count. simpl in Hk.
  destruct Hk as [<-|[<-|[<-|[<-|[<-|[]]]]]];
    rewrite ?H1, ?H3, ?H4, ?H5, ?H7; reflexivity.
Qed.

Lemma collected_well_formed (ps : list (string * gmap string Z)) :
  collected ps -> well_formed ps.
Proof.
  intros [Hnd Hall]. split; [exact Hnd|].
  rewrite forallb_forall in *. intros p Hp. apply counters_ok_nonneg, Hall, Hp.
Qed.

Lemma collected_nil {K} : collected (@nil (K * gmap string Z)).
Proof. split; [constructor | reflexivity]. Qed.

Lemma collected_In {K} (ps : list (K * gmap string Z)) k info :
  collected ps -> In (k, info) ps -> counters_ok info = true.
Proof.
  intros [_ Hall] Hin. rewrite forallb_forall in Hall. apply (Hall (k, info) Hin).
Qed.

Lemma collected_filter {K} (f : K * gmap string Z -> bool) ps :
  collected ps -> collected (List.filter f ps).
Proof.
  intros [Hnd Hall]. split; [apply NoDup_map_filter; exact Hnd|].
  rewrite forallb_forall in *. intros p Hp. apply List.filter_In in Hp. apply Hall, Hp.
Qed.

Lemma collected_keyed (ps : list (string * gmap string Z)) :
  collected (keyed ps) -> collected ps.
Proof.
  unfold keyed. intros [Hnd Hall]. split.
  - rewrite List.map_map in Hnd. simpl in Hnd.
    rewrite <- (List.map_map fst Collector.KStr) in Hnd.
    apply NoDup_map_inv in Hnd. exact Hnd.
  - rewrite forallb_forall in *. intros p Hp.
    apply (Hall (Collector.KStr (fst p), snd p)).
    apply in_map_iff. exists p. auto.
Qed.

(** ** Dictionaries in insertion order, with any key *)

Section Lookup.
Context {V : Type}.
Implicit Types (d : list (Collector.key * V)) (k : Collector.key) (v : V).

Lemma lookup_store d k v k' :
  Collector.lookup (Collector.store d k v) k' =
  if bool_decide (k = k') then Some v else Collector.lookup d k'.
Proof.
  induction d as [|[k0 v0] d IH]; simpl.
  - reflexivity.
  - destruct (bool_decide_reflect (k0 = k)) as [->|Hne]; simpl.
    + destruct (bool_decide_reflect (k = k')); reflexivity.
    + rewrite IH. destruct (bool_decide_reflect (k0 = k')) as [->|Hne'].
      * destruct (bool_decide_reflect (k = k')); [congruence | reflexivity].
      * reflexivity.
Qed.

Lemma store_keys d k v :
  forall k', In k' (map fst (Collector.store d k v)) <-> k' = k \/ In k' (map fst d).
Proof.
  induction d as [|[k0 v0] d IH]; simpl; intros k'.
  - intuition.
  - destruct (bool_decide_reflect (k0 = k)) as [->|Hne]; simpl.
    + intuition.
    + rewrite IH. intuition.
Qed.

Lemma store_NoDup d k v :
  List.NoDup (map fst d) -> List.NoDup (map fst (Collector.store d k v)).
Proof.
  induction d as [|[k0 v0] d IH]; simpl; intros Hd.
  - apply List.NoDup_cons_iff. split; [apply in_nil | apply List.NoDup_nil].
  - apply List.NoDup_cons_iff in Hd. destruct Hd as [Hk0 Hd].
    destruct (bool_decide_reflect (k0 = k)) as [->|Hne]; simpl.
    + apply List.NoDup_cons_iff. split; assumption.
    + apply List.NoDup_cons_iff. split; [|apply IH; exact Hd].
      rewrite store_keys. intros [H|H]; [congruence | contradiction].
Qed.

Lemma store_In d k v k' v' :
  In (k', v') (Collector.store d k v) -> (k' = k /\ v' = v) \/ In (k', v') d.
Proof.
  induction d as [|[k0 v0] d IH]; simpl.
  - intros [[= <- <-]|[]]. left. auto.
  - destruct (bool_decide_reflect (k0 = k)) as [->|Hne]; simpl.
    + intros [[= <- <-]|H]; [left; auto | right; right; exact H].
    + intros [H|H]; [right; left; exact H|].
      destruct (IH H) as [?|?]; [left; assumption | right; right; assumption].
Qed.

Lemma lookup_In d k v :
  List.NoDup (map fst d) -> (Collector.lookup d k = Some v <-> In (k, v) d).
Proof.
  induction d as [|[k0 v0] d IH]; simpl; intros Hd.
  - split; [discriminate | intros []].
  - apply List.NoDup_cons_iff in Hd. destruct Hd as [Hk0 Hd].
    destruct (bool_decide_reflect (k0 = k)) as [->|Hne].
    + split.
      * intros [= ->]. left. reflexivity.
      * intros [[= ->]|H]; [reflexivity|].
        exfalso. apply Hk0. apply (in_map fst) in H. exact H.
    + rewrite (IH Hd). split; [intros H; right; exact H|].
      intros [[= -> ->]|H]; [congruence | exact H].
Qed.

Lemma lookup_filter_keys (f : Collector.key -> bool) d k :
  Collector.lookup (List.filter (fun '(u, _) => f u) d) k =
  if f k then Collector.lookup d k else None.
Proof.
  induction d as [|[u v] d IH]; simpl.
  - destruct (f k); reflexivity.
  - destruct (f u) eqn:Hu; simpl.
    + destruct (bool_decide_reflect (u = k)) as [->|Hne]; [rewrite Hu; reflexivity | exact IH].
    + destruct (bool_decide_reflect (u = k)) as [->|Hne];
        [rewrite Hu, IH, Hu; reflexivity | exact IH].
Qed.

End Lookup.

Lemma collected_store (ps : list (Collector.key * gmap string Z)) k info :
  collected ps -> counters_ok info = true -> collected (Collector.store ps k info).
Proof.
  intros [Hnd Hall] Hok. split; [apply store_NoDup; exact Hnd|].
  rewrite forallb_forall in *. intros [k' info'] Hin.
  apply store_In in Hin. destruct Hin as [[_ ->]|Hin]; [exact Hok|].
  apply (Hall _ Hin).
Qed.

(** ** What the expressions raise *)

Lemma py_get_raises v key default e :
  Collector.py_get v key default = Collector.Raises e -> e = Collector.AttributeError.
Proof. destruct v; simpl; congruence. Qed.

Lemma py_in_raises key v e :
  Collector.py_in key v = Collector.Raises e -> e = Collector.TypeError.
Proof. destruct v; simpl; congruence. Qed.

Lemma py_iter_raises v e :
  Collector.py_iter v = Collector.Raises e -> e = Collector.TypeError.
Proof. destruct v; simpl; congruence. Qed.

Lemma py_hash_raises v e :
  Collector.py_hash v = Collector.Raises e -> e = Collector.TypeError.
Proof. destruct v as [| |[]| | |]; simpl; congruence. Qed.

(** [item[key]] does not raise [KeyError] after [key in item]. *)
Lemma py_item_raises key v e :
  Collector.py_in key v = Collector.Returns true ->
  Collector.py_item v key = Collector.Raises e -> e = Collector.TypeError.
Proof.
  destruct v; simpl; try congruence.
  destruct (dict_get members key); congruence.
Qed.

Lemma and_then_raises {A B} (m : Collector.evaluated A) (k : A -> Collector.evaluated B)
  (P : Collector.error -> Prop) :
  (forall e, m = Collector.Raises e -> P e) ->
  (forall a, m = Collector.Returns a -> forall e, k a = Collector.Raises e -> P e) ->
  forall e, Collector.and_then m k = Collector.Raises e -> P e.
Proof.
  intros Hm Hk e. destruct m as [a|e']; simpl.
  - apply (Hk a eq_refl e).
  - intros [= <-]. apply Hm. reflexivity.
Qed.

Lemma author_of_raises item : forall e,
  Collector.author_of item = Collector.Raises e ->
  e = Collector.AttributeError \/ e = Collector.TypeError.
Proof.
  unfold Collector.author_of. apply and_then_raises.
  - intros e H. left. exact (py_get_raises _ _ _ _ H).
  - intros user _. apply and_then_raises.
    + intros e H. left. exact (py_get_raises _ _ _ _ H).
    + intros author _ e H. right. exact (py_hash_raises _ _ H).
Qed.

Lemma names_of_raises labels : forall e,
  Collector.names_of labels = Collector.Raises e -> e = Collector.AttributeError.
Proof.
  induction labels as [|label rest IH]; cbn [Collector.names_of]; [discriminate|].
  apply and_then_raises.
  - intros e H. exact (py_get_raises _ _ _ _ H).
  - intros name _. destruct (Collector.py_bool name); [|apply IH].
    apply and_then_raises.
    + intros e H. exact (py_get_raises _ _ _ _ H).
    + intros name' _. apply and_then_raises; [exact IH | discriminate].
Qed.

Lemma label_names_of_raises item : forall e,
  Collector.label_names_of item = Collector.Raises e ->
  e = Collector.AttributeError \/ e = Collector.TypeError.
Proof.
  unfold Collector.label_names_of. apply and_then_raises.
  - intros e H. left. exact (py_get_raises _ _ _ _ H).
  - intros labels _. apply and_then_raises.
    + intros e H. right. exact (py_iter_raises _ _ H).
    + intros labels' _ e H. left. exact (names_of_raises _ _ H).
Qed.

Lemma merged_pull_request_raises item : forall e,
  Collector.merged_pull_request item = Collector.Raises e ->
  e = Collector.AttributeError \/ e = Collector.TypeError.
Proof.
  unfold Collector.merged_pull_request. apply and_then_raises.
  - intros e H. right. exact (py_in_raises _ _ _ H).
  - intros [|] _; [|discriminate]. apply and_then_raises.
    + intros e H. left. exact (py_get_raises _ _ _ _ H).
    + intros pr _. apply and_then_raises; [|discriminate].
      intros e H. left. exact (py_get_raises _ _ _ _ H).
Qed.

Section CollectorFacts.

Context {datetime date : Type}.
Variable fromisoformat : string -> option datetime.
Variable week_index_of : date -> datetime -> option Z.
Variable max_datetime : datetime -> datetime -> option datetime.
Variable get_issues : Z -> option Collector.issues_response.

Abbreviation analyzer := (Collector.analyzer datetime date).

Lemma item_post_refl (self : analyzer) :
  collected (Collector.participants self) -> item_post self (Collector.Next, self).
Proof. intros H. unfold item_post. simpl. auto. Qed.

Lemma item_post_same (self self1 : analyzer) out :
  same_collection self1 self -> item_post self1 out -> item_post self out.
Proof.
  intros (_ & H2 & H3) (Q1 & Q2 & Q3 & Q4). unfold item_post.
  rewrite <- H2, <- H3. auto.
Qed.

(** A statement that evaluates an expression. *)
Lemma evaluate_post {A} (self : analyzer) (m : Collector.evaluated A) k :
  collected (Collector.participants self) ->
  (forall e, m = Collector.Raises e -> In e item_errors) ->
  (forall a, m = Collector.Returns a -> item_post self (k a)) ->
  item_post self (Collector.evaluate m self k).
Proof.
  intros Hc Hm Hk. destruct m as [a|e]; simpl.
  - apply Hk. reflexivity.
  - unfold item_post. simpl. split; [exact Hc|]. split; [reflexivity|].
    split; [reflexivity|]. apply Hm. reflexivity.
Qed.

Lemma credit_post (author : Collector.key) (counter : string) (self : analyzer) :
  collected (Collector.participants self) ->
  Collector.lookup (Collector.participants self) author <> None ->
  In counter credited_keys ->
  item_post self (Collector.credit author counter self).
Proof.
  intros Hc Ha Hk. unfold Collector.credit.
  destruct (Collector.lookup (Collector.participants self) author) as [info|] eqn:Hinfo;
    [|congruence].
  assert (Hok : counters_ok info = true).
  { apply (collected_In _ author info Hc). apply lookup_In; [apply Hc | exact Hinfo]. }
  rewrite (counters_ok_credited info counter Hok Hk). unfold item_post. simpl.
  split; [|auto]. apply collected_store; [exact Hc|].
  apply counters_ok_credit; auto. apply counters_ok_credited; assumption.
Qed.

Lemma credit_pull_request_post merged label_names author (self : analyzer) :
  collected (Collector.participants self) ->
  Collector.lookup (Collector.participants self) author <> None ->
  item_post self (Collector.credit_pull_request merged label_names author self).
Proof.
  intros Hc Ha. unfold Collector.credit_pull_request.
  destruct merged; [|apply item_post_refl; exact Hc].
  destruct label_names as [|first_label rest]; [apply item_post_refl; exact Hc|].
  destruct (_ || _); [apply credit_post; simpl; auto|].
  destruct (Collector.py_eq_str first_label "documentation");
    [apply credit_post; simpl; auto|].
  destruct (Collector.py_eq_str first_label "typo"); [apply credit_post; simpl; auto|].
  apply item_post_refl; exact Hc.
Qed.

Lemma credit_issue_post state_reason label_names author (self : analyzer) :
  collected (Collector.participants self) ->
  Collector.lookup (Collector.participants self) author <> None ->
  item_post self (Collector.credit_issue state_reason label_names author self).
Proof.
  intros Hc Ha. unfold Collector.credit_issue.
  destruct (Collector.counted_reason state_reason); [|apply item_post_refl; exact Hc].
  destruct label_names as [|first_label rest]; [apply item_post_refl; exact Hc|].
  destruct (_ || _); [apply credit_post; simpl; auto|].
  destruct (Collector.py_eq_str first_label "documentation");
    [apply credit_post; simpl; auto 10|].
  apply item_post_refl; exact Hc.
Qed.

Lemma count_week_same (self self1 : analyzer) item server_create_datetime :
  Collector.count_week week_index_of self item server_create_datetime
  = Collector.Returns self1 ->
  same_collection self1 self.
Proof.
  unfold Collector.count_week, same_collection.
  destruct (Collector.semester_start_date self) as [start|]; [|intros [= <-]; auto].
  destruct (week_index_of start server_create_datetime) as [week_index|]; [|discriminate].
  destruct (Collector.merged_pull_request item) as [[|]|]; simpl; [| |discriminate].
  - intros [= <-]. unfold Collector.count_week_pr. destruct (default _ _). simpl. auto.
  - destruct (Collector.py_get item "state_reason" Collector.JNull) as [state_reason|];
      simpl; [|discriminate].
    destruct (Collector.counted_reason state_reason); intros [= <-]; [|auto].
    unfold Collector.count_week_issue. destruct (default _ _). simpl. auto.
Qed.

Lemma count_week_raises (self : analyzer) item server_create_datetime : forall e,
  Collector.count_week week_index_of self item server_create_datetime
  = Collector.Raises e ->
  In e item_errors.
Proof.
  unfold Collector.count_week.
  destruct (Collector.semester_start_date self) as [start|]; [|discriminate].
  destruct (week_index_of start server_create_datetime) as [week_index|];
    [|intros e [= <-]; simpl; auto].
  apply and_then_raises.
  - intros e H. destruct (merged_pull_request_raises _ _ H) as [-> | ->]; simpl; auto.
  - intros [|] _; [discriminate|]. apply and_then_raises.
    + intros e H. rewrite (py_get_raises _ _ _ _ H). simpl. auto.
    + intros state_reason _ e. destruct (Collector.counted_reason state_reason); discriminate.
Qed.

Lemma register_post author (self : analyzer) :
  collected (Collector.participants self) ->
  collected (Collector.participants (Collector.register author self)) /\
  Collector.lookup (Collector.participants (Collector.register author self)) author <> None /\
  Collector.requests (Collector.register author self) = Collector.requests self /\
  Collector._data_collected (Collector.register author self) =
    Collector._data_collected self.
Proof.
  intros Hc. unfold Collector.register.
  destruct (Collector.lookup (Collector.participants self) author) eqn:E.
  - split; [exact Hc|]. split; [rewrite E; discriminate | auto].
  - simpl. split; [apply collected_store;
                   [exact Hc | apply counters_ok_new]|].
    split; [|auto]. rewrite lookup_store.
    destruct (bool_decide_reflect (author = author)); [discriminate | congruence].
Qed.

Lemma process_item_post get_pull (self : analyzer) item :
  collected (Collector.participants self) ->
  item_post self
    (Collector.process_item fromisoformat week_index_of max_datetime get_pull self item).
Proof.
  intros Hc. unfold Collector.process_item.
  apply evaluate_post; [exact Hc | |].
  { intros e H. rewrite (py_in_raises _ _ _ H). simpl. auto. }
  intros [|] Hcreated; simpl; [|unfold item_post; simpl; auto].
  apply evaluate_post; [exact Hc | |].
  { intros e H. rewrite (py_item_raises _ _ _ Hcreated H). simpl. auto. }
  intros created_at _.
  apply evaluate_post; [exact Hc | |].
  { intros e. unfold Collector.parse_datetime. destruct created_at; try (intros [= <-]; simpl; auto).
    destruct (fromisoformat s); [discriminate | intros [= <-]; simpl; auto]. }
  intros server_create_datetime _.
  apply evaluate_post; [exact Hc | apply count_week_raises |].
  intros self1 H1. apply count_week_same in H1.
  assert (Hc1 : collected (Collector.participants self1)) by (destruct H1 as [-> _]; exact Hc).
  apply (item_post_same self self1); [exact H1|]. clear H1 Hc self.
  apply evaluate_post; [exact Hc1 | |].
  { intros e. unfold Collector.latest_of.
    destruct (Collector.__previous_create_at self1) as [previous|]; [|discriminate].
    destruct (max_datetime previous server_create_datetime);
      [discriminate | intros [= <-]; simpl; auto]. }
  intros latest _.
  set (self2 := Collector.set_previous_create_at (Some latest) self1).
  assert (Hc2 : collected (Collector.participants self2)) by exact Hc1.
  apply (item_post_same self1 self2); [unfold same_collection; auto|].
  clearbody self2. clear Hc1 self1.
  apply evaluate_post; [exact Hc2 | |].
  { intros e H. destruct (author_of_raises _ _ H) as [-> | ->]; simpl; auto. }
  intros author _.
  destruct (register_post author self2 Hc2) as (Hc3 & Ha3 & Hr3 & Hd3).
  set (self3 := Collector.register author self2) in *. clearbody self3.
  assert (Hlift : forall out, item_post self3 out -> item_post self2 out).
  { intros out (Q1 & Q2 & Q3 & Q4). unfold item_post. rewrite <- Hr3, <- Hd3. auto. }
  apply Hlift. clear Hlift Hr3 Hd3 Hc2 self2.
  apply evaluate_post; [exact Hc3 | |].
  { intros e H. destruct (label_names_of_raises _ _ H) as [-> | ->]; simpl; auto. }
  intros label_names _.
  apply evaluate_post; [exact Hc3 | |].
  { intros e H. rewrite (py_get_raises _ _ _ _ H). simpl. auto. }
  intros state_reason _.
  apply evaluate_post; [exact Hc3 | |].
  { intros e H. rewrite (py_in_raises _ _ _ H). simpl. auto. }
  intros [|] Hpr; [|apply credit_issue_post; assumption].
  apply evaluate_post; [exact Hc3 | |].
  { intros e H. rewrite (py_get_raises _ _ _ _ H). simpl. auto. }
  intros pr_number _.
  destruct (Collector.is_none pr_number); [apply item_post_refl; exact Hc3|].
  rewrite Hpr. simpl.
  apply evaluate_post; [exact Hc3 | |].
  { intros e H. rewrite (py_get_raises _ _ _ _ H). simpl. auto. }
  intros pr_number' _.
  destruct (Collector.is_none pr_number'); [apply item_post_refl; exact Hc3|].
  apply evaluate_post; [exact Hc3 | |].
  { intros e H. rewrite (py_get_raises _ _ _ _ H). simpl. auto. }
  intros pull_request _.
  apply evaluate_post; [exact Hc3 | |].
  { intros e H. rewrite (py_get_raises _ _ _ _ H). simpl. auto. }
  intros merged_at_inline _.
  apply credit_pull_request_post; assumption.
Qed.

(** The fallback request for the details of a pull request is dead
    code: the answers to it do not matter. *)
Lemma process_item_pull_irrelevant get_pull get_pull' (self : analyzer) item :
  Collector.process_item fromisoformat week_index_of max_datetime get_pull self item =
  Collector.process_item fromisoformat week_index_of max_datetime get_pull' self item.
Proof.
  unfold Collector.process_item, Collector.evaluate.
  destruct (Collector.py_in "created_at" item) as [[|]|]; simpl; try reflexivity.
  destruct (Collector.py_item item "created_at") as [created_at|]; [|reflexivity].
  destruct (Collector.parse_datetime _ _) as [server_create_datetime|]; [|reflexivity].
  destruct (Collector.count_week _ _ _ _) as [self1|]; [|reflexivity].
  destruct (Collector.latest_of _ _ _) as [latest|]; [|reflexivity].
  destruct (Collector.author_of item) as [author|]; [|reflexivity].
  destruct (Collector.label_names_of item) as [label_names|]; [|reflexivity].
  destruct (Collector.py_get item "state_reason" Collector.JNull); [|reflexivity].
  destruct (Collector.py_in "pull_request" item) as [[|]|]; reflexivity.
Qed.

Lemma process_items_post get_pull items : forall (self : analyzer),
  collected (Collector.participants self) ->
  item_post self
    (Collector.process_items fromisoformat week_index_of max_datetime get_pull self items).
Proof.
  induction items as [|item rest IH]; intros self Hc; [apply item_post_refl; exact Hc|].
  cbn [Collector.process_items].
  pose proof (process_item_post get_pull self item Hc) as H.
  destruct (Collector.process_item _ _ _ _ self item) as [sig self'].
  destruct H as (Q1 & Q2 & Q3 & Q4). simpl in Q1, Q2, Q3, Q4.
  destruct sig; try (unfold item_post; simpl; auto; fail).
  specialize (IH self' Q1). destruct IH as (R1 & R2 & R3 & R4).
  unfold item_post. rewrite R2, R3. auto.
Qed.

Lemma process_items_pull_irrelevant get_pull get_pull' items : forall (self : analyzer),
  Collector.process_items fromisoformat week_index_of max_datetime get_pull self items =
  Collector.process_items fromisoformat week_index_of max_datetime get_pull' self items.
Proof.
  induction items as [|item rest IH]; intros self; [reflexivity|].
  cbn [Collector.process_items]. rewrite (process_item_pull_irrelevant get_pull get_pull').
  destruct (Collector.process_item _ _ _ _ self item) as [[| |e] self']; auto.
Qed.

End CollectorFacts.

Section CollectionTheorems.

Context {datetime date : Type}.
Variable fromisoformat : string -> option datetime.
Variable week_index_of : date -> datetime -> option Z.
Variable max_datetime : datetime -> datetime -> option datetime.
Variable get_issues : Z -> option Collector.issues_response.
Variable get_pull : Collector.jvalue -> option Collector.pull_response.

Abbreviation analyzer := (Collector.analyzer datetime date).

Abbreviation process_item :=
  (Collector.process_item fromisoformat week_index_of max_datetime get_pull).

Abbreviation collect_pages :=
  (Collector.collect_pages fromisoformat week_index_of max_datetime get_issues get_pull).

Abbreviation collect_PRs_and_issues :=
  (Collector.collect_PRs_and_issues fromisoformat week_index_of max_datetime
     get_issues get_pull).

Lemma pages_from_S page n :
  pages_from page (S n) = Collector.IssuesPage page :: pages_from (page + 1) n.
Proof.
  unfold pages_from. simpl. rewrite Z.add_0_r. f_equal.
  rewrite <- seq_shift, List.map_map. apply map_ext. intros i. f_equal. lia.
Qed.

Lemma handle_api_error_keeps (self : analyzer) (status_code : Z) :
  Collector.participants (snd (Collector._handle_api_error self status_code)) =
    Collector.participants self /\
  Collector.requests (snd (Collector._handle_api_error self status_code)) =
    Collector.requests self.
Proof.
  unfold Collector._handle_api_error.
  destruct (existsb _ _); [simpl; auto|]. destruct (negb _); simpl; auto.
Qed.

Lemma handle_api_error_failed (self : analyzer) (status_code : Z) :
  status_code <> 200 ->
  fst (Collector._handle_api_error self status_code) = true /\
  Collector._data_collected (snd (Collector._handle_api_error self status_code)) = false.
Proof.
  intros Hne. apply Z.eqb_neq in Hne. unfold Collector._handle_api_error.
  destruct (existsb _ _); [simpl; auto|]. rewrite Hne. simpl. auto.
Qed.

(** X14.  [_handle_api_error] reports every status but 200, clears
    [_data_collected] exactly then, and logs one record: an error for the
    six statuses of [ERROR_MESSAGES], a warning for the others.  It
    touches neither the participants nor the requests. *)
Theorem handle_api_error_spec (self : analyzer) (status_code : Z) :
  let failed := fst (Collector._handle_api_error self status_code) in
  let self' := snd (Collector._handle_api_error self status_code) in
  failed = negb (status_code =? 200) /\
  Collector._data_collected self' =
    (if failed then false else Collector._data_collected self) /\
  Collector.log self' =
    (Collector.log self ++
     if failed then
       [if existsb (Z.eqb status_code) Collector.ERROR_MESSAGES
        then Collector.ERROR else Collector.WARNING]
     else [])%list /\
  Collector.participants self' = Collector.participants self /\
  Collector.requests self' = Collector.requests self.
Proof.
  cbv zeta. unfold Collector._handle_api_error.
  destruct (existsb (Z.eqb status_code) Collector.ERROR_MESSAGES) eqn:E.
  - simpl. apply existsb_exists in E. destruct E as (c & Hc & Heq).
    apply Z.eqb_eq in Heq. subst c.
    assert (Hne : status_code <> 200).
    { simpl in Hc. intuition lia. }
    apply Z.eqb_neq in Hne. rewrite Hne. simpl. auto.
  - destruct (status_code =? 200); simpl; repeat split; auto.
    rewrite app_nil_r. reflexivity.
Qed.

Lemma item_errors_method e : In e item_errors -> In e method_errors.
Proof. intros H. unfold method_errors. apply in_or_app. left. exact H. Qed.

Lemma collect_pages_post fuel : forall page (self : analyzer) out,
  collected (Collector.participants self) ->
  collect_pages fuel page self = Some out ->
  pages_post fuel page self out.
Proof.
  induction fuel as [|fuel IH]; intros page self out Hc Hout; [discriminate|].
  cbn [Collector.collect_pages] in Hout.
  assert (Hone : (Collector.requests self ++ [Collector.IssuesPage page])%list =
                 (Collector.requests self ++ pages_from page 1)%list).
  { rewrite pages_from_S. reflexivity. }
  destruct (get_issues page) as [response|].
  2:{ injection Hout as <-. unfold pages_post. simpl. split; [exact Hc|].
      split; [exists 1%nat; split; [lia | exact Hone] | auto 10]. }
  set (self0 := Collector.send (Collector.IssuesPage page) self) in *.
  pose proof (handle_api_error_keeps self0 (Collector.status_code response)) as [Hp Hr].
  destruct (Collector._handle_api_error self0 (Collector.status_code response))
    as [failed self1]. simpl in Hp, Hr.
  assert (Hc1 : collected (Collector.participants self1)) by (rewrite Hp; exact Hc).
  assert (Hr1 : Collector.requests self1 =
                (Collector.requests self ++ pages_from page 1)%list)
    by (rewrite Hr; exact Hone).
  assert (Hstop : forall sig, raises_only method_errors sig ->
            pages_post (S fuel) page self (sig, self1)).
  { intros sig Hsig. unfold pages_post. simpl.
    split; [exact Hc1|]. split; [exists 1%nat; split; [lia | exact Hr1] | exact Hsig]. }
  destruct failed; [injection Hout as <-; apply Hstop; exact I|].
  destruct (Collector.json response) as [items|];
    [|injection Hout as <-; apply Hstop; simpl; auto 10].
  destruct (Collector.py_bool items); simpl in Hout;
    [|injection Hout as <-; apply Hstop; exact I].
  destruct (Collector.py_iter items) as [elements|e] eqn:Hiter.
  2:{ injection Hout as <-. apply Hstop. rewrite (py_iter_raises _ _ Hiter). simpl. auto. }
  pose proof (process_items_post fromisoformat week_index_of max_datetime get_pull
                elements self1 Hc1) as Hitems.
  destruct (Collector.process_items _ _ _ _ self1 elements) as [sig self2].
  destruct Hitems as (Q1 & Q2 & _ & Q4). simpl in Q1, Q2, Q4.
  assert (Hr2 : Collector.requests self2 =
                (Collector.requests self ++ pages_from page 1)%list)
    by (rewrite Q2; exact Hr1).
  destruct sig as [| |e].
  - destruct (Collector.has_next response).
    + apply IH in Hout; [|exact Q1]. destruct Hout as (R1 & (n & Hn & R2) & R3).
      unfold pages_post. split; [exact R1|]. split; [|exact R3].
      exists (S n). split; [lia|]. rewrite R2, Q2, Hr, (pages_from_S page n).
      rewrite <- app_assoc. reflexivity.
    + injection Hout as <-. unfold pages_post. simpl.
      split; [exact Q1|]. split; [exists 1%nat; split; [lia | exact Hr2] | auto].
  - injection Hout as <-. unfold pages_post. simpl.
    split; [exact Q1|]. split; [exists 1%nat; split; [lia | exact Hr2] | auto].
  - injection Hout as <-. unfold pages_post. simpl.
    split; [exact Q1|]. split; [exists 1%nat; split; [lia | exact Hr2]|].
    apply item_errors_method. exact Q4.
Qed.

Lemma collect_pages_pull_irrelevant get_pull' fuel : forall page (self : analyzer),
  collect_pages fuel page self =
  Collector.collect_pages fromisoformat week_index_of max_datetime get_issues get_pull'
    fuel page self.
Proof.
  induction fuel as [|fuel IH]; intros page self; [reflexivity|].
  cbn [Collector.collect_pages].
  destruct (get_issues page) as [response|]; [|reflexivity].
  destruct (Collector._handle_api_error _ _) as [[] self1]; [reflexivity|].
  destruct (Collector.json response) as [items|]; [|reflexivity].
  destruct (negb (Collector.py_bool items)); [reflexivity|].
  destruct (Collector.py_iter items) as [elements|e]; [|reflexivity].
  rewrite (process_items_pull_irrelevant _ _ _ get_pull get_pull').
  destruct (Collector.process_items _ _ _ _ self1 elements) as [[| |e] self2];
    [|reflexivity|reflexivity].
  destruct (Collector.has_next response); [apply IH | reflexivity].
Qed.

Lemma collect_pages_more_fuel fuel : forall page (self : analyzer) out extra,
  collect_pages fuel page self = Some out ->
  collect_pages (fuel + extra) page self = Some out.
Proof.
  induction fuel as [|fuel IH]; intros page self out extra Hout; [discriminate|].
  cbn [Collector.collect_pages Nat.add] in *.
  destruct (get_issues page) as [response|]; [|exact Hout].
  destruct (Collector._handle_api_error _ _) as [[] self1]; [exact Hout|].
  destruct (Collector.json response) as [items|]; [|exact Hout].
  destruct (negb (Collector.py_bool items)); [exact Hout|].
  destruct (Collector.py_iter items) as [elements|e]; [|exact Hout].
  destruct (Collector.process_items _ _ _ _ self1 elements) as [[| |e] self2];
    [|exact Hout|exact Hout].
  destruct (Collector.has_next response); [apply IH; exact Hout | exact Hout].
Qed.

Lemma collect_pages_returns k : forall page (self : analyzer),
  last_page get_issues (page + Z.of_nat k) ->
  exists out, collect_pages (S k) page self = Some out.
Proof.
  induction k as [|k IH]; intros page self Hlast; cbn [Collector.collect_pages].
  - rewrite Z.add_0_r in Hlast. unfold last_page in Hlast.
    destruct (get_issues page) as [response|]; [|eauto].
    destruct (Collector._handle_api_error _ _) as [[] self1]; [eauto|].
    destruct (Collector.json response) as [items|]; [|eauto].
    destruct (negb (Collector.py_bool items)); [eauto|].
    destruct (Collector.py_iter items) as [elements|e]; [|eauto].
    destruct (Collector.process_items _ _ _ _ self1 elements) as [[| |e] self2]; eauto.
    rewrite Hlast. eauto.
  - destruct (get_issues page) as [response|]; [|eauto].
    destruct (Collector._handle_api_error _ _) as [[] self1]; [eauto|].
    destruct (Collector.json response) as [items|]; [|eauto].
    destruct (negb (Collector.py_bool items)); [eauto|].
    destruct (Collector.py_iter items) as [elements|e]; [|eauto].
    destruct (Collector.process_items _ _ _ _ self1 elements) as [[| |e] self2]; eauto.
    destruct (Collector.has_next response); [|eauto].
    apply IH. replace (page + 1 + Z.of_nat k) with (page + Z.of_nat (S k)) by lia. exact Hlast.
Qed.

Lemma fold_emit_participants {A} (l : list A) level : forall (self : analyzer),
  Collector.participants (fold_left (fun self _ => Collector.emit level self) l self) =
  Collector.participants self /\
  Collector.requests (fold_left (fun self _ => Collector.emit level self) l self) =
  Collector.requests self.
Proof.
  induction l as [|x l IH]; intros self; [auto|]. simpl.
  destruct (IH (Collector.emit level self)) as [-> ->]. auto.
Qed.

Lemma after_pages_participants (self : analyzer) :
  Collector.participants (Collector.after_pages self) =
  List.filter (fun '(u, _) => negb (Collector.excluded u)) (Collector.participants self) /\
  Collector.requests (Collector.after_pages self) = Collector.requests self.
Proof.
  unfold Collector.after_pages.
  destruct (Collector.participants self) as [|p ps] eqn:E; [simpl; rewrite E; auto|].
  destruct (fold_emit_participants
              (List.filter (fun '(u, _) => negb (Collector.excluded u)) (p :: ps))
              Collector.DEBUG
              (Collector.emit Collector.DEBUG
                 (Collector.set_participants
                    (List.filter (fun '(u, _) => negb (Collector.excluded u)) (p :: ps))
                    self))) as [H1 H2].
  split; [exact H1 | exact H2].
Qed.

(** What the method may do. *)
Lemma collect_post fuel (self : analyzer) out self' :
  collected (Collector.participants self) ->
  collect_PRs_and_issues fuel self = Some (out, self') ->
  collected (Collector.participants self') /\
  (exists n, (n <= fuel)%nat /\
     Collector.requests self' = (Collector.requests self ++ pages_from 1 n)%list) /\
  (forall e, out = Some e -> In e method_errors).
Proof.
  intros Hc. unfold Collector.collect_PRs_and_issues.
  assert (Hskip : forall level, Some (@None Collector.error, Collector.emit level self) =
                                Some (out, self') ->
            collected (Collector.participants self') /\
            (exists n, (n <= fuel)%nat /\
               Collector.requests self' = (Collector.requests self ++ pages_from 1 n)%list) /\
            (forall e, out = Some e -> In e method_errors)).
  { intros level [= <- <-]. simpl. split; [exact Hc|]. split; [|discriminate].
    exists 0%nat. split; [lia|]. unfold pages_from. simpl. rewrite app_nil_r. reflexivity. }
  destruct (Collector.dry_run self); [apply Hskip|].
  destruct (Collector._is_test_repo self); [apply Hskip|].
  destruct (Collector._is_multiple_repos self); [apply Hskip|].
  destruct (collect_pages fuel 1 self) as [[sig self1]|] eqn:E; [|discriminate].
  apply collect_pages_post in E; [|exact Hc].
  destruct E as (Q1 & (m & Hm & Q2) & Q3). simpl in Q1, Q2, Q3.
  assert (Hreq : forall s : analyzer, Collector.requests s = Collector.requests self1 ->
            exists n, (n <= fuel)%nat /\
              Collector.requests s = (Collector.requests self ++ pages_from 1 n)%list).
  { intros s ->. exists m. split; [lia | exact Q2]. }
  destruct sig as [| |e]; intros [= <- <-].
  - destruct (after_pages_participants self1) as [Hp Hr].
    split; [rewrite Hp; apply collected_filter; exact Q1|].
    split; [apply Hreq; exact Hr | discriminate].
  - split; [exact Q1|]. split; [apply Hreq; reflexivity | discriminate].
  - split; [exact Q1|]. split; [apply Hreq; reflexivity|].
    intros e' [= <-]. exact Q3.
Qed.

(** X15.  What was collected can be scored: however the collection
    ended, when the keys of the participants that it leaves are strings
    ([ps] is that dictionary), [calculate_scores] returns on it. *)
Theorem collected_data_can_be_scored fuel (self : analyzer) out self' ps ui mc :
  collected (Collector.participants self) ->
  collect_PRs_and_issues fuel self = Some (out, self') ->
  Collector.participants self' = keyed ps ->
  exists r, calculate_scores (analyzer_of ps) ui mc = Ok r.
Proof.
  intros Hc Hrun Hps. destruct (collect_post fuel self out self' Hc Hrun) as (Hc' & _).
  rewrite Hps in Hc'.
  eexists. apply calculate_scores_unfold, collected_well_formed, collected_keyed, Hc'.
Qed.

(** X16.  Starting from the empty dictionary of [__init__], every
    participant has its seven counters, none is negative, and the two
    bug counters are zero. *)
Theorem bug_counters_stay_zero fuel (self : analyzer) out self' user info :
  Collector.participants self = [] ->
  collect_PRs_and_issues fuel self = Some (out, self') ->
  In (user, info) (Collector.participants self') ->
  counters_ok info = true /\ get_count info "p_bug" = 0 /\ get_count info "i_bug" = 0.
Proof.
  intros Hnil Hrun Hin.
  assert (Hc : collected (Collector.participants self)) by (rewrite Hnil; apply collected_nil).
  destruct (collect_post fuel self out self' Hc Hrun) as (Hc' & _).
  pose proof (collected_In _ _ _ Hc' Hin) as Hok. split; [exact Hok|].
  apply counters_ok_spec in Hok.
  destruct Hok as (a & b & c & d & e & _ & _ & _ & _ & _ & _ & H2 & _ & _ & _ & H6 & _).
  unfold get_count. rewrite H2, H6. auto.
Qed.


(** X18.  The branch that asks for the details of a pull request is
    dead: the method does the same whatever the answers to that request
    are. *)
Theorem pull_details_are_irrelevant get_pull' fuel (self : analyzer) :
  collect_PRs_and_issues fuel self =
  Collector.collect_PRs_and_issues fromisoformat week_index_of max_datetime
    get_issues get_pull' fuel self.
Proof.
  unfold Collector.collect_PRs_and_issues.
  rewrite (collect_pages_pull_irrelevant get_pull'). reflexivity.
Qed.

(** X19.  When the paging loop is left by [break], the method returns,
    the excluded users are removed and the other participants are kept
    as they are. *)
Theorem excluded_users_are_removed fuel (self self1 : analyzer) :
  Collector.dry_run self = false ->
  Collector._is_test_repo self = false ->
  Collector._is_multiple_repos self = false ->
  collect_pages fuel 1 self = Some (Collector.Next, self1) ->
  exists self',
    collect_PRs_and_issues fuel self = Some (None, self') /\
    (forall u, In u Collector.EXCLUDED_USERS ->
       Collector.lookup (Collector.participants self') (Collector.KStr u) = None) /\
    (forall user, (forall u, In u Collector.EXCLUDED_USERS -> user <> Collector.KStr u) ->
       Collector.lookup (Collector.participants self') user =
       Collector.lookup (Collector.participants self1) user).
Proof.
  intros H1 H2 H3 Hrun. exists (Collector.after_pages self1).
  unfold Collector.collect_PRs_and_issues. rewrite H1, H2, H3, Hrun.
  split; [reflexivity|].
  destruct (after_pages_participants self1) as [Hp _]. rewrite Hp.
  split; intros u Hu;
    rewrite (lookup_filter_keys (fun u => negb (Collector.excluded u))).
  - replace (Collector.excluded (Collector.KStr u)) with true; [reflexivity|].
    symmetry. apply existsb_exists. exists u. split; [exact Hu | apply String.eqb_refl].
  - replace (Collector.excluded u) with false; [reflexivity|].
    symmetry. apply not_true_is_false. intros H. destruct u as [| | |s]; try discriminate.
    apply existsb_exists in H.
    destruct H as (x & Hx & Heq). apply String.eqb_eq in Heq. subst x.
    exact (Hu s Hx eq_refl).
Qed.

(** X20.  When the first page is answered with a status other than 200,
    the method returns after that one request; [_data_collected] is
    cleared and [participants] is left as it was: the excluded users are
    not removed. *)
Theorem failed_first_page fuel (self : analyzer) response :
  Collector.dry_run self = false ->
  Collector._is_test_repo self = false ->
  Collector._is_multiple_repos self = false ->
  get_issues 1 = Some response ->
  Collector.status_code response <> 200 ->
  exists self',
    collect_PRs_and_issues (S fuel) self = Some (None, self') /\
    Collector.participants self' = Collector.participants self /\
    Collector._data_collected self' = false /\
    Collector.requests self' = (Collector.requests self ++ [Collector.IssuesPage 1])%list.
Proof.
  intros H1 H2 H3 Hresp Hstatus.
  unfold Collector.collect_PRs_and_issues. rewrite H1, H2, H3.
  cbn [Collector.collect_pages]. rewrite Hresp.
  pose proof (handle_api_error_keeps (Collector.send (Collector.IssuesPage 1) self)
                (Collector.status_code response)) as [Hp Hr].
  pose proof (handle_api_error_failed (Collector.send (Collector.IssuesPage 1) self)
                (Collector.status_code response) Hstatus) as [Hf Hd].
  destruct (Collector._handle_api_error _ _) as [failed self1]. simpl in Hf, Hd, Hp, Hr.
  subst failed. exists self1. auto.
Qed.

(** X21.  In a dry run, for the test repository and for the merged
    analysis the method returns at once, whatever the fuel: one record is
    logged, at debug level in a dry run and at info level otherwise, and
    nothing else changes; no request is sent. *)
Theorem skipped_collection fuel (self : analyzer) :
  Collector.dry_run self = true \/ Collector._is_test_repo self = true \/
  Collector._is_multiple_repos self = true ->
  collect_PRs_and_issues fuel self =
  Some (None, Collector.emit (if Collector.dry_run self then Collector.DEBUG
                              else Collector.INFO) self).
Proof.
  intros H. unfold Collector.collect_PRs_and_issues.
  destruct (Collector.dry_run self); [reflexivity|].
  destruct (Collector._is_test_repo self); [reflexivity|].
  destruct (Collector._is_multiple_repos self); [reflexivity|].
  destruct H as [H|[H|H]]; discriminate.
Qed.

(** X22.  If some page [k] ends the paging (the request for it fails or
    its answer has no link to a next page), [k] rounds are enough for the
    method to return, and more fuel does not change what it returns. *)
Theorem collection_returns (k : nat) (self : analyzer) :
  (1 <= k)%nat -> last_page get_issues (Z.of_nat k) ->
  exists result,
    collect_PRs_and_issues k self = Some result /\
    forall extra, collect_PRs_and_issues (k + extra) self = Some result.
Proof.
  intros Hk Hlast. destruct k as [|k]; [lia|].
  destruct (collect_pages_returns k 1 self) as [out Hout].
  { replace (1 + Z.of_nat k) with (Z.of_nat (S k)) by lia. exact Hlast. }
  unfold Collector.collect_PRs_and_issues.
  destruct (Collector.dry_run self); [eauto|].
  destruct (Collector._is_test_repo self); [eauto|].
  destruct (Collector._is_multiple_repos self); [eauto|].
  rewrite Hout. destruct out as [[| |e] self1]; eexists; (split; [reflexivity|]);
    intros extra; rewrite (collect_pages_more_fuel (S k) 1 self _ extra Hout); reflexivity.
Qed.

End CollectionTheorems.

Section ItemTheorems.

Context {datetime date : Type}.
Variable fromisoformat : string -> option datetime.
Variable week_index_of : date -> datetime -> option Z.
Variable max_datetime : datetime -> datetime -> option datetime.
Variable get_pull : Collector.jvalue -> option Collector.pull_response.

Abbreviation analyzer := (Collector.analyzer datetime date).

Abbreviation process_item :=
  (Collector.process_item fromisoformat week_index_of max_datetime get_pull).

Lemma py_item_in v key x :
  Collector.py_item v key = Collector.Returns x ->
  Collector.py_in key v = Collector.Returns true.
Proof.
  destruct v; simpl; try discriminate.
  destruct (dict_get members key); [reflexivity | discriminate].
Qed.

Lemma register_lookup author (self : analyzer) user :
  Collector.lookup (Collector.participants (Collector.register author self)) user =
  if bool_decide (author = user)
  then Some (counters_of (Collector.participants self) author)
  else Collector.lookup (Collector.participants self) user.
Proof.
  unfold Collector.register, counters_of.
  destruct (Collector.lookup (Collector.participants self) author) as [info|] eqn:E; simpl.
  - destruct (bool_decide_reflect (author = user)) as [<-|Hne]; [exact E | reflexivity].
  - apply lookup_store.
Qed.

Lemma register_keeps author (self : analyzer) user info :
  Collector.lookup (Collector.participants self) user = Some info ->
  Collector.lookup (Collector.participants (Collector.register author self)) user = Some info.
Proof.
  intros H. rewrite register_lookup.
  destruct (bool_decide_reflect (author = user)) as [<-|Hne]; [|exact H].
  unfold counters_of. rewrite H. reflexivity.
Qed.

Lemma credit_spec author counter (self : analyzer) info :
  Collector.lookup (Collector.participants self) author = Some info ->
  counters_ok info = true -> In counter credited_keys ->
  Collector.credit author counter self =
  (Collector.Next,
   Collector.set_participants
     (Collector.store (Collector.participants self) author
        (<[counter := get_count info counter + 1]> info)) self).
Proof.
  intros Hinfo Hok Hk. unfold Collector.credit.
  rewrite Hinfo, (counters_ok_credited info counter Hok Hk). reflexivity.
Qed.

(** X23.  Take an item whose [created_at] is a string that
    [fromisoformat] parses, on an instance with a semester start date,
    in a week that can be computed.  If the item is a pull request whose
    [pull_request] member is an object without a [merged_at] that counts
    as true, and its [state_reason] is one of those counted for issues,
    then it is counted as an issue in the weekly activity of its week,
    however the iteration ends; it credits nobody; the iteration goes on
    with the next item or raises [TypeError] or [AttributeError]; and
    when it goes on, the author is registered. *)
Theorem unmerged_pull_request_counts_as_issue (self : analyzer) item created
  server_create_datetime start week state_reason :
  Collector.py_item item "created_at" = Collector.Returns (Collector.JStr created) ->
  fromisoformat created = Some server_create_datetime ->
  Collector.semester_start_date self = Some start ->
  week_index_of start server_create_datetime = Some week ->
  Collector.py_in "pull_request" item = Collector.Returns true ->
  Collector.merged_pull_request item = Collector.Returns false ->
  Collector.py_get item "state_reason" Collector.JNull = Collector.Returns state_reason ->
  Collector.counted_reason state_reason = true ->
  let before := default (0, 0) (Collector.weekly_activity self !! week) in
  let out := process_item self item in
  Collector.weekly_activity (snd out) =
    <[week := (fst before, snd before + 1)]> (Collector.weekly_activity self) /\
  (forall user info,
     Collector.lookup (Collector.participants self) user = Some info ->
     Collector.lookup (Collector.participants (snd out)) user = Some info) /\
  (fst out = Collector.Next \/ fst out = Collector.Raise Collector.TypeError \/
   fst out = Collector.Raise Collector.AttributeError) /\
  (fst out = Collector.Next ->
   exists author,
     Collector.author_of item = Collector.Returns author /\
     Collector.participants (snd out) =
     Collector.participants (Collector.register author self)).
Proof.
  intros Hcreated Hiso Hstart Hweek Hpr Hmerged Hstate Hreason before out.
  assert (Hinline : forall pull_request merged_at_inline,
            Collector.py_get item "pull_request" (Collector.JDict []) =
              Collector.Returns pull_request ->
            Collector.py_get pull_request "merged_at" Collector.JNull =
              Collector.Returns merged_at_inline ->
            Collector.py_bool merged_at_inline = false).
  { intros pull_request merged_at_inline H1 H2.
    unfold Collector.merged_pull_request in Hmerged.
    rewrite Hpr in Hmerged. cbn [Collector.and_then] in Hmerged.
    rewrite H1 in Hmerged. cbn [Collector.and_then] in Hmerged.
    rewrite H2 in Hmerged. cbn [Collector.and_then] in Hmerged.
    congruence. }
  set (Q := fun (author : Collector.evaluated Collector.key)
                (out : Collector.signal * analyzer) =>
    Collector.weekly_activity (snd out) =
      <[week := (fst before, snd before + 1)]> (Collector.weekly_activity self) /\
    (forall user info,
       Collector.lookup (Collector.participants self) user = Some info ->
       Collector.lookup (Collector.participants (snd out)) user = Some info) /\
    (fst out = Collector.Next \/ fst out = Collector.Raise Collector.TypeError \/
     fst out = Collector.Raise Collector.AttributeError) /\
    (fst out = Collector.Next ->
     exists author0,
       author = Collector.Returns author0 /\
       Collector.participants (snd out) =
       Collector.participants (Collector.register author0 self))).
  change (Q (Collector.author_of item) out).
  assert (Hraise : forall author e (self1 : analyzer),
            e = Collector.TypeError \/ e = Collector.AttributeError ->
            Collector.weekly_activity self1 =
              <[week := (fst before, snd before + 1)]> (Collector.weekly_activity self) ->
            (forall user info,
               Collector.lookup (Collector.participants self) user = Some info ->
               Collector.lookup (Collector.participants self1) user = Some info) ->
            Q author (Collector.Raise e, self1)).
  { intros author e self1 He Hw Hp. unfold Q. cbn [fst snd].
    split; [exact Hw|]. split; [exact Hp|]. split; [|discriminate].
    destruct He as [-> | ->]; auto. }
  unfold out, Collector.process_item.
  rewrite (py_item_in _ _ _ Hcreated), Hcreated. cbn [Collector.evaluate negb].
  unfold Collector.parse_datetime. rewrite Hiso. cbn [Collector.evaluate].
  unfold Collector.count_week. rewrite Hstart, Hweek, Hmerged. cbn [Collector.and_then].
  rewrite Hstate. cbn [Collector.and_then]. rewrite Hreason.
  cbn [Collector.evaluate].
  set (self1 := Collector.count_week_issue week self).
  assert (Hw1 : Collector.weekly_activity self1 =
                <[week := (fst before, snd before + 1)]> (Collector.weekly_activity self)).
  { unfold self1, Collector.count_week_issue. fold before.
    destruct before as [pr_count issue_count]. reflexivity. }
  assert (Hp1 : Collector.participants self1 = Collector.participants self).
  { unfold self1, Collector.count_week_issue. destruct (default _ _). reflexivity. }
  clearbody self1.
  destruct (Collector.latest_of max_datetime self1 server_create_datetime)
    as [latest|e] eqn:Hlatest; cbn [Collector.evaluate].
  2:{ apply Hraise; [|exact Hw1|rewrite Hp1; auto]. left.
      unfold Collector.latest_of in Hlatest.
      destruct (Collector.__previous_create_at self1); [|discriminate].
      destruct (max_datetime _ _); congruence. }
  set (self2 := Collector.set_previous_create_at (Some latest) self1).
  assert (Hw2 : Collector.weekly_activity self2 =
                <[week := (fst before, snd before + 1)]> (Collector.weekly_activity self))
    by exact Hw1.
  assert (Hp2 : Collector.participants self2 = Collector.participants self) by exact Hp1.
  clearbody self2. clear Hw1 Hp1 Hlatest self1.
  destruct (Collector.author_of item) as [author|e] eqn:Hauthor; cbn [Collector.evaluate].
  2:{ apply Hraise; [|exact Hw2|rewrite Hp2; auto].
      destruct (author_of_raises _ _ Hauthor) as [-> | ->]; auto. }
  set (self3 := Collector.register author self2).
  assert (Hw3 : Collector.weekly_activity self3 =
                <[week := (fst before, snd before + 1)]> (Collector.weekly_activity self)).
  { unfold self3, Collector.register.
    destruct (Collector.lookup _ _); [exact Hw2 | exact Hw2]. }
  assert (Hp3 : Collector.participants self3 =
                Collector.participants (Collector.register author self)).
  { unfold self3, Collector.register. rewrite Hp2.
    destruct (Collector.lookup _ _); [exact Hp2 | reflexivity]. }
  clearbody self3. clear Hw2 Hp2 self2.
  assert (Hkeep : forall user info,
            Collector.lookup (Collector.participants self) user = Some info ->
            Collector.lookup (Collector.participants self3) user = Some info).
  { intros user info H. rewrite Hp3. apply register_keeps. exact H. }
  assert (Hnext : Q (Collector.Returns author) (Collector.Next, self3)).
  { unfold Q. cbn [fst snd]. split; [exact Hw3|]. split; [exact Hkeep|].
    split; [auto|]. intros _. exists author. auto. }
  destruct (Collector.label_names_of item) as [label_names|e] eqn:Hlabels;
    cbn [Collector.evaluate].
  2:{ apply Hraise; [|exact Hw3|exact Hkeep].
      destruct (label_names_of_raises _ _ Hlabels) as [-> | ->]; auto. }
  rewrite Hpr. cbn [Collector.evaluate].
  destruct (Collector.py_get item "number" Collector.JNull) as [pr_number|e] eqn:Hnumber;
    cbn [Collector.evaluate].
  2:{ apply Hraise; [|exact Hw3|exact Hkeep]. rewrite (py_get_raises _ _ _ _ Hnumber). auto. }
  destruct (Collector.is_none pr_number); [exact Hnext|].
  destruct (Collector.py_get item "pull_request" (Collector.JDict []))
    as [pull_request|e] eqn:Hobject; cbn [Collector.evaluate].
  2:{ apply Hraise; [|exact Hw3|exact Hkeep]. rewrite (py_get_raises _ _ _ _ Hobject). auto. }
  destruct (Collector.py_get pull_request "merged_at" Collector.JNull)
    as [merged_at_inline|e] eqn:Hinl; cbn [Collector.evaluate].
  2:{ apply Hraise; [|exact Hw3|exact Hkeep]. rewrite (py_get_raises _ _ _ _ Hinl). auto. }
  rewrite (Hinline _ _ eq_refl Hinl). exact Hnext.
Qed.

Lemma credited_lookup (self self' : analyzer) author counter before :
  Collector.lookup (Collector.participants self) author = Some before ->
  counters_ok before = true -> In counter credited_keys ->
  Collector.credit author counter self = (Collector.Next, self') ->
  Collector.lookup (Collector.participants self') author =
    Some (<[counter := get_count before counter + 1]> before) /\
  (forall user, user <> author ->
     Collector.lookup (Collector.participants self') user =
     Collector.lookup (Collector.participants self) user).
Proof.
  intros Hbefore Hok Hk Hrun.
  rewrite (credit_spec author counter self before Hbefore Hok Hk) in Hrun.
  injection Hrun as <-. simpl. split.
  - rewrite lookup_store.
    destruct (bool_decide_reflect (author = author)); [reflexivity | congruence].
  - intros user Hne. rewrite lookup_store.
    destruct (bool_decide_reflect (author = user)); [congruence | reflexivity].
Qed.

(** X24.  An item whose first label name is [enhancement] or [bug] is
    credited as an enhancement: when the iteration goes on with the next
    item, a merged pull request with a number has added one to the
    [p_enhancement] of its author, and an issue whose [state_reason] is
    counted has added one to the [i_enhancement] of its author; the
    other counters of the author (those of a new participant when the
    author was not known) and the other participants are as before. *)
Theorem bug_is_credited_as_enhancement (self self' : analyzer) item author label_names :
  collected (Collector.participants self) ->
  process_item self item = (Collector.Next, self') ->
  Collector.author_of item = Collector.Returns author ->
  Collector.label_names_of item = Collector.Returns label_names ->
  first_is_feature label_names = true ->
  let before := counters_of (Collector.participants self) author in
  (forall user, user <> author ->
     Collector.lookup (Collector.participants self') user =
     Collector.lookup (Collector.participants self) user) /\
  (Collector.merged_pull_request item = Collector.Returns true ->
   (forall pr_number,
      Collector.py_get item "number" Collector.JNull = Collector.Returns pr_number ->
      Collector.is_none pr_number = false) ->
   Collector.lookup (Collector.participants self') author =
   Some (<["p_enhancement" := get_count before "p_enhancement" + 1]> before)) /\
  (Collector.py_in "pull_request" item = Collector.Returns false ->
   (forall state_reason,
      Collector.py_get item "state_reason" Collector.JNull =
        Collector.Returns state_reason ->
      Collector.counted_reason state_reason = true) ->
   Collector.lookup (Collector.participants self') author =
   Some (<["i_enhancement" := get_count before "i_enhancement" + 1]> before)).
Proof.
  intros Hc Hrun Hauthor Hlabels Hfirst before.
  unfold Collector.process_item in Hrun. rewrite Hauthor, Hlabels in Hrun.
  destruct (Collector.py_in "created_at" item) as [[|]|]; cbn [Collector.evaluate negb] in Hrun;
    try discriminate.
  destruct (Collector.py_item item "created_at") as [created_at|];
    cbn [Collector.evaluate] in Hrun; [|discriminate].
  destruct (Collector.parse_datetime fromisoformat created_at) as [server_create_datetime|];
    cbn [Collector.evaluate] in Hrun; [|discriminate].
  destruct (Collector.count_week week_index_of self item server_create_datetime)
    as [self1|] eqn:Hweek; cbn [Collector.evaluate] in Hrun; [|discriminate].
  apply count_week_same in Hweek. destruct Hweek as (Hp1 & _).
  destruct (Collector.latest_of max_datetime self1 server_create_datetime) as [latest|];
    cbn [Collector.evaluate] in Hrun; [|discriminate].
  set (self2 := Collector.set_previous_create_at (Some latest) self1) in Hrun.
  assert (Hp2 : Collector.participants self2 = Collector.participants self) by exact Hp1.
  clearbody self2. clear Hp1 self1.
  assert (Hc2 : collected (Collector.participants self2)) by (rewrite Hp2; exact Hc).
  destruct (register_post author self2 Hc2) as (Hc3 & _).
  pose proof (register_lookup author self2) as Hreg. rewrite Hp2 in Hreg. fold before in Hreg.
  set (self3 := Collector.register author self2) in *. clearbody self3.
  assert (Hbefore : Collector.lookup (Collector.participants self3) author = Some before).
  { rewrite Hreg. destruct (bool_decide_reflect (author = author)); [reflexivity | congruence]. }
  assert (Hothers : forall user, user <> author ->
            Collector.lookup (Collector.participants self3) user =
            Collector.lookup (Collector.participants self) user).
  { intros user Hne. rewrite Hreg.
    destruct (bool_decide_reflect (author = user)); [congruence | reflexivity]. }
  assert (Hok : counters_ok before = true).
  { apply (collected_In _ author before Hc3). apply lookup_In; [apply Hc3 | exact Hbefore]. }
  clear Hreg Hc2 Hp2 self2.
  destruct label_names as [|first_label rest]; [discriminate|].
  cbn [first_is_feature] in Hfirst.
  destruct (Collector.py_get item "state_reason" Collector.JNull) as [state_reason|];
    cbn [Collector.evaluate] in Hrun; [|discriminate].
  unfold Collector.merged_pull_request.
  destruct (Collector.py_in "pull_request" item) as [[|]|];
    cbn [Collector.evaluate Collector.and_then] in Hrun |- *; [| |discriminate].
  - split; [|split; [|discriminate]].
    + destruct (Collector.py_get item "number" Collector.JNull) as [pr_number|];
        cbn [Collector.evaluate] in Hrun; [|discriminate].
      destruct (Collector.is_none pr_number); [injection Hrun as <-; exact Hothers|].
      destruct (Collector.py_get item "pull_request" (Collector.JDict []))
        as [pull_request|]; cbn [Collector.evaluate] in Hrun; [|discriminate].
      destruct (Collector.py_get pull_request "merged_at" Collector.JNull)
        as [merged_at_inline|]; cbn [Collector.evaluate] in Hrun; [|discriminate].
      unfold Collector.credit_pull_request in Hrun. rewrite Hfirst in Hrun.
      destruct (Collector.py_bool merged_at_inline); [|injection Hrun as <-; exact Hothers].
      destruct (credited_lookup self3 self' author "p_enhancement" before Hbefore Hok
                  ltac:(simpl; auto) Hrun) as [_ Hrest].
      intros user Hne. rewrite (Hrest user Hne). apply Hothers. exact Hne.
    + intros Hmerged Hnumber.
      destruct (Collector.py_get item "number" Collector.JNull) as [pr_number|];
        cbn [Collector.evaluate] in Hrun; [|discriminate].
      rewrite (Hnumber pr_number eq_refl) in Hrun.
      destruct (Collector.py_get item "pull_request" (Collector.JDict []))
        as [pull_request|]; cbn [Collector.evaluate Collector.and_then] in Hrun, Hmerged;
        [|discriminate].
      destruct (Collector.py_get pull_request "merged_at" Collector.JNull)
        as [merged_at_inline|]; cbn [Collector.evaluate Collector.and_then] in Hrun, Hmerged;
        [|discriminate].
      injection Hmerged as Hmerged. rewrite Hmerged in Hrun.
      unfold Collector.credit_pull_request in Hrun. rewrite Hfirst in Hrun.
      apply (credited_lookup self3 self' author "p_enhancement" before Hbefore Hok
               ltac:(simpl; auto) Hrun).
  - split; [|split; [discriminate|]].
    + unfold Collector.credit_issue in Hrun. rewrite Hfirst in Hrun.
      destruct (Collector.counted_reason state_reason); [|injection Hrun as <-; exact Hothers].
      destruct (credited_lookup self3 self' author "i_enhancement" before Hbefore Hok
                  ltac:(simpl; auto 10) Hrun) as [_ Hrest].
      intros user Hne. rewrite (Hrest user Hne). apply Hothers. exact Hne.
    + intros _ Hreason.
      unfold Collector.credit_issue in Hrun.
      rewrite (Hreason state_reason eq_refl), Hfirst in Hrun.
      apply (credited_lookup self3 self' author "i_enhancement" before Hbefore Hok
               ltac:(simpl; auto 10) Hrun).
Qed.

End ItemTheorems.

(** What the collection makes of the sample repository. *)
Lemma sample_run_returns :
  exists out self',
    Sample.run 2 = Some (out, self') /\
    forallb (fun p => is_username (fst p)) (Collector.participants self') = true.
Proof. eexists. eexists. split; vm_compute; reflexivity. Qed.

Lemma sample_pages_break :
  exists self1,
    Collector.collect_pages Sample.fromisoformat Sample.week_index_of
      Sample.max_datetime Sample.get_issues Sample.get_pull 2 1 Sample.fresh
    = Some (Collector.Next, self1).
Proof. eexists. vm_compute. reflexivity. Qed.

Lemma sample_bug_fix_next :
  exists self',
    Collector.process_item Sample.fromisoformat Sample.week_index_of Sample.max_datetime
      Sample.get_pull Sample.fresh Sample.merged_bug_fix = (Collector.Next, self').
Proof. eexists. vm_compute. reflexivity. Qed.

Lemma keyed_usernames {V} (ps : list (Collector.key * V)) :
  forallb (fun p => is_username (fst p)) ps = true -> ps = keyed (usernames ps).
Proof.
  unfold keyed, usernames. induction ps as [|[user v] ps IH]; simpl; intros H; [reflexivity|].
  apply andb_true_iff in H. destruct H as [Hu Hps].
  destruct user; try discriminate. simpl. f_equal. apply IH. exact Hps.
Qed.

Example sample_run_participants :
  option_map
    (fun r => map (fun p => (fst p, map (get_count (snd p)) counter_keys))
                  (Collector.participants (snd r)))
    (Sample.run 2) =
  Some [(Collector.KStr "alice", [1; 0; 0; 0; 1; 0; 0]);
        (Collector.KStr "bob", [0; 0; 0; 0; 0; 0; 0]);
        (Collector.KStr "carol", [0; 0; 0; 0; 0; 0; 0])].
Proof. vm_compute. reflexivity. Qed.

Example sample_run_log_and_weeks :
  option_map (fun r => (fst r, Collector.log (snd r), Collector.requests (snd r),
                        Collector.weekly_activity (snd r) !! 1,
                        Collector.weekly_activity (snd r) !! 2)) (Sample.run 2) =
  Some (None, [Collector.DEBUG; Collector.DEBUG; Collector.DEBUG; Collector.DEBUG],
        [Collector.IssuesPage 1; Collector.IssuesPage 2],
        Some (1, 2), Some (0, 1)).
Proof. vm_compute. reflexivity. Qed.

(** An issue of a deleted account, whose [user] is [null], ends the
    collection with [AttributeError]: the issue is counted in its week,
    and nobody is registered. *)
Example ghost_issue_raises :
  option_map (fun r => (fst r, map fst (Collector.participants (snd r)),
                        Collector.weekly_activity (snd r) !! 2))
             (Sample.run_on [Sample.ghost_issue]) =
  Some (Some Collector.AttributeError, [], Some (0, 1)).
Proof. vm_compute. reflexivity. Qed.

(** A label that is given by its name ends the collection with
    [AttributeError], after the author was registered. *)
Example named_label_raises :
  option_map (fun r => (fst r, map fst (Collector.participants (snd r))))
             (Sample.run_on [Sample.named_labels_issue]) =
  Some (Some Collector.AttributeError, [Collector.KStr "dave"]).
Proof. vm_compute. reflexivity. Qed.

(** A body that is an object, as the API sends it with an error message,
    is iterated by its keys: the first key has no ['created_at'] in it,
    and the method returns with a warning. *)
Example message_body_returns :
  option_map (fun r => (fst r, Collector.log (snd r)))
    (Collector.collect_PRs_and_issues Sample.fromisoformat Sample.week_index_of
       Sample.max_datetime
       (fun _ => Some {| Collector.status_code := 200;
                         Collector.json :=
                           Some (Collector.JDict [("message", Collector.JStr "Moved")]);
                         Collector.link := None |})
       Sample.get_pull 1 Sample.fresh) =
  Some (None, [Collector.WARNING]).
Proof. vm_compute. reflexivity. Qed.

(** The theorem at the sample repository. *)
Lemma collected_data_can_be_scored_witness :
  exists out self' r,
    Sample.run 2 = Some (out, self') /\
    calculate_scores (analyzer_of (usernames (Collector.participants self'))) None 0 = Ok r.
Proof.
  destruct sample_run_returns as (out & self' & E & Hs).
  destruct (collected_data_can_be_scored Sample.fromisoformat Sample.week_index_of
              Sample.max_datetime Sample.get_issues Sample.get_pull 2 Sample.fresh
              out self' (usernames (Collector.participants self')) None 0
              collected_nil E (keyed_usernames _ Hs)) as [r Hr].
  exists out, self', r. split; [exact E | exact Hr].
Defined.

(** The theorem at the sample repository. *)
Lemma bug_counters_stay_zero_witness :
  exists out self',
    Sample.run 2 = Some (out, self') /\
    forall user info, In (user, info) (Collector.participants self') ->
      get_count info "p_bug" = 0 /\ get_count info "i_bug" = 0.
Proof.
  destruct sample_run_returns as (out & self' & E & _).
  exists out, self'. split; [exact E|]. intros user info Hin.
  apply (bug_counters_stay_zero Sample.fromisoformat Sample.week_index_of
           Sample.max_datetime Sample.get_issues Sample.get_pull 2 Sample.fresh
           out self' user info eq_refl E Hin).
Defined.


(** The theorem at the sample repository: "kyagrd" is gone. *)
Lemma excluded_users_are_removed_witness :
  exists self',
    Sample.run 2 = Some (None, self') /\
    Collector.lookup (Collector.participants self') (Collector.KStr "kyagrd") = None.
Proof.
  destruct sample_pages_break as [self1 E].
  destruct (excluded_users_are_removed Sample.fromisoformat Sample.week_index_of
              Sample.max_datetime Sample.get_issues Sample.get_pull 2 Sample.fresh self1
              eq_refl eq_refl eq_refl E) as (self' & Hrun & Hex & _).
  exists self'. split; [exact Hrun|]. apply Hex. right. left. reflexivity.
Defined.

(** The theorem at a server that answers 403. *)
Lemma failed_first_page_witness :
  exists self',
    Collector.collect_PRs_and_issues Sample.fromisoformat Sample.week_index_of
      Sample.max_datetime Sample.forbidden Sample.get_pull 1 Sample.fresh
    = Some (None, self') /\
    Collector._data_collected self' = false.
Proof.
  destruct (failed_first_page Sample.fromisoformat Sample.week_index_of
              Sample.max_datetime Sample.forbidden Sample.get_pull 0 Sample.fresh
              {| Collector.status_code := 403;
                 Collector.json :=
                   Some (Collector.JDict [("message", Collector.JStr "Forbidden")]);
                 Collector.link := None |}
              eq_refl eq_refl eq_refl eq_refl ltac:(discriminate))
    as (self' & Hrun & _ & Hflag & _).
  exists self'. split; [exact Hrun | exact Hflag].
Defined.

(** The theorem at an instance of the test repository, without fuel: the
    record is logged at info level. *)
Lemma skipped_collection_witness :
  Collector.collect_PRs_and_issues Sample.fromisoformat Sample.week_index_of
    Sample.max_datetime Sample.get_issues Sample.get_pull 0 Sample.test_instance
  = Some (None, Collector.emit Collector.INFO Sample.test_instance).
Proof.
  exact (skipped_collection Sample.fromisoformat Sample.week_index_of
           Sample.max_datetime Sample.get_issues Sample.get_pull 0 Sample.test_instance
           (or_intror (or_introl eq_refl))).
Defined.

(** The theorem at the sample repository, whose second page is the last. *)
Lemma collection_returns_witness :
  exists result, forall extra, Sample.run (2 + extra) = Some result.
Proof.
  destruct (collection_returns Sample.fromisoformat Sample.week_index_of
              Sample.max_datetime Sample.get_issues Sample.get_pull 2 Sample.fresh
              ltac:(lia) ltac:(reflexivity)) as (result & _ & Hmore).
  exists result. exact Hmore.
Defined.

(** The theorem at the unmerged pull request of the sample repository:
    it is counted as an issue of the first week. *)
Lemma unmerged_pull_request_counts_as_issue_witness :
  Collector.weekly_activity
    (snd (Collector.process_item Sample.fromisoformat Sample.week_index_of
            Sample.max_datetime Sample.get_pull Sample.fresh
            Sample.unmerged_pull_request)) !! 1 = Some (0, 1) /\
  (forall user info,
     Collector.lookup (Collector.participants Sample.fresh) user = Some info ->
     Collector.lookup
       (Collector.participants
          (snd (Collector.process_item Sample.fromisoformat Sample.week_index_of
                  Sample.max_datetime Sample.get_pull Sample.fresh
                  Sample.unmerged_pull_request))) user = Some info).
Proof.
  destruct (unmerged_pull_request_counts_as_issue Sample.fromisoformat Sample.week_index_of
              Sample.max_datetime Sample.get_pull Sample.fresh Sample.unmerged_pull_request
              "2024-03-07T09:00:00+00:00" "2024-03-07T09:00:00+00:00" "2024-03-04" 1
              Collector.JNull eq_refl eq_refl eq_refl eq_refl eq_refl eq_refl eq_refl eq_refl)
    as (Hweek & Hkeep & _).
  split; [|exact Hkeep]. rewrite Hweek. apply lookup_insert_eq.
Defined.

(** The theorem at the merged pull request of the sample repository,
    whose first label is [bug]: one enhancement for "alice". *)
Lemma bug_is_credited_as_enhancement_witness :
  exists self' info,
    Collector.process_item Sample.fromisoformat Sample.week_index_of Sample.max_datetime
      Sample.get_pull Sample.fresh Sample.merged_bug_fix = (Collector.Next, self') /\
    Collector.lookup (Collector.participants self') (Collector.KStr "alice") = Some info /\
    map (get_count info) counter_keys = [1; 0; 0; 0; 0; 0; 0].
Proof.
  destruct sample_bug_fix_next as [self' E].
  destruct (bug_is_credited_as_enhancement Sample.fromisoformat Sample.week_index_of
              Sample.max_datetime Sample.get_pull Sample.fresh self' Sample.merged_bug_fix
              (Collector.KStr "alice") [Collector.JStr "bug"; Collector.JStr "typo"]
              collected_nil E eq_refl eq_refl eq_refl) as (_ & Hmerged & _).
  eexists self', _. split; [exact E|]. split.
  - apply Hmerged; [reflexivity|]. intros pr_number [= <-]. reflexivity.
  - vm_compute. reflexivity.
Defined.
